(** * feaLib lexer: a shallow embedding of [Lib/fontTools/feaLib/lexer.py]

    The file embeds the two classes of the module, [Lexer] (the scanner over
    one text buffer) and [IncludingLexer] (the stack of scanners that
    resolves [include] statements), and states the properties of the
    tokenizer over that embedding.

    Conventions of the embedding.
    - A Python text is a list of characters indexed from 0; characters are
      modelled by [ascii] (8-bit code points), which covers every character
      the scanner classifies.
    - A method that mutates [self] takes the object and returns the mutated
      object together with the value returned or the exception raised.
    - An exception is a value of [Exception]; besides [StopIteration] and
      [FeatureLibError] the interpreter's own [TypeError] and [ValueError]
      are kept apart, because the scanner can raise them.
    - The file system read by [codecs.open] is a function from paths to
      [OpenResult]. *)

From Stdlib Require Import List String Ascii ZArith Lia Bool Arith.
Import ListNotations.

Local Open Scope char_scope.
Local Open Scope string_scope.
Local Open Scope nat_scope.
Local Open Scope list_scope.

(** ** Python values used by the lexer *)

Definition Location : Type := (string * Z * Z)%type.

Inductive Exception : Type :=
| StopIteration
| FeatureLibError (message : string) (location : Location)
| TypeError
| ValueError
| UnicodeDecodeError.

Inductive TokenType : Type :=
| NUMBER | STRING | NAME | FILENAME | GLYPHCLASS | CID | SYMBOL
| COMMENT | NEWLINE.

(** The second component of a token: an [int], a text, or [None]. *)
Inductive TokenValue : Type :=
| IntValue (n : Z)
| StrValue (s : string)
| NoneValue.

Definition Token : Type := (TokenType * TokenValue * Location)%type.

Definition token_type (t : Token) : TokenType := fst (fst t).
Definition token_value (t : Token) : TokenValue := snd (fst t).
Definition token_location (t : Token) : Location := snd t.

(** Result of a method call on an object of type [S]: the object after the
    call, with the returned value or the raised exception. *)
Inductive Outcome (A S : Type) : Type :=
| Return (a : A) (s : S)
| Raise (e : Exception) (s : S).
Arguments Return {A S} a s.
Arguments Raise {A S} e s.

Definition TokenType_eqb (a b : TokenType) : bool :=
  match a, b with
  | NUMBER, NUMBER | STRING, STRING | NAME, NAME | FILENAME, FILENAME
  | GLYPHCLASS, GLYPHCLASS | CID, CID | SYMBOL, SYMBOL
  | COMMENT, COMMENT | NEWLINE, NEWLINE => true
  | _, _ => false
  end.

(** ** Characters and texts *)

Definition LF : ascii := "010".
Definition CR : ascii := "013".
Definition TAB : ascii := "009".
Definition DQUOTE : ascii := "034".
Definition BACKSLASH : ascii := "\".

Definition chars (s : string) : list ascii := list_ascii_of_string s.
Definition text_of (cs : list ascii) : string := string_of_list_ascii cs.

(** [c in set] for a one-character text [c]. *)
Definition char_in (c : ascii) (set : string) : bool :=
  existsb (Ascii.eqb c) (chars set).

(** [c in set] where [c] may be [None]: Python raises [TypeError] for
    [None in "..."], which is the result [None] here. *)
Definition in_ (c : option ascii) (set : string) : option bool :=
  match c with
  | Some c => Some (char_in c set)
  | None => None
  end.

(** [text[a:b]] for [0 <= a]: empty when [b <= a], cut at the end of [text]. *)
Definition slice (text : list ascii) (a b : nat) : list ascii :=
  firstn (b - a) (skipn a text).

(** *** [int(s, base)]

    The texts the lexer converts consist of an optional sign, an optional
    [0x] prefix (base 16 only) and digits; [None] stands for [ValueError]. *)

Definition digit_value (c : ascii) : option Z :=
  let n := Z.of_nat (nat_of_ascii c) in
  if ((48 <=? n) && (n <=? 57))%Z then Some (n - 48)%Z
  else if ((97 <=? n) && (n <=? 102))%Z then Some (n - 87)%Z
  else if ((65 <=? n) && (n <=? 70))%Z then Some (n - 55)%Z
  else None.

Fixpoint digits_value (base acc : Z) (ds : list ascii) : option Z :=
  match ds with
  | [] => Some acc
  | d :: ds' =>
      match digit_value d with
      | Some v => if (v <? base)%Z
                  then digits_value base (acc * base + v)%Z ds'
                  else None
      | None => None
      end
  end.

Definition strip_sign (s : list ascii) : bool * list ascii :=
  match s with
  | "-"%char :: r => (true, r)
  | "+"%char :: r => (false, r)
  | _ => (false, s)
  end.

Definition strip_hex_prefix (base : Z) (s : list ascii) : list ascii :=
  if (base =? 16)%Z then
    match s with
    | "0"%char :: "x"%char :: r => r
    | "0"%char :: "X"%char :: r => r
    | _ => s
    end
  else s.

Definition int_ (s : list ascii) (base : Z) : option Z :=
  let (negative, body) := strip_sign s in
  match strip_hex_prefix base body with
  | [] => None
  | ds =>
      match digits_value base 0 ds with
      | Some v => Some (if negative then (- v)%Z else v)
      | None => None
      end
  end.

(** ** [os.path] (POSIX flavour) *)

Module posixpath.

(** Splits at the last slash; the first part keeps that slash. *)
Fixpoint cut_last_slash (p : list ascii)
  : option (list ascii * list ascii) :=
  match p with
  | [] => None
  | c :: r =>
      match cut_last_slash r with
      | Some (h, t) => Some (c :: h, t)
      | None => if Ascii.eqb c "/" then Some ([c], r) else None
      end
  end.

Fixpoint lstrip_slash (p : list ascii) : list ascii :=
  match p with
  | c :: r => if Ascii.eqb c "/" then lstrip_slash r else p
  | [] => []
  end.

Definition rstrip_slash (p : list ascii) : list ascii :=
  rev (lstrip_slash (rev p)).

(** [os.path.split(p)]. *)
Definition split (p : string) : string * string :=
  let (head, tail) :=
    match cut_last_slash (chars p) with
    | Some ht => ht
    | None => ([], chars p)
    end in
  let head :=
    match head with
    | [] => head
    | _ => if forallb (Ascii.eqb "/") head then head else rstrip_slash head
    end in
  (text_of head, text_of tail).

(** [os.path.join(a, b)]. *)
Definition join (a b : string) : string :=
  match chars b with
  | "/"%char :: _ => b
  | _ =>
      match rev (chars a) with
      | [] => b
      | "/"%char :: _ => (a ++ b)%string
      | _ => (a ++ "/" ++ b)%string
      end
  end.

End posixpath.

(** ** class Lexer *)

Module Lexer.

Definition CHAR_WHITESPACE_ : string := String " " (String TAB "").
Definition CHAR_NEWLINE_ : string := String CR (String LF "").
Definition CHAR_SYMBOL_ : string := ";:-+'{}[]<>()=".
Definition CHAR_DIGIT_ : string := "0123456789".
Definition CHAR_HEXDIGIT_ : string := "0123456789ABCDEFabcdef".
Definition CHAR_LETTER_ : string :=
  "ABCDEFGHIJKLMNOPQRSTUVWXYZabcdefghijklmnopqrstuvwxyz".
Definition CHAR_NAME_START_ : string :=
  (CHAR_LETTER_ ++ "_+*:.^~!\")%string.
Definition CHAR_NAME_CONTINUATION_ : string :=
  (CHAR_LETTER_ ++ CHAR_DIGIT_ ++ "_.+*:^~!")%string.

(** [RE_GLYPHCLASS.match(s)] for the pattern [^[A-Za-z_0-9.]+$]. *)
Definition RE_GLYPHCLASS_match (s : list ascii) : bool :=
  match s with
  | [] => false
  | _ => forallb
           (fun c =>
              char_in c (CHAR_LETTER_ ++ "_" ++ CHAR_DIGIT_ ++ ".")%string)
           s
  end.

Inductive Mode : Type := MODE_NORMAL_ | MODE_FILENAME_.

Record t : Type := mk {
  filename_ : string;
  line_ : Z;
  pos_ : nat;
  line_start_ : nat;
  text_ : list ascii;
  mode_ : Mode
}.

(** [text_length_] is set once to [len(text)] and never assigned again. *)
Definition text_length_ (self : t) : nat := List.length (text_ self).

Definition set_pos_ (self : t) (p : nat) : t :=
  mk (filename_ self) (line_ self) p (line_start_ self) (text_ self)
     (mode_ self).

Definition set_mode_ (self : t) (m : Mode) : t :=
  mk (filename_ self) (line_ self) (pos_ self) (line_start_ self)
     (text_ self) m.

(** [pos_ = p; line_ += 1; line_start_ = pos_]. *)
Definition new_line_ (self : t) (p : nat) : t :=
  mk (filename_ self) (line_ self + 1)%Z p p (text_ self) (mode_ self).

(** [Lexer(text, filename)]. *)
Definition init (text filename : string) : t :=
  mk filename 1 0 0 (chars text) MODE_NORMAL_.

(** The loop shared by [scan_over_] and [scan_until_]: advance [p] while
    [p < text_length_] and the character at [p] satisfies [keep].  The
    loop runs at most [text_length_ - p] times, which is the [fuel]. *)
Fixpoint scan (keep : ascii -> bool) (text : list ascii) (p fuel : nat)
  : nat :=
  match fuel with
  | O => p
  | S fuel' =>
      match nth_error text p with
      | Some c => if keep c then scan keep text (S p) fuel' else p
      | None => p
      end
  end.

Definition scan_over_ (self : t) (valid : string) : t :=
  set_pos_ self
    (scan (fun c => char_in c valid) (text_ self) (pos_ self)
          (text_length_ self - pos_ self)).

Definition scan_until_ (self : t) (stop_at : string) : t :=
  set_pos_ self
    (scan (fun c => negb (char_in c stop_at)) (text_ self) (pos_ self)
          (text_length_ self - pos_ self)).

Definition location_ (self : t) : Location :=
  (filename_ self, line_ self,
   (Z.of_nat (pos_ self) - Z.of_nat (line_start_ self) + 1)%Z).

(** The branch of [next_] for [MODE_FILENAME_] (lines 81-92). *)
Definition next_filename_ (self : t) (start : nat) (cur_char : ascii)
           (location : Location) : Outcome Token t :=
  let text := text_ self in
  if negb (Ascii.eqb cur_char "(") then
    Raise (FeatureLibError "Expected '(' before file name" location) self
  else
    let self := scan_until_ self ")" in
    let cur_char := nth_error text (pos_ self) in     (* [None] at the end *)
    if negb (match cur_char with
             | Some c => Ascii.eqb c ")"
             | None => false
             end) then
      Raise (FeatureLibError "Expected ')' after file name" location) self
    else
      let self := set_pos_ self (pos_ self + 1) in
      let self := set_mode_ self MODE_NORMAL_ in
      Return (FILENAME,
              StrValue (text_of (slice text (start + 1) (pos_ self - 1))),
              location) self.

(** [a == c and next_char in set]: the right operand is evaluated only
    when the left one holds; [None] is the [TypeError]. *)
Definition and_in_ (left : bool) (next_char : option ascii) (set : string)
  : option bool :=
  if left then in_ next_char set else Some false.

Definition number_ (text : list ascii) (start stop : nat) (base : Z)
           (kind : TokenType) (location : Location) (self : t)
  : Outcome Token t :=
  match int_ (slice text start stop) base with
  | Some n => Return (kind, IntValue n, location) self
  | None => Raise ValueError self
  end.

(** The glyph class branch (lines 98-112). *)
Definition next_glyphclass_ (self : t) (start : nat) (location : Location)
  : Outcome Token t :=
  let text := text_ self in
  let self := set_pos_ self (pos_ self + 1) in
  let self := scan_over_ self CHAR_NAME_CONTINUATION_ in
  let glyphclass := slice text (start + 1) (pos_ self) in
  if (List.length glyphclass <? 1)%nat then
    Raise (FeatureLibError "Expected glyph class name" location) self
  else if (30 <? List.length glyphclass)%nat then
    Raise (FeatureLibError
             "Glyph class names must not be longer than 30 characters"
             location) self
  else if negb (RE_GLYPHCLASS_match glyphclass) then
    Raise (FeatureLibError
             ("Glyph class names must consist of letters, digits, " ++
              "underscore, or period")%string location) self
  else Return (GLYPHCLASS, StrValue (text_of glyphclass), location) self.

(** The string branch (lines 134-142). *)
Definition next_string_ (self : t) (start : nat) (location : Location)
  : Outcome Token t :=
  let text := text_ self in
  let self := set_pos_ self (pos_ self + 1) in
  let self := scan_until_ self (String DQUOTE CHAR_NEWLINE_) in
  match nth_error (text_ self) (pos_ self) with
  | Some c =>
      if Ascii.eqb c DQUOTE then
        let self := set_pos_ self (pos_ self + 1) in
        Return (STRING,
                StrValue (text_of (slice text (start + 1) (pos_ self - 1))),
                location) self
      else
        Raise (FeatureLibError
                 ("Expected '" ++ String DQUOTE "' to terminate string")%string
                 location) self
  | None =>
      Raise (FeatureLibError
               ("Expected '" ++ String DQUOTE "' to terminate string")%string
               location) self
  end.

(** The branches of [next_] for [MODE_NORMAL_] (lines 94-144), in the
    order of the source. *)
Definition next_normal_ (self : t) (start : nat)
           (cur_char : ascii) (next_char : option ascii)
           (location : Location) : Outcome Token t :=
  let text := text_ self in
  match and_in_ (Ascii.eqb cur_char BACKSLASH) next_char CHAR_DIGIT_ with
  | None => Raise TypeError self
  | Some true =>
      let self := set_pos_ self (pos_ self + 1) in
      let self := scan_over_ self CHAR_DIGIT_ in
      number_ text (start + 1) (pos_ self) 10 CID location self
  | Some false =>
  if Ascii.eqb cur_char "@" then next_glyphclass_ self start location
  else if char_in cur_char CHAR_NAME_START_ then
    let self := set_pos_ self (pos_ self + 1) in
    let self := scan_over_ self CHAR_NAME_CONTINUATION_ in
    let token := text_of (slice text start (pos_ self)) in
    let self := if String.eqb token "include"
                then set_mode_ self MODE_FILENAME_ else self in
    Return (NAME, StrValue token, location) self
  else
  match and_in_ (Ascii.eqb cur_char "0") next_char "xX" with
  | None => Raise TypeError self
  | Some true =>
      let self := set_pos_ self (pos_ self + 2) in
      let self := scan_over_ self CHAR_HEXDIGIT_ in
      number_ text start (pos_ self) 16 NUMBER location self
  | Some false =>
  if char_in cur_char CHAR_DIGIT_ then
    let self := scan_over_ self CHAR_DIGIT_ in
    number_ text start (pos_ self) 10 NUMBER location self
  else
  match and_in_ (Ascii.eqb cur_char "-") next_char CHAR_DIGIT_ with
  | None => Raise TypeError self
  | Some true =>
      let self := set_pos_ self (pos_ self + 1) in
      let self := scan_over_ self CHAR_DIGIT_ in
      number_ text start (pos_ self) 10 NUMBER location self
  | Some false =>
  if char_in cur_char CHAR_SYMBOL_ then
    let self := set_pos_ self (pos_ self + 1) in
    Return (SYMBOL, StrValue (String cur_char ""), location) self
  else if Ascii.eqb cur_char DQUOTE then next_string_ self start location
  else
    Raise (FeatureLibError
             ("Unexpected character: '" ++ String cur_char "'")%string
             location)
          self
  end end end.

(** [Lexer.next_]: the next raw token. *)
Definition next_ (self : t) : Outcome Token t :=
  let self := scan_over_ self CHAR_WHITESPACE_ in
  let location := location_ self in
  let start := pos_ self in
  let text := text_ self in
  match nth_error text start with
  | None => Raise StopIteration self          (* start >= limit *)
  | Some cur_char =>
      let next_char := nth_error text (start + 1) in
      if Ascii.eqb cur_char LF then
        Return (NEWLINE, NoneValue, location) (new_line_ self (start + 1))
      else if Ascii.eqb cur_char CR then
        let step := match next_char with
                    | Some c => if Ascii.eqb c LF then 2 else 1
                    | None => 1
                    end in
        Return (NEWLINE, NoneValue, location)
               (new_line_ self (start + step))
      else if Ascii.eqb cur_char "#" then
        let self := scan_until_ self CHAR_NEWLINE_ in
        Return (COMMENT, StrValue (text_of (slice text start (pos_ self))),
                location) self
      else
        match mode_ self with
        | MODE_FILENAME_ => next_filename_ self start cur_char location
        | MODE_NORMAL_ =>
            next_normal_ self start cur_char next_char location
        end
  end.

(** [Lexer.__next__] (and its Python 2 alias [next]): calls [next_] until
    the token is neither [COMMENT] nor [NEWLINE].  Each skipped token
    consumes a character, so [text_length_ - pos_ + 1] rounds suffice;
    the result [None] stands for a loop that needs more rounds. *)
Fixpoint next_loop (fuel : nat) (self : t) : option (Outcome Token t) :=
  match fuel with
  | O => None
  | S fuel' =>
      match next_ self with
      | Return (COMMENT, _, _) self' => next_loop fuel' self'
      | Return (NEWLINE, _, _) self' => next_loop fuel' self'
      | r => Some r
      end
  end.

Definition next (self : t) : option (Outcome Token t) :=
  next_loop (S (text_length_ self - pos_ self)) self.

End Lexer.

(** ** The file system seen by [codecs.open(filename, "rb", "utf-8")] *)

Inductive OpenResult : Type :=
| Opened (text : string)       (* the decoded contents returned by [f.read()] *)
| IOError (err : string)       (* [IOError] raised; [err] is [str(err)] *)
| DecodeError                  (* [f.read()] raises [UnicodeDecodeError]:
                                  the bytes of the file are not UTF-8 *)
| InvalidPath.                 (* [codecs.open] raises [ValueError]: a NUL
                                  character in the path (Python 3) *)

Definition FileSystem : Type := string -> OpenResult.

(** ** class IncludingLexer *)

Module IncludingLexer.

(** [lexers_] is kept with the top of the stack first: [lexers_[-1]] is
    the head, [append] is a cons and [pop()] drops the head. *)
Record t : Type := mk { lexers_ : list Lexer.t }.

(** [IncludingLexer.make_lexer_(filename, location)]. *)
Definition make_lexer_ (fs : FileSystem) (filename : string)
           (location : Location) : Lexer.t + Exception :=
  match fs filename with
  | Opened text => inl (Lexer.init text filename)
  | IOError err => inr (FeatureLibError err location)
  | DecodeError => inr UnicodeDecodeError
  | InvalidPath => inr ValueError
  end.

(** [IncludingLexer(filename)]. *)
Definition init (fs : FileSystem) (filename : string) : t + Exception :=
  match make_lexer_ fs filename (filename, 0%Z, 0%Z) with
  | inl lexer => inl (mk [lexer])
  | inr e => inr e
  end.

Definition is_include (token_type : TokenType) (token : TokenValue)
  : bool :=
  match token_type, token with
  | NAME, StrValue s => String.eqb s "include"
  | _, _ => false
  end.

Definition is_semicolon (semi_type : TokenType) (semi_token : TokenValue)
  : bool :=
  match semi_type, semi_token with
  | SYMBOL, StrValue s => String.eqb s ";"
  | _, _ => false
  end.

(** Lines 184-190: the file name and the semicolon have been read from
    [lexer], which sits on top of [below]. *)
Definition push_include_ (fs : FileSystem) (lexer : Lexer.t)
           (below : list Lexer.t) (fname_token : TokenValue)
           (fname_location : Location) : Outcome unit t :=
  let stack := mk (lexer :: below) in
  match fname_token with
  | StrValue fname =>
      let (curpath, _) := posixpath.split (Lexer.filename_ lexer) in
      let path := posixpath.join curpath fname in
      if 5 <=? List.length (lexers_ stack) then
        Raise (FeatureLibError "Too many recursive includes"
                               fname_location) stack
      else
        match make_lexer_ fs path fname_location with
        | inl new_lexer => Return tt (mk (new_lexer :: lexer :: below))
        | inr e => Raise e stack
        end
  | _ => Raise TypeError stack      (* [os.path.join] of a non-text *)
  end.

(** Lines 177-190: [lexer] has just returned the name [include]; the
    result is the stack after the push, or the exception raised on the
    way.  An exception raised by [lexer.next()] here, [StopIteration]
    included, is not caught. *)
Definition include_ (fs : FileSystem) (lexer : Lexer.t)
           (below : list Lexer.t) : option (Outcome unit t) :=
  match Lexer.next lexer with
  | None => None
  | Some (Raise e lexer) => Some (Raise e (mk (lexer :: below)))
  | Some (Return (fname_type, fname_token, fname_location) lexer) =>
      if negb (TokenType_eqb fname_type FILENAME) then
        Some (Raise (FeatureLibError "Expected file name" fname_location)
                    (mk (lexer :: below)))
      else
        match Lexer.next lexer with
        | None => None
        | Some (Raise e lexer) => Some (Raise e (mk (lexer :: below)))
        | Some (Return (semi_type, semi_token, semi_location) lexer) =>
            if negb (is_semicolon semi_type semi_token) then
              Some (Raise (FeatureLibError "Expected ';'" semi_location)
                          (mk (lexer :: below)))
            else
              Some (push_include_ fs lexer below fname_token
                                  fname_location)
        end
  end.

(** [IncludingLexer.__next__] (and its alias [next]).  [fuel] bounds the
    number of rounds of the [while] loop; [None] stands for a call that
    needs more rounds. *)
Fixpoint next (fs : FileSystem) (fuel : nat) (self : t)
  : option (Outcome Token t) :=
  match fuel with
  | O => None
  | S fuel' =>
      match lexers_ self with
      | [] => Some (Raise StopIteration self)
      | lexer :: below =>
          match Lexer.next lexer with
          | None => None
          | Some (Raise StopIteration _) => next fs fuel' (mk below)
          | Some (Raise e lexer) => Some (Raise e (mk (lexer :: below)))
          | Some (Return (token_type, token, location) lexer) =>
              if is_include token_type token then
                match include_ fs lexer below with
                | None => None
                | Some (Return _ self) => next fs fuel' self
                | Some (Raise e self) => Some (Raise e self)
                end
              else
                Some (Return (token_type, token, location)
                             (mk (lexer :: below)))
          end
      end
  end.

(** [list(lexer)] cut after [n] tokens: the tokens returned by successive
    calls of [next], up to the first exception, which ends the list and
    is returned with it. *)
Fixpoint tokens (fs : FileSystem) (fuel n : nat) (self : t)
  : option (list Token * option Exception) :=
  match n with
  | O => Some ([], None)
  | S n' =>
      match next fs fuel self with
      | None => None
      | Some (Raise e _) => Some ([], Some e)
      | Some (Return tok self) =>
          match tokens fs fuel n' self with
          | None => None
          | Some (toks, e) => Some (tok :: toks, e)
          end
      end
  end.

End IncludingLexer.

(** [list(Lexer(text, filename))], cut after [n] tokens. *)
Fixpoint Lexer_tokens (n : nat) (self : Lexer.t)
  : option (list Token * option Exception) :=
  match n with
  | O => Some ([], None)
  | S n' =>
      match Lexer.next self with
      | None => None
      | Some (Raise e _) => Some ([], Some e)
      | Some (Return tok self) =>
          match Lexer_tokens n' self with
          | None => None
          | Some (toks, e) => Some (tok :: toks, e)
          end
      end
  end.


(** ** Notions used to state the properties *)

Definition outcome_state {A S : Type} (r : Outcome A S) : S :=
  match r with
  | Return _ s => s
  | Raise _ s => s
  end.

(** The token types [Lexer.__next__] does not return. *)
Definition filtered (k : TokenType) : bool :=
  match k with
  | COMMENT | NEWLINE => true
  | _ => false
  end.

(** [skipped s s']: from [s], calls of [next_] that return only [COMMENT]
    and [NEWLINE] tokens lead to [s']. *)
Inductive skipped : Lexer.t -> Lexer.t -> Prop :=
| skipped_refl (s : Lexer.t) : skipped s s
| skipped_step (s s1 s2 : Lexer.t) (tok : Token) :
    Lexer.next_ s = Return tok s1 ->
    filtered (token_type tok) = true ->
    skipped s1 s2 ->
    skipped s s2.

(** An outcome [Lexer.__next__] can end with. *)
Definition unfiltered (r : Outcome Token Lexer.t) : Prop :=
  match r with
  | Return tok _ => filtered (token_type tok) = false
  | Raise _ _ => True
  end.

Definition loc_file (l : Location) : string := fst (fst l).
Definition loc_line (l : Location) : Z := snd (fst l).
Definition loc_column (l : Location) : Z := snd l.

Definition one_based (l : Location) : Prop :=
  (1 <= loc_line l)%Z /\ (1 <= loc_column l)%Z.

(** The location carried by an exception or an outcome, if any. *)
Definition exception_location (e : Exception) : option Location :=
  match e with
  | FeatureLibError _ l => Some l
  | _ => None
  end.

Definition outcome_location {S : Type} (r : Outcome Token S)
  : option Location :=
  match r with
  | Return tok _ => Some (token_location tok)
  | Raise e _ => exception_location e
  end.

(** The counters of a scanner are consistent. *)
Definition Lexer_ok (s : Lexer.t) : Prop :=
  (1 <= Lexer.line_ s)%Z /\ Lexer.line_start_ s <= Lexer.pos_ s.

(** The states of a resolver opened on [root]: the one [IncludingLexer(root)]
    builds and those any sequence of calls of [next] leads to, whatever the
    calls return or raise. *)
Inductive reachable (fs : FileSystem) (root : string)
  : IncludingLexer.t -> Prop :=
| reachable_init (self : IncludingLexer.t) :
    IncludingLexer.init fs root = inl self ->
    reachable fs root self
| reachable_next (self : IncludingLexer.t) (fuel : nat)
                 (r : Outcome Token IncludingLexer.t) :
    reachable fs root self ->
    IncludingLexer.next fs fuel self = Some r ->
    reachable fs root (outcome_state r).

(** The counters of every scanner of the stack are consistent and the
    stack holds at most five scanners. *)
Definition Stack_ok (self : IncludingLexer.t) : Prop :=
  Forall Lexer_ok (IncludingLexer.lexers_ self) /\
  List.length (IncludingLexer.lexers_ self) <= 5.

(** The path of the file an include statement of [lexer] names. *)
Definition include_path (lexer : Lexer.t) (f : string) : string :=
  posixpath.join (fst (posixpath.split (Lexer.filename_ lexer))) f.

Definition TOO_MANY_INCLUDES : string := "Too many recursive includes".

(** ** Example sources *)

(** [f1.fea] includes [f2.fea], which includes [f3.fea], and so on up to
    [last], which holds one glyph name and no include statement: with
    [last = "f5.fea"] the chain has four nested include statements and five
    files, with [last = "f6.fea"] five statements and six files, with
    [last = "f7.fea"] six statements and seven files. *)
Definition chain (last : string) : FileSystem := fun p =>
  if String.eqb p last then Opened "glyph"
  else if String.eqb p "f1.fea" then Opened "include(f2.fea);"
  else if String.eqb p "f2.fea" then Opened "include(f3.fea);"
  else if String.eqb p "f3.fea" then Opened "include(f4.fea);"
  else if String.eqb p "f4.fea" then Opened "include(f5.fea);"
  else if String.eqb p "f5.fea" then Opened "include(f6.fea);"
  else if String.eqb p "f6.fea" then Opened "include(f7.fea);"
  else IOError "No such file or directory".

(** A directory with one file, [root.fea], of contents [text]. *)
Definition single (text : string) : FileSystem := fun p =>
  if String.eqb p "root.fea" then Opened text
  else IOError "No such file or directory".

(** The example of two includes in a row. *)
Definition two_includes : FileSystem := fun p =>
  if String.eqb p "root.fea" then Opened "include(a.fea); include(b.fea);"
  else if String.eqb p "a.fea" then Opened "foo"
  else if String.eqb p "b.fea" then Opened "bar"
  else IOError "No such file or directory".

(** [root.fea] includes [bad.fea], whose bytes are not UTF-8. *)
Definition undecodable_include : FileSystem := fun p =>
  if String.eqb p "root.fea" then Opened "include(bad.fea);"
  else if String.eqb p "bad.fea" then DecodeError
  else IOError "No such file or directory".

(** [list(IncludingLexer(root))] cut after [n] tokens. *)
Definition resolve (fs : FileSystem) (root : string) (fuel n : nat)
  : option (list Token * option Exception) :=
  match IncludingLexer.init fs root with
  | inl self => IncludingLexer.tokens fs fuel n self
  | inr e => Some ([], Some e)
  end.

(** A comment, a newline and a name. *)
Definition comment_then_name : string := ("#c" ++ String LF "foo")%string.

Definition two_includes_text : string := "include(a.fea); include(b.fea);".

(** The scanner of a root file that holds [two_includes_text], with its
    cursor at [pos]; the text has one line. *)
Definition root_at (root : string) (pos : nat) (mode : Lexer.Mode)
  : Lexer.t :=
  Lexer.mk root 1 pos 0 (chars two_includes_text) mode.

(** Five scanners, the top one about to read an include statement. *)
Definition full_stack : list Lexer.t :=
  [Lexer.init "include(f6.fea);" "f5.fea";
   Lexer.init "" "f4.fea"; Lexer.init "" "f3.fea";
   Lexer.init "" "f2.fea"; Lexer.init "" "f1.fea"].

(** ** Strings and numbers, as the grammar describes them *)

(** A character that may stand inside a string: not the quote, not a
    line terminator. *)
Definition string_char (c : ascii) : bool :=
  negb (char_in c (String DQUOTE Lexer.CHAR_NEWLINE_)).

Definition UNTERMINATED_STRING : string :=
  ("Expected '" ++ String DQUOTE "' to terminate string")%string.

Definition is_digit (c : ascii) : bool := char_in c Lexer.CHAR_DIGIT_.

(** The number a run of decimal digits denotes. *)
Definition decimal_value (ds : list ascii) : Z :=
  fold_left (fun acc d => (acc * 10 + (Z.of_nat (nat_of_ascii d) - 48))%Z)
            ds 0%Z.

Definition unterminated_hello : string := String DQUOTE "hello".




(** An include statement whose file name runs over two lines, then a
    name. *)
Definition filename_over_two_lines : string :=
  ("include(a" ++ String LF "b) x")%string.

(** The line and the column of the character at index [n] of [text],
    counted from the text alone: lines and columns start at 1, and a line
    ends with a line feed, or with a carriage return that no line feed
    follows. *)
Fixpoint position_from (text : list ascii) (n : nat) (line column : Z)
         {struct n} : Z * Z :=
  match n, text with
  | S n', c :: rest =>
      if Ascii.eqb c LF then position_from rest n' (line + 1)%Z 1%Z
      else if Ascii.eqb c CR then
        match rest with
        | c' :: _ =>
            if Ascii.eqb c' LF
            then position_from rest n' line (column + 1)%Z
            else position_from rest n' (line + 1)%Z 1%Z
        | [] => position_from rest n' (line + 1)%Z 1%Z
        end
      else position_from rest n' line (column + 1)%Z
  | _, _ => (line, column)
  end.

Definition position_of (text : list ascii) (n : nat) : Z * Z :=
  position_from text n 1%Z 1%Z.

(** ** Scanner counters against the text *)

Definition is_newline (c : ascii) : bool := char_in c Lexer.CHAR_NEWLINE_.

(** No line terminator between the indices [a] (included) and [b]. *)
Definition plain_run (text : list ascii) (a b : nat) : Prop :=
  forall i c, a <= i < b -> nth_error text i = Some c -> is_newline c = false.

(** The counters of the scanner agree with the text up to the cursor. *)
Definition Lexer_sync (s : Lexer.t) : Prop :=
  position_of (Lexer.text_ s) (Lexer.pos_ s)
  = (Lexer.line_ s,
     (Z.of_nat (Lexer.pos_ s) - Z.of_nat (Lexer.line_start_ s) + 1)%Z) /\
  Lexer.pos_ s <= List.length (Lexer.text_ s).

(** A [FILENAME] token, if the outcome is one, has no line terminator in
    its value. *)
Definition single_line_filename (r : Outcome Token Lexer.t) : Prop :=
  match r with
  | Return (FILENAME, StrValue v, _) _ =>
      forallb (fun c => negb (is_newline c)) (chars v) = true
  | _ => True
  end.

(** The states of a scanner over [text] reached by calls of [next_], none
    of which returned a file name that spans a line terminator. *)
Inductive clean_run (text filename : string) : Lexer.t -> Prop :=
| clean_init : clean_run text filename (Lexer.init text filename)
| clean_step (s : Lexer.t) :
    clean_run text filename s ->
    single_line_filename (Lexer.next_ s) ->
    clean_run text filename (outcome_state (Lexer.next_ s)).

(** The name [a], a line feed, a blank and the name [b]. *)
Definition two_lines : string := ("a" ++ String LF " b")%string.

(** ** Character classes and numbers, for the token grammar *)

Definition is_hexdigit (c : ascii) : bool := char_in c Lexer.CHAR_HEXDIGIT_.
Definition is_name_start (c : ascii) : bool :=
  char_in c Lexer.CHAR_NAME_START_.
Definition is_name_continuation (c : ascii) : bool :=
  char_in c Lexer.CHAR_NAME_CONTINUATION_.

(** The value of a hexadecimal digit: [0]-[9], then [A]-[F] or [a]-[f]
    for ten to fifteen. *)
Definition hex_digit (c : ascii) : Z :=
  let n := Z.of_nat (nat_of_ascii c) in
  if is_digit c then (n - 48)%Z
  else if char_in c "abcdef" then (n - 97 + 10)%Z
  else (n - 65 + 10)%Z.

(** The number a run of hexadecimal digits denotes. *)
Definition hex_value (hs : list ascii) : Z :=
  fold_left (fun acc d => (acc * 16 + hex_digit d)%Z) hs 0%Z.

(** The first character of a text, if any, does not satisfy [p]. *)
Definition stops (p : ascii -> bool) (rest : list ascii) : Prop :=
  match rest with
  | [] => True
  | c :: _ => p c = false
  end.

(** [list] of the raw tokens: the tokens returned by successive calls of
    [next_], up to the first exception, cut after [n] calls. *)
Fixpoint raw_tokens (n : nat) (self : Lexer.t)
  : list Token * option Exception :=
  match n with
  | O => ([], None)
  | S n' =>
      match Lexer.next_ self with
      | Raise e _ => ([], Some e)
      | Return tok self' =>
          let (toks, e) := raw_tokens n' self' in (tok :: toks, e)
      end
  end.

(** A file that includes itself. *)
Definition self_including : FileSystem := fun p =>
  if String.eqb p "loop.fea" then Opened "include(loop.fea);"
  else IOError "No such file or directory".


(** * Properties *)

Lemma nth_error_lt (A : Type) (l : list A) (n : nat) (x : A) :
  nth_error l n = Some x -> n < List.length l.
Proof.
  intros H. apply nth_error_Some. rewrite H. discriminate.
Qed.

(** ** The scanning loop *)

Section Scan.

Variable keep : ascii -> bool.
Variable text : list ascii.

Lemma scan_ge (fuel p : nat) : p <= Lexer.scan keep text p fuel.
Proof.
  revert p; induction fuel as [|fuel IH]; intros p; simpl; [lia|].
  destruct (nth_error text p) as [c|]; [|lia].
  destruct (keep c); [|lia].
  specialize (IH (S p)); lia.
Qed.

Lemma scan_le (fuel p : nat) :
  p <= List.length text -> Lexer.scan keep text p fuel <= List.length text.
Proof.
  revert p; induction fuel as [|fuel IH]; intros p Hp; simpl; [lia|].
  destruct (nth_error text p) as [c|] eqn:E; [|lia].
  destruct (keep c); [|lia].
  apply IH. apply nth_error_lt in E. lia.
Qed.

(** Every character the loop passes satisfies [keep]. *)
Lemma scan_passed (fuel p i : nat) :
  p <= i < Lexer.scan keep text p fuel ->
  exists c, nth_error text i = Some c /\ keep c = true.
Proof.
  revert p; induction fuel as [|fuel IH]; intros p Hi; simpl in Hi; [lia|].
  destruct (nth_error text p) as [c|] eqn:E; [|lia].
  destruct (keep c) eqn:K; [|lia].
  destruct (Nat.eq_dec i p) as [->|Hne]; [eauto|].
  apply (IH (S p)); lia.
Qed.

(** With the fuel the methods give it, the loop stops at the end of the
    text or at a character that does not satisfy [keep]. *)
Lemma scan_stop (fuel p : nat) :
  List.length text - p <= fuel ->
  match nth_error text (Lexer.scan keep text p fuel) with
  | Some c => keep c = false
  | None => True
  end.
Proof.
  revert p; induction fuel as [|fuel IH]; intros p Hf; simpl.
  - destruct (nth_error text p) eqn:E; [|exact I].
    apply nth_error_lt in E; lia.
  - destruct (nth_error text p) as [c|] eqn:E.
    + destruct (keep c) eqn:K.
      * apply IH; lia.
      * rewrite E; exact K.
    + rewrite E; exact I.
Qed.

End Scan.

(** The loop over [pre ++ run ++ rest], started after [pre], stops after
    [run] when [run] satisfies [keep] and [rest] does not start with such a
    character. *)
Lemma scan_app (keep : ascii -> bool) (run rest pre : list ascii) :
  forallb keep run = true ->
  match rest with [] => True | c :: _ => keep c = false end ->
  Lexer.scan keep (pre ++ run ++ rest) (List.length pre)
             (List.length (run ++ rest))
  = List.length pre + List.length run.
Proof.
  revert pre; induction run as [|a run IH]; intros pre Hrun Hrest.
  - simpl. destruct rest as [|c rest]; simpl; [lia|].
    rewrite nth_error_app2, Nat.sub_diag by lia; simpl.
    rewrite Hrest; lia.
  - simpl in Hrun; apply andb_true_iff in Hrun as [Ha Hrun].
    simpl List.length; simpl Lexer.scan.
    rewrite nth_error_app2, Nat.sub_diag by lia; simpl.
    rewrite Ha.
    replace (pre ++ a :: run ++ rest) with ((pre ++ [a]) ++ run ++ rest)
      by (rewrite <- app_assoc; reflexivity).
    replace (S (List.length pre)) with (List.length (pre ++ [a]))
      by (rewrite length_app; simpl; lia).
    rewrite IH by assumption.
    rewrite length_app; simpl; lia.
Qed.

(** ** [Lexer.next_] *)

Ltac proj_simpl :=
  cbn [token_type token_value token_location outcome_state outcome_location
       fst snd exception_location Lexer.pos_ Lexer.line_ Lexer.line_start_ Lexer.text_
       Lexer.filename_ Lexer.mode_ Lexer.set_pos_ Lexer.set_mode_
       Lexer.new_line_].

Ltac break_match :=
  proj_simpl;
  match goal with
  | |- context [match ?x with _ => _ end] => destruct x eqn:?
  | |- context [if ?x then _ else _] => destruct x eqn:?
  end.

(** Collects [p <= scan keep text p fuel] for the scans of the goal. *)
Ltac scan_bounds :=
  repeat match goal with
  | |- context [Lexer.scan ?k ?t ?p ?f] =>
      lazymatch goal with
      | _ : p <= Lexer.scan k t p f |- _ => fail
      | _ => pose proof (scan_ge k t f p)
      end
  end.

Lemma scan_over_frame (s : Lexer.t) (valid : string) :
  Lexer.text_ (Lexer.scan_over_ s valid) = Lexer.text_ s /\
  Lexer.filename_ (Lexer.scan_over_ s valid) = Lexer.filename_ s /\
  Lexer.line_ (Lexer.scan_over_ s valid) = Lexer.line_ s /\
  Lexer.line_start_ (Lexer.scan_over_ s valid) = Lexer.line_start_ s /\
  Lexer.mode_ (Lexer.scan_over_ s valid) = Lexer.mode_ s /\
  Lexer.pos_ s <= Lexer.pos_ (Lexer.scan_over_ s valid).
Proof.
  unfold Lexer.scan_over_; simpl. repeat split. apply scan_ge.
Qed.

(** A scan that starts on a character it keeps passes that character. *)
Lemma scan_first (keep : ascii -> bool) (text : list ascii) (p : nat)
      (c : ascii) :
  nth_error text p = Some c -> keep c = true ->
  p < Lexer.scan keep text p (List.length text - p).
Proof.
  intros E K. pose proof (nth_error_lt _ _ _ _ E) as Hlt.
  destruct (List.length text - p) as [|fuel] eqn:F; [lia|].
  simpl. rewrite E, K.
  pose proof (scan_ge keep text fuel (S p)). lia.
Qed.

(** One call of [next_], started in [self]: [s0] is [self] after the
    leading blanks have been skipped. *)
Lemma next__facts (self : Lexer.t) :
  let s0 := Lexer.scan_over_ self Lexer.CHAR_WHITESPACE_ in
  let r := Lexer.next_ self in
  let s' := outcome_state r in
  Lexer.text_ s' = Lexer.text_ self /\
  Lexer.filename_ s' = Lexer.filename_ self /\
  Lexer.pos_ s0 <= Lexer.pos_ s' /\
  (forall l, outcome_location r = Some l -> l = Lexer.location_ s0) /\
  match r with
  | Return tok _ =>
      Lexer.pos_ s0 < List.length (Lexer.text_ self) /\
      Lexer.pos_ s0 < Lexer.pos_ s' /\
      match token_type tok with
      | NEWLINE =>
          Lexer.line_ s' = (Lexer.line_ self + 1)%Z /\
          Lexer.line_start_ s' = Lexer.pos_ s'
      | _ =>
          Lexer.line_ s' = Lexer.line_ self /\
          Lexer.line_start_ s' = Lexer.line_start_ self
      end
  | Raise _ _ =>
      Lexer.line_ s' = Lexer.line_ self /\
      Lexer.line_start_ s' = Lexer.line_start_ self
  end.
Proof.
  cbv zeta. unfold Lexer.next_. cbv zeta.
  generalize (scan_over_frame self Lexer.CHAR_WHITESPACE_).
  generalize (Lexer.scan_over_ self Lexer.CHAR_WHITESPACE_) as s0.
  destruct self as [fn ln p0 ls tx md0].
  intros [fn' ln' p ls' tx' md]; simpl.
  intros (-> & -> & -> & -> & _ & Hp).
  destruct (nth_error tx p) as [cur|] eqn:Ecur; simpl.
  2: { repeat split; auto. intros l [=]. }
  pose proof (nth_error_lt _ _ _ _ Ecur) as Hlt.
  assert (Hhash :
    Ascii.eqb cur "#" = true ->
    p < Lexer.scan (fun c => negb (char_in c Lexer.CHAR_NEWLINE_)) tx p
                   (List.length tx - p)).
  { intros E. apply Ascii.eqb_eq in E; subst cur.
    eapply scan_first; eauto. }
  assert (Hdigit :
    char_in cur Lexer.CHAR_DIGIT_ = true ->
    p < Lexer.scan (fun c => char_in c Lexer.CHAR_DIGIT_) tx p
                   (List.length tx - p)).
  { intros E. eapply scan_first; eauto. }
  unfold Lexer.next_normal_, Lexer.next_filename_, Lexer.next_glyphclass_,
    Lexer.next_string_, Lexer.number_, Lexer.scan_over_, Lexer.scan_until_,
    Lexer.text_length_, Lexer.location_.
  cbv zeta.
  repeat break_match; proj_simpl; scan_bounds.
  all: repeat split; auto; try lia.
  all: try (intros l [=]; subst; reflexivity).
Qed.

(** ** [Lexer.__next__] *)

Lemma skipped_trans (s1 s2 s3 : Lexer.t) :
  skipped s1 s2 -> skipped s2 s3 -> skipped s1 s3.
Proof.
  induction 1; intros; [assumption|].
  eapply skipped_step; eauto.
Qed.

(** The loop of [__next__] ends as soon as [next_] returns something else
    than a comment or a newline, and it has fuel for that. *)
Lemma next_loop_spec (fuel : nat) (self : Lexer.t) :
  List.length (Lexer.text_ self) - Lexer.pos_ self < fuel ->
  exists s r,
    skipped self s /\ Lexer.next_ s = r /\ unfiltered r /\
    Lexer.next_loop fuel self = Some r.
Proof.
  revert self; induction fuel as [|fuel IH]; intros self Hfuel; [lia|].
  simpl. pose proof (next__facts self) as F. cbv zeta in F.
  destruct (Lexer.next_ self) as [[[k v] l] s1|e s1] eqn:E.
  2: { exists self, (Raise e s1).
       repeat split; auto using skipped_refl. }
  destruct F as (Ht & _ & Hp & _ & Hlt & Hlt' & Hk).
  pose proof (scan_over_frame self Lexer.CHAR_WHITESPACE_)
    as (_ & _ & _ & _ & _ & Hws).
  cbn [token_type fst outcome_state] in *.
  destruct k;
    try (eexists self, _; split; [apply skipped_refl|];
         split; [exact E|]; split; reflexivity).
  all: destruct (IH s1) as (s & r & Hs & Hr & Hu & Hn); [rewrite Ht; lia|];
    exists s, r; repeat split; auto;
    eapply skipped_step; eauto.
Qed.

Lemma Lexer_next_spec (self : Lexer.t) :
  exists s r,
    skipped self s /\ Lexer.next_ s = r /\ unfiltered r /\
    Lexer.next self = Some r.
Proof.
  apply next_loop_spec. unfold Lexer.text_length_. lia.
Qed.

Lemma skipped_frame (s s' : Lexer.t) :
  skipped s s' ->
  Lexer.text_ s' = Lexer.text_ s /\
  Lexer.filename_ s' = Lexer.filename_ s /\
  Lexer.pos_ s <= Lexer.pos_ s' /\
  (Lexer_ok s -> Lexer_ok s').
Proof.
  induction 1 as [s|s s1 s2 [[k v] l] E K _ IH].
  - split; [reflexivity|]; split; [reflexivity|]; split; [lia|tauto].
  - pose proof (next__facts s) as F. cbv zeta in F. rewrite E in F.
    pose proof (scan_over_frame s Lexer.CHAR_WHITESPACE_)
      as (_ & _ & _ & _ & _ & Hws).
    cbn [token_type fst outcome_state] in *.
    destruct F as (Ht & Hf & Hp & _ & _ & _ & Hk).
    destruct IH as (Ht2 & Hf2 & Hp2 & Hok).
    split; [congruence|]. split; [congruence|]. split; [lia|].
    intros [Hl Hls]. apply Hok. unfold Lexer_ok.
    destruct k; try discriminate; lia.
Qed.

(** What a call of [next_] keeps and where its locations point. *)
Lemma next__ok (self : Lexer.t) :
  let r := Lexer.next_ self in
  Lexer.text_ (outcome_state r) = Lexer.text_ self /\
  Lexer.filename_ (outcome_state r) = Lexer.filename_ self /\
  (forall l, outcome_location r = Some l ->
             loc_file l = Lexer.filename_ self) /\
  (Lexer_ok self ->
   Lexer_ok (outcome_state r) /\
   forall l, outcome_location r = Some l -> one_based l).
Proof.
  pose proof (next__facts self) as F. cbv zeta in *.
  pose proof (scan_over_frame self Lexer.CHAR_WHITESPACE_)
    as (_ & Hf0 & Hl0 & Hls0 & _ & Hws).
  destruct F as (Ht & Hf & Hp & Hloc & Hr).
  split; [exact Ht|]. split; [exact Hf|]. split.
  - intros l Hl. rewrite (Hloc l Hl). unfold loc_file, Lexer.location_.
    simpl. exact Hf0.
  - intros [H1 H2]. split.
    + unfold Lexer_ok.
      destruct (Lexer.next_ self) as [[[k v] l] s1|e s1];
        cbn [token_type fst outcome_state] in *; [destruct k|]; lia.
    + intros l Hl. rewrite (Hloc l Hl).
      unfold one_based, loc_line, loc_column, Lexer.location_.
      cbn [fst snd]. lia.
Qed.

(** The same for the public [next]; it always returns or raises. *)
Lemma Lexer_next_ok (self : Lexer.t) :
  exists r,
    Lexer.next self = Some r /\ unfiltered r /\
    Lexer.text_ (outcome_state r) = Lexer.text_ self /\
    Lexer.filename_ (outcome_state r) = Lexer.filename_ self /\
    (forall l, outcome_location r = Some l ->
               loc_file l = Lexer.filename_ self) /\
    (Lexer_ok self ->
     Lexer_ok (outcome_state r) /\
     forall l, outcome_location r = Some l -> one_based l).
Proof.
  destruct (Lexer_next_spec self) as (s & r & Hs & Hr & Hu & Hn).
  exists r. split; [exact Hn|]. split; [exact Hu|].
  apply skipped_frame in Hs as (Ht & Hf & _ & Hok).
  pose proof (next__ok s) as F. cbv zeta in F. rewrite Hr in F.
  destruct F as (Ht' & Hf' & Hl' & Hok').
  split; [congruence|]. split; [congruence|]. split.
  - intros l Hl. rewrite (Hl' l Hl). exact Hf.
  - intros Hself. apply Hok'; auto.
Qed.

(** ** [IncludingLexer.__next__]: one round of the loop *)

Section Resolver.

Variable fs : FileSystem.

Lemma resolver_empty (fuel : nat) :
  IncludingLexer.next fs (S fuel) (IncludingLexer.mk [])
  = Some (Raise StopIteration (IncludingLexer.mk [])).
Proof. reflexivity. Qed.

(** An exhausted scanner is popped and the loop goes on. *)
Lemma resolver_pop (fuel : nat) (lexer lexer' : Lexer.t)
      (below : list Lexer.t) :
  Lexer.next lexer = Some (Raise StopIteration lexer') ->
  IncludingLexer.next fs (S fuel) (IncludingLexer.mk (lexer :: below))
  = IncludingLexer.next fs fuel (IncludingLexer.mk below).
Proof.
  intros H. simpl. rewrite H. reflexivity.
Qed.

(** Any other exception of the scanner leaves [__next__] as it is. *)
Lemma resolver_raise (fuel : nat) (lexer lexer' : Lexer.t)
      (below : list Lexer.t) (e : Exception) :
  Lexer.next lexer = Some (Raise e lexer') ->
  e <> StopIteration ->
  IncludingLexer.next fs (S fuel) (IncludingLexer.mk (lexer :: below))
  = Some (Raise e (IncludingLexer.mk (lexer' :: below))).
Proof.
  intros H Hne. simpl. rewrite H. destruct e; congruence.
Qed.

(** A token that is not the name [include] is returned as it is. *)
Lemma resolver_forward (fuel : nat) (lexer lexer' : Lexer.t)
      (below : list Lexer.t) (tok : Token) :
  Lexer.next lexer = Some (Return tok lexer') ->
  IncludingLexer.is_include (token_type tok) (token_value tok) = false ->
  IncludingLexer.next fs (S fuel) (IncludingLexer.mk (lexer :: below))
  = Some (Return tok (IncludingLexer.mk (lexer' :: below))).
Proof.
  intros H Hinc. simpl. rewrite H. destruct tok as [[k v] l].
  unfold token_type, token_value in Hinc; simpl in Hinc.
  rewrite Hinc. reflexivity.
Qed.

(** The name [include] starts the statement. *)
Lemma resolver_include (fuel : nat) (lexer lexer' : Lexer.t)
      (below : list Lexer.t) (loc : Location) :
  Lexer.next lexer = Some (Return (NAME, StrValue "include", loc) lexer') ->
  IncludingLexer.next fs (S fuel) (IncludingLexer.mk (lexer :: below))
  = match IncludingLexer.include_ fs lexer' below with
    | None => None
    | Some (Return _ self) => IncludingLexer.next fs fuel self
    | Some (Raise e self) => Some (Raise e self)
    end.
Proof.
  intros H. simpl. rewrite H. reflexivity.
Qed.

(** A file name and a semicolon complete it. *)
Lemma include_complete (l1 l2 l3 : Lexer.t) (below : list Lexer.t)
      (f : string) (floc sloc : Location) :
  Lexer.next l1 = Some (Return (FILENAME, StrValue f, floc) l2) ->
  Lexer.next l2 = Some (Return (SYMBOL, StrValue ";", sloc) l3) ->
  IncludingLexer.include_ fs l1 below
  = Some (IncludingLexer.push_include_ fs l3 below (StrValue f) floc).
Proof.
  intros H1 H2. unfold IncludingLexer.include_.
  rewrite H1. simpl. rewrite H2. reflexivity.
Qed.

Lemma push_include_spec (lexer : Lexer.t) (below : list Lexer.t)
      (f : string) (floc : Location) :
  IncludingLexer.push_include_ fs lexer below (StrValue f) floc
  = if 4 <=? List.length below then
      Raise (FeatureLibError TOO_MANY_INCLUDES floc)
            (IncludingLexer.mk (lexer :: below))
    else
      match fs (include_path lexer f) with
      | Opened text =>
          Return tt (IncludingLexer.mk
                       (Lexer.init text (include_path lexer f)
                        :: lexer :: below))
      | IOError err =>
          Raise (FeatureLibError err floc)
                (IncludingLexer.mk (lexer :: below))
      | DecodeError =>
          Raise UnicodeDecodeError (IncludingLexer.mk (lexer :: below))
      | InvalidPath =>
          Raise ValueError (IncludingLexer.mk (lexer :: below))
      end.
Proof.
  unfold IncludingLexer.push_include_, include_path,
    IncludingLexer.make_lexer_.
  destruct (posixpath.split (Lexer.filename_ lexer)) as [curpath base].
  cbn [fst IncludingLexer.lexers_ List.length].
  change (5 <=? S (List.length below)) with (4 <=? List.length below).
  destruct (4 <=? List.length below); [reflexivity|].
  destruct (fs _); reflexivity.
Qed.

End Resolver.

(** ** Invariants of the stack of scanners *)

Lemma init_ok (text filename : string) : Lexer_ok (Lexer.init text filename).
Proof.
  unfold Lexer_ok; simpl; lia.
Qed.

Lemma push_include_ok (fs : FileSystem) (lexer : Lexer.t)
      (below : list Lexer.t) (v : TokenValue) (floc : Location) :
  Lexer_ok lexer -> Forall Lexer_ok below -> List.length below <= 4 ->
  one_based floc ->
  let r := IncludingLexer.push_include_ fs lexer below v floc in
  Stack_ok (outcome_state r) /\
  match r with
  | Raise e _ => forall l, exception_location e = Some l -> one_based l
  | Return _ _ => True
  end.
Proof.
  intros Hl Hb Hlen Hfloc. cbv zeta.
  destruct v as [n|f|].
  1, 3: (split; [split; [constructor; assumption | simpl; lia]
                | simpl; discriminate]).
  rewrite push_include_spec.
  destruct (4 <=? List.length below) eqn:E.
  - split; [split; [constructor; assumption | simpl; lia]|].
    simpl. intros l [= <-]. exact Hfloc.
  - apply Nat.leb_gt in E.
    destruct (fs (include_path lexer f)) as [text|err| |].
    + split; [|exact I]. split; simpl; [|lia].
      constructor; [apply init_ok|]. constructor; assumption.
    + split; [split; [constructor; assumption | simpl; lia]|].
      simpl. intros l [= <-]. exact Hfloc.
    + split; [split; [constructor; assumption | simpl; lia]|].
      simpl. discriminate.
    + split; [split; [constructor; assumption | simpl; lia]|].
      simpl. discriminate.
Qed.

Lemma include__ok (fs : FileSystem) (l1 : Lexer.t) (below : list Lexer.t) :
  Lexer_ok l1 -> Forall Lexer_ok below -> List.length below <= 4 ->
  exists r,
    IncludingLexer.include_ fs l1 below = Some r /\
    Stack_ok (outcome_state r) /\
    match r with
    | Raise e _ => forall l, exception_location e = Some l -> one_based l
    | Return _ _ => True
    end.
Proof.
  intros Hl Hb Hlen. unfold IncludingLexer.include_.
  destruct (Lexer_next_ok l1) as (r1 & -> & _ & _ & _ & _ & Hok1).
  destruct (Hok1 Hl) as [Hl2 Hloc1]; clear Hok1.
  destruct r1 as [[[k1 v1] floc] l2|e l2]; cbn [outcome_state] in *.
  2: { eexists; split; [reflexivity|]. split.
       - split; [constructor; assumption | simpl; lia].
       - exact Hloc1. }
  assert (Hfloc : one_based floc) by (apply Hloc1; reflexivity).
  destruct (negb (TokenType_eqb k1 FILENAME)).
  { eexists; split; [reflexivity|]. split.
    - split; [constructor; assumption | simpl; lia].
    - simpl. intros l [= <-]. exact Hfloc. }
  destruct (Lexer_next_ok l2) as (r2 & -> & _ & _ & _ & _ & Hok2).
  destruct (Hok2 Hl2) as [Hl3 Hloc2]; clear Hok2.
  destruct r2 as [[[k2 v2] sloc] l3|e l3]; cbn [outcome_state] in *.
  2: { eexists; split; [reflexivity|]. split.
       - split; [constructor; assumption | simpl; lia].
       - exact Hloc2. }
  destruct (negb (IncludingLexer.is_semicolon k2 v2)).
  { eexists; split; [reflexivity|]. split.
    - split; [constructor; assumption | simpl; lia].
    - simpl. intros l [= <-]. apply Hloc2; reflexivity. }
  eexists; split; [reflexivity|].
  apply push_include_ok; assumption.
Qed.

(** Every call of [next] keeps the stack consistent and within five
    scanners, and the location it returns or raises is one-based. *)
Lemma resolver_next_ok (fs : FileSystem) (fuel : nat)
      (self : IncludingLexer.t) (r : Outcome Token IncludingLexer.t) :
  Stack_ok self ->
  IncludingLexer.next fs fuel self = Some r ->
  Stack_ok (outcome_state r) /\
  forall l, outcome_location r = Some l -> one_based l.
Proof.
  revert self r; induction fuel as [|fuel IH]; intros [stack] r Hok Hr;
    [discriminate|].
  destruct stack as [|lexer below].
  { rewrite resolver_empty in Hr. injection Hr as <-.
    split; [exact Hok | simpl; discriminate]. }
  destruct Hok as [Hall Hlen]; cbn [IncludingLexer.lexers_] in *.
  inversion Hall as [|? ? Hlexer Hbelow]; subst.
  simpl in Hlen.
  destruct (Lexer_next_ok lexer) as (r1 & Hn & _ & _ & _ & _ & Hok1).
  destruct (Hok1 Hlexer) as [Hl1 Hloc1]; clear Hok1.
  simpl in Hr. rewrite Hn in Hr.
  destruct r1 as [[[k v] loc] l1|e l1]; cbn [outcome_state] in *.
  - destruct (IncludingLexer.is_include k v).
    + destruct (include__ok fs l1 below) as (r2 & Hinc & Hst & Hloc2);
        [assumption | assumption | lia |].
      rewrite Hinc in Hr. destruct r2 as [[] st|e st].
      * apply (IH st r); assumption.
      * injection Hr as <-. split; assumption.
    + injection Hr as <-. split.
      * split; [constructor; assumption | simpl; lia].
      * exact Hloc1.
  - assert (Hother :
      Some (Raise e (IncludingLexer.mk (l1 :: below))) = Some r ->
      Stack_ok (outcome_state r) /\
      forall l, outcome_location r = Some l -> one_based l).
    { intros [= <-]. split.
      - split; [constructor; assumption | simpl; lia].
      - exact Hloc1. }
    destruct e; try (apply Hother; exact Hr).
    apply (IH (IncludingLexer.mk below) r); [|exact Hr].
    split; [assumption | simpl; lia].
Qed.

Lemma resolver_init_ok (fs : FileSystem) (root : string)
      (self : IncludingLexer.t) :
  IncludingLexer.init fs root = inl self -> Stack_ok self.
Proof.
  unfold IncludingLexer.init, IncludingLexer.make_lexer_.
  destruct (fs root); try discriminate.
  intros [= <-]. split; simpl; [|lia].
  constructor; [apply init_ok | constructor].
Qed.

Lemma reachable_ok (fs : FileSystem) (root : string)
      (self : IncludingLexer.t) :
  reachable fs root self -> Stack_ok self.
Proof.
  induction 1 as [self H|self fuel r _ IH H].
  - eapply resolver_init_ok; eauto.
  - eapply resolver_next_ok; eauto.
Qed.

(** ** More fuel does not change a result *)

Lemma resolver_fuel_mono (fs : FileSystem) (fuel fuel' : nat)
      (self : IncludingLexer.t) (r : Outcome Token IncludingLexer.t) :
  IncludingLexer.next fs fuel self = Some r ->
  fuel <= fuel' ->
  IncludingLexer.next fs fuel' self = Some r.
Proof.
  revert fuel' self; induction fuel as [|fuel IH]; intros fuel' self H Hle;
    [discriminate|].
  destruct fuel' as [|fuel']; [lia|].
  assert (Hle' : fuel <= fuel') by lia.
  simpl in *.
  destruct (IncludingLexer.lexers_ self) as [|lexer below]; [exact H|].
  destruct (Lexer.next lexer) as [[[[k v] loc] l1|e l1]|]; [| |exact H].
  - destruct (IncludingLexer.is_include k v); [|exact H].
    destruct (IncludingLexer.include_ fs l1 below) as [[[] st|e st]|];
      auto.
  - destruct e; auto.
Qed.

Lemma tokens_fuel_mono (fs : FileSystem) (fuel fuel' n : nat)
      (self : IncludingLexer.t) (out : list Token * option Exception) :
  IncludingLexer.tokens fs fuel n self = Some out ->
  fuel <= fuel' ->
  IncludingLexer.tokens fs fuel' n self = Some out.
Proof.
  revert self out; induction n as [|n IH]; intros self out H Hle;
    [exact H|].
  simpl in *.
  destruct (IncludingLexer.next fs fuel self) as [r|] eqn:E; [|discriminate].
  rewrite (resolver_fuel_mono _ _ _ _ _ E Hle).
  destruct r as [tok st|e st]; [|exact H].
  destruct (IncludingLexer.tokens fs fuel n st) as [[toks e]|] eqn:E2;
    [|discriminate].
  rewrite (IH _ _ E2 Hle). exact H.
Qed.

(** Once the stream has ended or failed within [n] calls, asking for more
    tokens gives the same list. *)
Lemma tokens_more (fs : FileSystem) (fuel n n' : nat)
      (self : IncludingLexer.t) (toks : list Token) (e : Exception) :
  IncludingLexer.tokens fs fuel n self = Some (toks, Some e) ->
  n <= n' ->
  IncludingLexer.tokens fs fuel n' self = Some (toks, Some e).
Proof.
  revert n' self toks; induction n as [|n IH]; intros n' self toks H Hle;
    [discriminate|].
  destruct n' as [|n']; [lia|].
  simpl in *.
  destruct (IncludingLexer.next fs fuel self) as [[tok st|e' st]|];
    [| exact H | discriminate].
  destruct (IncludingLexer.tokens fs fuel n st) as [[toks' e']|] eqn:E2;
    [|discriminate].
  injection H as <- ->.
  rewrite (IH n' st toks' E2) by lia. reflexivity.
Qed.

Lemma resolve_more (fs : FileSystem) (root : string) (fuel n k m : nat)
      (toks : list Token) (e : Exception) :
  resolve fs root fuel n = Some (toks, Some e) ->
  resolve fs root (fuel + k) (n + m) = Some (toks, Some e).
Proof.
  unfold resolve. destruct (IncludingLexer.init fs root) as [self|e'].
  - intros H. apply tokens_more with (n := n); [|lia].
    apply tokens_fuel_mono with (fuel := fuel); [exact H|lia].
  - auto.
Qed.

(** ** The tokens the resolver returns *)

(** Every token returned by the resolver was returned by the public [next]
    of the scanner then on top of the stack, and is not the name
    [include]. *)
Lemma resolver_returns (fs : FileSystem) (fuel : nat)
      (self self' : IncludingLexer.t) (tok : Token) :
  IncludingLexer.next fs fuel self = Some (Return tok self') ->
  IncludingLexer.is_include (token_type tok) (token_value tok) = false /\
  exists lexer lexer' below,
    Lexer.next lexer = Some (Return tok lexer') /\
    IncludingLexer.lexers_ self' = lexer' :: below.
Proof.
  revert self; induction fuel as [|fuel IH]; intros self H; [discriminate|].
  simpl in H.
  destruct (IncludingLexer.lexers_ self) as [|lexer below]; [discriminate|].
  destruct (Lexer.next lexer) as [[[[k v] loc] l1|e l1]|] eqn:E;
    [| |discriminate].
  - destruct (IncludingLexer.is_include k v) eqn:I.
    + destruct (IncludingLexer.include_ fs l1 below) as [[[] st|e st]|];
        try discriminate.
      apply (IH st H).
    + injection H as <- <-. split; [exact I|].
      exists lexer, l1, below. split; [exact E | reflexivity].
  - destruct e; try discriminate. apply (IH _ H).
Qed.

Lemma Lexer_next_unfiltered (self self' : Lexer.t) (tok : Token) :
  Lexer.next self = Some (Return tok self') ->
  filtered (token_type tok) = false.
Proof.
  intros H. destruct (Lexer_next_ok self) as (r & Hn & Hu & _).
  rewrite Hn in H. injection H as ->. exact Hu.
Qed.

(** ** Every call of the resolver ends *)

(** A token returned by the public [next] moves the cursor forward. *)
Lemma Lexer_next_progress (self self' : Lexer.t) (tok : Token) :
  Lexer.next self = Some (Return tok self') ->
  Lexer.text_ self' = Lexer.text_ self /\
  List.length (Lexer.text_ self') - Lexer.pos_ self'
  < List.length (Lexer.text_ self) - Lexer.pos_ self.
Proof.
  intros H. destruct (Lexer_next_spec self) as (s & r & Hs & Hr & _ & Hn).
  rewrite H in Hn; injection Hn as <-.
  apply skipped_frame in Hs as (Ht & _ & Hp & _).
  pose proof (next__facts s) as F. cbv zeta in F. rewrite Hr in F.
  cbn [outcome_state] in F. destruct F as (Ht' & _ & _ & _ & Hlt & Hlt' & _).
  pose proof (scan_over_frame s Lexer.CHAR_WHITESPACE_)
    as (_ & _ & _ & _ & _ & Hws).
  split; [congruence|]. rewrite Ht', Ht in *. lia.
Qed.

(** The stack the statement [include] leaves when it pushes a scanner:
    the scanner that read the statement has moved forward. *)
Lemma include__pushes (fs : FileSystem) (l1 : Lexer.t)
      (below : list Lexer.t) (self : IncludingLexer.t) :
  IncludingLexer.include_ fs l1 below = Some (Return tt self) ->
  exists new l3,
    self = IncludingLexer.mk (new :: l3 :: below) /\
    List.length below < 4 /\
    List.length (Lexer.text_ l3) - Lexer.pos_ l3
    < List.length (Lexer.text_ l1) - Lexer.pos_ l1.
Proof.
  unfold IncludingLexer.include_.
  destruct (Lexer.next l1) as [[[[k1 v1] floc] l2|e l2]|] eqn:E1;
    try discriminate.
  destruct (negb (TokenType_eqb k1 FILENAME)); [discriminate|].
  destruct (Lexer.next l2) as [[[[k2 v2] sloc] l3|e l3]|] eqn:E2;
    try discriminate.
  destruct (negb (IncludingLexer.is_semicolon k2 v2)); [discriminate|].
  apply Lexer_next_progress in E1 as [Ht1 Hp1].
  apply Lexer_next_progress in E2 as [Ht2 Hp2].
  destruct v1 as [n|f|]; try discriminate.
  rewrite push_include_spec.
  destruct (4 <=? List.length below) eqn:Hdepth; [discriminate|].
  apply Nat.leb_gt in Hdepth.
  destruct (fs (include_path l3 f)) as [text|err| |]; try discriminate.
  intros [= <-]. eexists _, l3. split; [reflexivity|]. split; [exact Hdepth|].
  lia.
Qed.

Lemma include__total (fs : FileSystem) (l1 : Lexer.t)
      (below : list Lexer.t) :
  exists r, IncludingLexer.include_ fs l1 below = Some r.
Proof.
  unfold IncludingLexer.include_.
  destruct (Lexer_next_ok l1) as (r1 & -> & _).
  destruct r1 as [[[k1 v1] floc] l2|e l2]; [|eauto].
  destruct (negb (TokenType_eqb k1 FILENAME)); [eauto|].
  destruct (Lexer_next_ok l2) as (r2 & -> & _).
  destruct r2 as [[[k2 v2] sloc] l3|e l3]; [|eauto].
  destruct (negb (IncludingLexer.is_semicolon k2 v2)); eauto.
Qed.

(** With [room] free places on the stack: if the scanners below the top
    let [next] end, so do they with the top scanner on them. *)
Lemma resolver_total_above (fs : FileSystem) (room : nat) :
  forall (top : Lexer.t) (below : list Lexer.t),
    List.length (top :: below) + room = 5 ->
    (exists fuel r,
        IncludingLexer.next fs fuel (IncludingLexer.mk below) = Some r) ->
    exists fuel r,
      IncludingLexer.next fs fuel (IncludingLexer.mk (top :: below)) = Some r.
Proof.
  induction room as [|room IHroom]; intros top below Hlen (fb & rb & Hb).
  - (* the stack is full: no scanner can be pushed *)
    destruct (Lexer_next_ok top) as (r1 & Hn & _).
    destruct r1 as [[[k v] loc] l1|e l1].
    + destruct (IncludingLexer.is_include k v) eqn:I.
      * destruct (include__total fs l1 below) as ([[] st|e st] & Einc).
        -- apply include__pushes in Einc as (_ & _ & _ & Hd & _).
           simpl in Hlen. lia.
        -- exists 1. simpl. rewrite Hn, I, Einc. eauto.
      * exists 1. simpl. rewrite Hn, I. eauto.
    + destruct e;
        try (exists 1; simpl; rewrite Hn; eauto; fail).
      exists (S fb), rb. simpl. rewrite Hn. exact Hb.
  - (* induction on what the top scanner has left to read *)
    remember (List.length (Lexer.text_ top) - Lexer.pos_ top) as todo.
    revert top Heqtodo Hlen.
    induction todo as [todo IHtodo] using lt_wf_ind.
    intros top Htodo Hlen.
    destruct (Lexer_next_ok top) as (r1 & Hn & _).
    destruct r1 as [[[k v] loc] l1|e l1].
    + destruct (IncludingLexer.is_include k v) eqn:I.
      * destruct (include__total fs l1 below) as ([[] st|e st] & Einc).
        -- destruct (include__pushes _ _ _ _ Einc)
             as (new & l3 & -> & Hd & Hp).
           destruct (Lexer_next_progress _ _ _ Hn) as [Ht1 Hp1].
           destruct (IHtodo (List.length (Lexer.text_ l3) - Lexer.pos_ l3))
             with (top := l3) as (f3 & r3 & H3);
             [lia | reflexivity | simpl in *; lia |].
           destruct (IHroom new (l3 :: below)) as (fn & rn & Hnew);
             [simpl in *; lia | eauto |].
           exists (S fn), rn. simpl. rewrite Hn, I, Einc. exact Hnew.
        -- exists 1. simpl. rewrite Hn, I, Einc. eauto.
      * exists 1. simpl. rewrite Hn, I. eauto.
    + destruct e;
        try (exists 1; simpl; rewrite Hn; eauto; fail).
      exists (S fb), rb. simpl. rewrite Hn. exact Hb.
Qed.

(** X26: a call of [next] on a stack of at most five scanners returns or raises:
    some number of rounds of its loop is enough. *)
Theorem resolver_next_total (fs : FileSystem) (self : IncludingLexer.t) :
  List.length (IncludingLexer.lexers_ self) <= 5 ->
  exists fuel r, IncludingLexer.next fs fuel self = Some r.
Proof.
  destruct self as [stack]. cbn [IncludingLexer.lexers_].
  induction stack as [|top below IH]; intros Hlen.
  - exists 1. simpl. eauto.
  - apply (resolver_total_above fs (5 - List.length (top :: below))).
    + lia.
    + apply IH. simpl in Hlen. lia.
Qed.

(** ** The mode of the scanner *)

(** In filename mode [next_] returns nothing but comments, newlines and
    the file name; comments and newlines keep the mode; the name [include]
    sets the filename mode. *)
Lemma next__mode (self : Lexer.t) :
  match Lexer.next_ self with
  | Return tok s' =>
      match token_type tok with
      | COMMENT | NEWLINE => Lexer.mode_ s' = Lexer.mode_ self
      | FILENAME => True
      | NAME =>
          Lexer.mode_ self = Lexer.MODE_NORMAL_ /\
          (token_value tok = StrValue "include" ->
           Lexer.mode_ s' = Lexer.MODE_FILENAME_)
      | _ => Lexer.mode_ self = Lexer.MODE_NORMAL_
      end
  | Raise _ _ => True
  end.
Proof.
  match goal with
  | |- match _ with Return tok s' => @?Q tok s' | Raise _ _ => _ end =>
      pose (P := fun r : Outcome Token Lexer.t =>
                   match r with
                   | Return tok s' => Q tok s'
                   | Raise _ _ => True
                   end);
      change (P (Lexer.next_ self))
  end.
  unfold Lexer.next_. cbv zeta.
  generalize (scan_over_frame self Lexer.CHAR_WHITESPACE_).
  generalize (Lexer.scan_over_ self Lexer.CHAR_WHITESPACE_) as s0.
  destruct self as [fn ln p0 ls tx md0].
  intros [fn' ln' p ls' tx' md].
  cbn [Lexer.text_ Lexer.filename_ Lexer.line_ Lexer.line_start_
       Lexer.mode_ Lexer.pos_] in *.
  intros (-> & -> & -> & -> & -> & Hp).
  unfold Lexer.next_normal_, Lexer.next_filename_, Lexer.next_glyphclass_,
    Lexer.next_string_, Lexer.number_, Lexer.scan_over_, Lexer.scan_until_,
    Lexer.text_length_, Lexer.location_.
  cbv zeta.
  repeat break_match; subst P; cbv beta iota; proj_simpl; auto.
  split; [reflexivity|]. intros [= E]. rewrite E in *. discriminate.
Qed.

Lemma skipped_mode (s s' : Lexer.t) :
  skipped s s' -> Lexer.mode_ s' = Lexer.mode_ s.
Proof.
  induction 1 as [s|s s1 s2 [[k v] l] E K _ IH]; [reflexivity|].
  pose proof (next__mode s) as M. rewrite E in M.
  cbn [token_type fst] in *.
  destruct k; try discriminate; congruence.
Qed.

(** X25: after the name [include] the public [next] of the scanner returns a
    file name, if it returns a token at all. *)
Lemma Lexer_next_after_include
      (lexer l1 : Lexer.t) (loc : Location) (r : Outcome Token Lexer.t) :
  Lexer.next lexer = Some (Return (NAME, StrValue "include", loc) l1) ->
  Lexer.next l1 = Some r ->
  match r with
  | Return tok _ => token_type tok = FILENAME
  | Raise _ _ => True
  end.
Proof.
  intros H0 H1.
  assert (Hmode : Lexer.mode_ l1 = Lexer.MODE_FILENAME_).
  { destruct (Lexer_next_spec lexer) as (s & r0 & Hs & Hr & _ & Hn).
    rewrite H0 in Hn; injection Hn as <-.
    pose proof (next__mode s) as M. rewrite Hr in M.
    cbn [token_type token_value fst snd] in M. apply M. reflexivity. }
  destruct (Lexer_next_spec l1) as (s & r1 & Hs & Hr & Hu & Hn).
  rewrite H1 in Hn; injection Hn as <-.
  apply skipped_mode in Hs. rewrite Hmode in Hs.
  pose proof (next__mode s) as M. rewrite Hr in M.
  destruct r as [[[k v] l] s'|e s']; [|exact I].
  cbn [token_type fst unfiltered] in *.
  destruct k; try reflexivity; try discriminate;
    try (destruct M; congruence); congruence.
Qed.

(** In filename mode [next_] raises nothing but [StopIteration], at the
    end of the buffer, and the two [FeatureLibError]s of a malformed file
    name. *)
Lemma next__filename_raises (self : Lexer.t) :
  Lexer.mode_ self = Lexer.MODE_FILENAME_ ->
  match Lexer.next_ self with
  | Return _ _ => True
  | Raise e _ =>
      e = StopIteration \/ exists message location,
                             e = FeatureLibError message location
  end.
Proof.
  match goal with
  | |- _ -> match _ with Return _ _ => _ | Raise e s' => @?Q e s' end =>
      pose (P := fun r : Outcome Token Lexer.t =>
                   match r with
                   | Return _ _ => True
                   | Raise e s' => Q e s'
                   end);
      change (Lexer.mode_ self = Lexer.MODE_FILENAME_ ->
              P (Lexer.next_ self))
  end.
  unfold Lexer.next_. cbv zeta.
  generalize (scan_over_frame self Lexer.CHAR_WHITESPACE_).
  generalize (Lexer.scan_over_ self Lexer.CHAR_WHITESPACE_) as s0.
  destruct self as [fn ln p0 ls tx md0].
  intros [fn' ln' p ls' tx' md].
  cbn [Lexer.text_ Lexer.filename_ Lexer.line_ Lexer.line_start_
       Lexer.mode_ Lexer.pos_] in *.
  intros (-> & -> & -> & -> & -> & Hp) ->.
  unfold Lexer.next_filename_, Lexer.scan_until_, Lexer.location_.
  cbv zeta.
  repeat break_match; subst P; cbv beta iota; eauto.
Qed.

(** An exception raised while the resolver reads the file name of an
    include statement leaves [next] as it is; it is [StopIteration] or a
    [FeatureLibError] of the scanner. *)
Lemma resolver_include_raise (fs : FileSystem) (fuel : nat)
      (lexer l1 l2 : Lexer.t) (below : list Lexer.t) (loc : Location)
      (e : Exception) :
  Lexer.next lexer = Some (Return (NAME, StrValue "include", loc) l1) ->
  Lexer.next l1 = Some (Raise e l2) ->
  IncludingLexer.next fs (S fuel) (IncludingLexer.mk (lexer :: below))
  = Some (Raise e (IncludingLexer.mk (l2 :: below))) /\
  (e = StopIteration \/ exists message location,
                          e = FeatureLibError message location).
Proof.
  intros H0 H1. split.
  - rewrite (resolver_include fs fuel lexer l1 below loc H0).
    unfold IncludingLexer.include_. rewrite H1. reflexivity.
  - assert (Hmode : Lexer.mode_ l1 = Lexer.MODE_FILENAME_).
    { destruct (Lexer_next_spec lexer) as (s & r0 & Hs & Hr & _ & Hn).
      rewrite H0 in Hn; injection Hn as <-.
      pose proof (next__mode s) as M. rewrite Hr in M.
      cbn [token_type token_value fst snd] in M. apply M. reflexivity. }
    destruct (Lexer_next_spec l1) as (s & r1 & Hs & Hr & Hu & Hn).
    rewrite H1 in Hn; injection Hn as <-.
    apply skipped_mode in Hs. rewrite Hmode in Hs.
    pose proof (next__filename_raises s Hs) as R. rewrite Hr in R.
    exact R.
Qed.

(** ** Comments and newlines (C1) *)

(** C1, as stated, fails: on the text [#c], newline, [foo] the raw
    tokenizer [next_] returns the comment, while the public [next] of the
    scanner returns the name [foo]; the resolver, which pulls from [next],
    returns [foo] and then ends, so neither the comment nor the newline
    reaches its caller. *)
Lemma C1_counterexample :
  Lexer.next_ (Lexer.init comment_then_name "root.fea")
  = Return (COMMENT, StrValue "#c", ("root.fea", 1%Z, 1%Z))
           (Lexer.mk "root.fea" 1 2 0 (chars comment_then_name)
                     Lexer.MODE_NORMAL_) /\
  Lexer.next (Lexer.init comment_then_name "root.fea")
  = Some (Return (NAME, StrValue "foo", ("root.fea", 2%Z, 1%Z))
                 (Lexer.mk "root.fea" 2 6 3 (chars comment_then_name)
                           Lexer.MODE_NORMAL_)) /\
  Lexer.next (Lexer.init comment_then_name "root.fea")
  <> Some (Lexer.next_ (Lexer.init comment_then_name "root.fea")) /\
  resolve (single comment_then_name) "root.fea" 3 3
  = Some ([(NAME, StrValue "foo", ("root.fea", 2%Z, 1%Z))],
          Some StopIteration).
Proof.
  repeat split; try reflexivity.
  vm_compute. discriminate.
Qed.

(** C1 (amended): the raw tokenizer [next_] returns tokens of every kind,
    but the public [next] of the scanner skips [COMMENT] and [NEWLINE]
    tokens: it always ends, and its outcome is the outcome of [next_] after
    a run of skipped comments and newlines, which is never a comment or a
    newline.  So the resolver never returns a comment or a newline; any
    other token of the active scanner that is not the name [include] is
    returned unchanged. *)
Theorem C1_next_skips_comments_and_newlines :
  (forall self : Lexer.t,
      exists s r,
        skipped self s /\ Lexer.next_ s = r /\ unfiltered r /\
        Lexer.next self = Some r) /\
  (forall fs fuel self tok self',
      IncludingLexer.next fs fuel self = Some (Return tok self') ->
      token_type tok <> COMMENT /\ token_type tok <> NEWLINE) /\
  (forall fs fuel lexer lexer' below tok,
      Lexer.next lexer = Some (Return tok lexer') ->
      IncludingLexer.is_include (token_type tok) (token_value tok) = false ->
      IncludingLexer.next fs (S fuel) (IncludingLexer.mk (lexer :: below))
      = Some (Return tok (IncludingLexer.mk (lexer' :: below)))).
Proof.
  split; [exact Lexer_next_spec|]. split.
  - intros fs fuel self tok self' H.
    apply resolver_returns in H as (_ & lexer & lexer' & below & Hn & _).
    apply Lexer_next_unfiltered in Hn.
    destruct (token_type tok); simpl in Hn; split; congruence.
  - intros fs fuel lexer lexer' below tok Hn Hinc.
    apply resolver_forward with (lexer' := lexer'); assumption.
Qed.

Lemma C1_witness :
  token_type (NAME, StrValue "foo", ("root.fea", 2%Z, 1%Z)) <> COMMENT /\
  token_type (NAME, StrValue "foo", ("root.fea", 2%Z, 1%Z)) <> NEWLINE.
Proof.
  apply (proj1 (proj2 C1_next_skips_comments_and_newlines)
               (single comment_then_name) 1
               (IncludingLexer.mk [Lexer.init comment_then_name "root.fea"])
               (NAME, StrValue "foo", ("root.fea", 2%Z, 1%Z))
               (IncludingLexer.mk
                  [Lexer.mk "root.fea" 2 6 3 (chars comment_then_name)
                            Lexer.MODE_NORMAL_])).
  reflexivity.
Defined.

(** ** An include statement cut short (C2) *)

(** C2: a root file that holds the single word [include].  The scanner
    returns the name, the resolver pulls the file name from the same
    scanner, the scanner raises [StopIteration] at the end of the buffer
    and nothing catches it: the stream ends, without any [FeatureLibError],
    and the scanner is still on the stack. *)
Theorem C2_include_at_end_of_buffer :
  IncludingLexer.init (single "include") "root.fea"
  = inl (IncludingLexer.mk [Lexer.init "include" "root.fea"]) /\
  (forall fuel,
      IncludingLexer.next (single "include") (S fuel)
        (IncludingLexer.mk [Lexer.init "include" "root.fea"])
      = Some (Raise StopIteration
                (IncludingLexer.mk
                   [Lexer.mk "root.fea" 1 7 0 (chars "include")
                             Lexer.MODE_FILENAME_]))) /\
  (forall fuel n,
      resolve (single "include") "root.fea" (S fuel) (S n)
      = Some ([], Some StopIteration)).
Proof.
  split; [reflexivity|]. split.
  - intros fuel.
    rewrite resolver_include
      with (lexer' := Lexer.mk "root.fea" 1 7 0 (chars "include")
                               Lexer.MODE_FILENAME_)
           (loc := ("root.fea", 1%Z, 1%Z)) by reflexivity.
    reflexivity.
  - intros fuel n.
    apply (resolve_more _ _ 1 1 fuel n). reflexivity.
Qed.

(** ** The depth of the stack (C3) *)

(** C3, as stated, fails: in the chain that ends with [f6.fea] each of
    [f1.fea] ... [f5.fea] holds one include statement, so the chain has
    exactly five nested includes; the fifth one, read by the fifth scanner
    of the stack, raises [FeatureLibError("Too many recursive includes")]
    and no token is returned. *)
Lemma C3_counterexample :
  chain "f6.fea" "f1.fea" = Opened "include(f2.fea);" /\
  chain "f6.fea" "f2.fea" = Opened "include(f3.fea);" /\
  chain "f6.fea" "f3.fea" = Opened "include(f4.fea);" /\
  chain "f6.fea" "f4.fea" = Opened "include(f5.fea);" /\
  chain "f6.fea" "f5.fea" = Opened "include(f6.fea);" /\
  chain "f6.fea" "f6.fea" = Opened "glyph" /\
  resolve (chain "f6.fea") "f1.fea" 10 10
  = Some ([], Some (FeatureLibError TOO_MANY_INCLUDES
                                    ("f5.fea", 1%Z, 8%Z))).
Proof.
  repeat split; reflexivity.
Qed.

(** C3 (amended): (1) the stack of a resolver never holds more than five
    scanners, the scanner of the root file included; (2) an include
    statement read by the fifth scanner of the stack raises
    [FeatureLibError("Too many recursive includes")] at the location of
    the file name, and the stack keeps its five scanners; (3) so a chain of
    six nested includes and a chain of five nested includes both fail with
    that error, at the file name of the fifth include statement; (4) a
    chain of four nested includes, which needs five scanners, gives the
    token of the last file and ends. *)
Theorem C3_include_depth_limit :
  (forall fs root self,
      reachable fs root self ->
      List.length (IncludingLexer.lexers_ self) <= 5) /\
  (forall fs fuel lexer below loc l1 f floc l2 sloc l3,
      List.length (lexer :: below) = 5 ->
      Lexer.next lexer = Some (Return (NAME, StrValue "include", loc) l1) ->
      Lexer.next l1 = Some (Return (FILENAME, StrValue f, floc) l2) ->
      Lexer.next l2 = Some (Return (SYMBOL, StrValue ";", sloc) l3) ->
      IncludingLexer.next fs (S fuel) (IncludingLexer.mk (lexer :: below))
      = Some (Raise (FeatureLibError TOO_MANY_INCLUDES floc)
                    (IncludingLexer.mk (l3 :: below))) /\
      List.length (l3 :: below) = 5) /\
  (forall fuel n,
      resolve (chain "f7.fea") "f1.fea" (5 + fuel) (1 + n)
      = Some ([], Some (FeatureLibError TOO_MANY_INCLUDES
                                        ("f5.fea", 1%Z, 8%Z))) /\
      resolve (chain "f6.fea") "f1.fea" (5 + fuel) (1 + n)
      = Some ([], Some (FeatureLibError TOO_MANY_INCLUDES
                                        ("f5.fea", 1%Z, 8%Z)))) /\
  (forall fuel n,
      resolve (chain "f5.fea") "f1.fea" (6 + fuel) (2 + n)
      = Some ([(NAME, StrValue "glyph", ("f5.fea", 1%Z, 1%Z))],
              Some StopIteration)).
Proof.
  split; [|split; [|split]].
  - intros fs root self H. apply reachable_ok in H. apply H.
  - intros fs fuel lexer below loc l1 f floc l2 sloc l3 Hlen H0 H1 H2.
    simpl in Hlen. split; [|simpl; lia].
    rewrite (resolver_include fs fuel lexer l1 below loc H0).
    rewrite (include_complete fs l1 l2 l3 below f floc sloc H1 H2).
    rewrite push_include_spec.
    replace (4 <=? List.length below) with true
      by (symmetry; apply Nat.leb_le; lia).
    reflexivity.
  - intros fuel n.
    split; apply (resolve_more _ _ 5 1 fuel n); reflexivity.
  - intros fuel n. apply (resolve_more _ _ 6 2 fuel n). reflexivity.
Qed.

Lemma C3_witness :
  IncludingLexer.next (chain "f6.fea") 1 (IncludingLexer.mk full_stack)
  = Some (Raise (FeatureLibError TOO_MANY_INCLUDES ("f5.fea", 1%Z, 8%Z))
            (IncludingLexer.mk
               (Lexer.mk "f5.fea" 1 16 0 (chars "include(f6.fea);")
                         Lexer.MODE_NORMAL_ :: tl full_stack))) /\
  List.length
    (Lexer.mk "f5.fea" 1 16 0 (chars "include(f6.fea);")
              Lexer.MODE_NORMAL_ :: tl full_stack) = 5.
Proof.
  apply (proj1 (proj2 C3_include_depth_limit)
               (chain "f6.fea") 0
               (Lexer.init "include(f6.fea);" "f5.fea") (tl full_stack)
               ("f5.fea", 1%Z, 1%Z)
               (Lexer.mk "f5.fea" 1 7 0 (chars "include(f6.fea);")
                         Lexer.MODE_FILENAME_)
               "f6.fea" ("f5.fea", 1%Z, 8%Z)
               (Lexer.mk "f5.fea" 1 15 0 (chars "include(f6.fea);")
                         Lexer.MODE_NORMAL_)
               ("f5.fea", 1%Z, 16%Z)
               (Lexer.mk "f5.fea" 1 16 0 (chars "include(f6.fea);")
                         Lexer.MODE_NORMAL_));
    reflexivity.
Defined.

(** ** Exceptions that are not [FeatureLibError] (C4) *)

(** C4: on the text [0x] the scanner reaches [int("0x", 16)], which raises
    [ValueError]; neither the scanner nor the resolver catch it. *)
Theorem C4_hex_prefix_without_digits :
  Lexer.next (Lexer.init "0x" "root.fea")
  = Some (Raise ValueError
            (Lexer.mk "root.fea" 1 2 0 (chars "0x") Lexer.MODE_NORMAL_)) /\
  (forall fuel n,
      resolve (single "0x") "root.fea" (S fuel) (S n)
      = Some ([], Some ValueError)).
Proof.
  split; [reflexivity|].
  intros fuel n. apply (resolve_more _ _ 1 1 fuel n). reflexivity.
Qed.

(** The other exception that is not a [FeatureLibError]: when [0], a
    backslash or a minus sign is the last character of the buffer,
    [next_char] is [None] and the test [next_char in ...] raises
    [TypeError]. *)
Example last_character_raises_TypeError (filename : string) :
  Lexer.next_ (Lexer.init "0" filename)
  = Raise TypeError (Lexer.init "0" filename) /\
  Lexer.next_ (Lexer.init "\" filename)
  = Raise TypeError (Lexer.init "\" filename) /\
  Lexer_tokens 2 (Lexer.init "a -" filename)
  = Some ([(NAME, StrValue "a", (filename, 1%Z, 1%Z))], Some TypeError).
Proof.
  repeat split; reflexivity.
Qed.

(** ** Two includes in a row (C5) *)

Lemma tokens_step (fs : FileSystem) (fuel n : nat) (self : IncludingLexer.t) :
  IncludingLexer.tokens fs fuel (S n) self
  = match IncludingLexer.next fs fuel self with
    | None => None
    | Some (Raise e _) => Some ([], Some e)
    | Some (Return tok self) =>
        match IncludingLexer.tokens fs fuel n self with
        | None => None
        | Some (toks, e) => Some (tok :: toks, e)
        end
    end.
Proof. reflexivity. Qed.

(** A scanner whose token list is one token followed by the end. *)
Lemma Lexer_tokens_single (s : Lexer.t) (tok : Token) (e : Exception) :
  Lexer_tokens 2 s = Some ([tok], Some e) ->
  exists s1 s2,
    Lexer.next s = Some (Return tok s1) /\
    Lexer.next s1 = Some (Raise e s2).
Proof.
  intros H. simpl in H.
  destruct (Lexer.next s) as [[tok1 s1|e1 s1]|] eqn:E1; try discriminate.
  simpl in H.
  destruct (Lexer.next s1) as [[tok2 s2|e2 s2]|] eqn:E2; simpl in H;
    try discriminate.
  injection H as -> ->. eauto.
Qed.

(** C5: the root file holds [include(a.fea); include(b.fea);], both files
    can be opened, and the scanner finds one [NAME] token, not [include],
    in each.  Then the resolver returns these two tokens, in this order,
    and ends; no token of the two include statements is returned.  The
    second part holds for every resolver: the name [include] is never
    returned. *)
Theorem C5_includes_are_transparent
        (fs : FileSystem) (root ta tb na nb : string) (la lb : Location) :
  let pa := posixpath.join (fst (posixpath.split root)) "a.fea" in
  let pb := posixpath.join (fst (posixpath.split root)) "b.fea" in
  fs root = Opened two_includes_text ->
  fs pa = Opened ta ->
  fs pb = Opened tb ->
  Lexer_tokens 2 (Lexer.init ta pa)
  = Some ([(NAME, StrValue na, la)], Some StopIteration) ->
  Lexer_tokens 2 (Lexer.init tb pb)
  = Some ([(NAME, StrValue nb, lb)], Some StopIteration) ->
  na <> "include" -> nb <> "include" ->
  (forall fuel n,
      resolve fs root (3 + fuel) (3 + n)
      = Some ([(NAME, StrValue na, la); (NAME, StrValue nb, lb)],
              Some StopIteration)) /\
  (forall fuel self tok self',
      IncludingLexer.next fs fuel self = Some (Return tok self') ->
      ~ (token_type tok = NAME /\ token_value tok = StrValue "include")).
Proof.
  intros pa pb Hroot Ha Hb Hta Htb Hna Hnb. split.
  2: { intros fuel self tok self' H.
       apply resolver_returns in H as [H _].
       intros [Hk Hv]. rewrite Hk, Hv in H. discriminate. }
  intros fuel n. apply (resolve_more _ _ 3 3 fuel n).
  apply Lexer_tokens_single in Hta as (a1 & a2 & Ha0 & Ha1).
  apply Lexer_tokens_single in Htb as (b1 & b2 & Hb0 & Hb1).
  apply String.eqb_neq in Hna, Hnb.
  unfold resolve, IncludingLexer.init, IncludingLexer.make_lexer_.
  rewrite Hroot.
  change (Lexer.init two_includes_text root)
    with (root_at root 0 Lexer.MODE_NORMAL_).
  (* first call: include(a.fea); is read, a.fea is pushed and gives na *)
  assert (N1 : IncludingLexer.next fs 3
                 (IncludingLexer.mk [root_at root 0 Lexer.MODE_NORMAL_])
               = Some (Return (NAME, StrValue na, la)
                         (IncludingLexer.mk
                            [a1; root_at root 15 Lexer.MODE_NORMAL_]))).
  { rewrite resolver_include
      with (lexer' := root_at root 7 Lexer.MODE_FILENAME_)
           (loc := (root, 1%Z, 1%Z)) by reflexivity.
    rewrite include_complete
      with (l2 := root_at root 14 Lexer.MODE_NORMAL_)
           (l3 := root_at root 15 Lexer.MODE_NORMAL_)
           (f := "a.fea") (floc := (root, 1%Z, 8%Z))
           (sloc := (root, 1%Z, 15%Z)) by reflexivity.
    rewrite push_include_spec.
    change (include_path (root_at root 15 Lexer.MODE_NORMAL_) "a.fea")
      with pa.
    cbn [List.length Nat.leb]. rewrite Ha.
    apply resolver_forward; [exact Ha0|].
    cbn [token_type token_value fst snd IncludingLexer.is_include].
    exact Hna. }
  (* second call: a.fea ends, include(b.fea); is read, b.fea gives nb *)
  assert (N2 : IncludingLexer.next fs 3
                 (IncludingLexer.mk [a1; root_at root 15 Lexer.MODE_NORMAL_])
               = Some (Return (NAME, StrValue nb, lb)
                         (IncludingLexer.mk
                            [b1; root_at root 31 Lexer.MODE_NORMAL_]))).
  { rewrite resolver_pop with (lexer' := a2) by exact Ha1.
    rewrite resolver_include
      with (lexer' := root_at root 23 Lexer.MODE_FILENAME_)
           (loc := (root, 1%Z, 17%Z)) by reflexivity.
    rewrite include_complete
      with (l2 := root_at root 30 Lexer.MODE_NORMAL_)
           (l3 := root_at root 31 Lexer.MODE_NORMAL_)
           (f := "b.fea") (floc := (root, 1%Z, 24%Z))
           (sloc := (root, 1%Z, 31%Z)) by reflexivity.
    rewrite push_include_spec.
    change (include_path (root_at root 31 Lexer.MODE_NORMAL_) "b.fea")
      with pb.
    cbn [List.length Nat.leb]. rewrite Hb.
    apply resolver_forward; [exact Hb0|].
    cbn [token_type token_value fst snd IncludingLexer.is_include].
    exact Hnb. }
  (* third call: b.fea ends, the root file ends, the stack is empty *)
  assert (N3 : IncludingLexer.next fs 3
                 (IncludingLexer.mk [b1; root_at root 31 Lexer.MODE_NORMAL_])
               = Some (Raise StopIteration (IncludingLexer.mk []))).
  { rewrite resolver_pop with (lexer' := b2) by exact Hb1.
    rewrite resolver_pop
      with (lexer' := root_at root 31 Lexer.MODE_NORMAL_) by reflexivity.
    apply resolver_empty. }
  rewrite tokens_step, N1, tokens_step, N2, tokens_step, N3.
  reflexivity.
Qed.

Lemma C5_witness :
  (forall fuel n,
      resolve two_includes "root.fea" (3 + fuel) (3 + n)
      = Some ([(NAME, StrValue "foo", ("a.fea", 1%Z, 1%Z));
               (NAME, StrValue "bar", ("b.fea", 1%Z, 1%Z))],
              Some StopIteration)) /\
  (forall fuel self tok self',
      IncludingLexer.next two_includes fuel self = Some (Return tok self') ->
      ~ (token_type tok = NAME /\ token_value tok = StrValue "include")).
Proof.
  apply (C5_includes_are_transparent two_includes "root.fea" "foo" "bar");
    try reflexivity; discriminate.
Defined.

(** ** An include that cannot be opened or read (C6) *)

(** X27: the active scanner reads [include], a file name and a semicolon,
    and opening the named file raises [IOError].  Then [next] raises a
    [FeatureLibError] whose location is the location of the file name
    token, which lies in the including file; the message is the text of
    the [IOError] unless the stack already holds five scanners. *)
Theorem unopenable_include_located_at_file_name
        (fs : FileSystem) (fuel : nat) (lexer l1 l2 l3 : Lexer.t)
        (below : list Lexer.t) (f err : string) (loc floc sloc : Location) :
  Lexer.next lexer = Some (Return (NAME, StrValue "include", loc) l1) ->
  Lexer.next l1 = Some (Return (FILENAME, StrValue f, floc) l2) ->
  Lexer.next l2 = Some (Return (SYMBOL, StrValue ";", sloc) l3) ->
  fs (include_path lexer f) = IOError err ->
  IncludingLexer.next fs (S fuel) (IncludingLexer.mk (lexer :: below))
  = Some (Raise (FeatureLibError
                   (if 4 <=? List.length below
                    then TOO_MANY_INCLUDES else err) floc)
                (IncludingLexer.mk (l3 :: below))) /\
  loc_file floc = Lexer.filename_ lexer.
Proof.
  intros H0 H1 H2 Hopen.
  destruct (Lexer_next_ok lexer) as (r0 & Hn0 & _ & _ & Hf0 & _).
  rewrite H0 in Hn0; injection Hn0 as <-.
  destruct (Lexer_next_ok l1) as (r1 & Hn1 & _ & _ & Hf1 & Hl1 & _).
  rewrite H1 in Hn1; injection Hn1 as <-.
  destruct (Lexer_next_ok l2) as (r2 & Hn2 & _ & _ & Hf2 & _).
  rewrite H2 in Hn2; injection Hn2 as <-.
  cbn [outcome_state outcome_location token_location snd] in *.
  split.
  - rewrite (resolver_include fs fuel lexer l1 below loc H0).
    rewrite (include_complete fs l1 l2 l3 below f floc sloc H1 H2).
    rewrite push_include_spec.
    replace (include_path l3 f) with (include_path lexer f)
      by (unfold include_path; congruence).
    rewrite Hopen.
    destruct (4 <=? List.length below); reflexivity.
  - rewrite (Hl1 floc eq_refl). exact Hf0.
Qed.

Lemma unopenable_include_located_at_file_name_witness :
  IncludingLexer.next (single "include(gone.fea);") 1
    (IncludingLexer.mk [Lexer.init "include(gone.fea);" "root.fea"])
  = Some (Raise (FeatureLibError "No such file or directory"
                                 ("root.fea", 1%Z, 8%Z))
            (IncludingLexer.mk
               [Lexer.mk "root.fea" 1 18 0 (chars "include(gone.fea);")
                         Lexer.MODE_NORMAL_])) /\
  loc_file ("root.fea", 1%Z, 8%Z) = "root.fea".
Proof.
  apply (unopenable_include_located_at_file_name
           (single "include(gone.fea);") 0
           (Lexer.init "include(gone.fea);" "root.fea")
           (Lexer.mk "root.fea" 1 7 0 (chars "include(gone.fea);")
                     Lexer.MODE_FILENAME_)
           (Lexer.mk "root.fea" 1 17 0 (chars "include(gone.fea);")
                     Lexer.MODE_NORMAL_)
           (Lexer.mk "root.fea" 1 18 0 (chars "include(gone.fea);")
                     Lexer.MODE_NORMAL_)
           [] "gone.fea" "No such file or directory"
           ("root.fea", 1%Z, 1%Z) ("root.fea", 1%Z, 8%Z)
           ("root.fea", 1%Z, 18%Z));
    reflexivity.
Defined.

(** An include statement whose file opens but does not decode as UTF-8,
    or whose path holds a NUL character: [make_lexer_] catches [IOError]
    only, so the exception of [codecs.open] or [f.read()] leaves [next]
    as it is, without a location. *)
Lemma undecodable_include_raises
      (fs : FileSystem) (fuel : nat) (lexer l1 l2 l3 : Lexer.t)
      (below : list Lexer.t) (f : string) (loc floc sloc : Location) :
  Lexer.next lexer = Some (Return (NAME, StrValue "include", loc) l1) ->
  Lexer.next l1 = Some (Return (FILENAME, StrValue f, floc) l2) ->
  Lexer.next l2 = Some (Return (SYMBOL, StrValue ";", sloc) l3) ->
  List.length below < 4 ->
  (fs (include_path lexer f) = DecodeError ->
   IncludingLexer.next fs (S fuel) (IncludingLexer.mk (lexer :: below))
   = Some (Raise UnicodeDecodeError (IncludingLexer.mk (l3 :: below)))) /\
  (fs (include_path lexer f) = InvalidPath ->
   IncludingLexer.next fs (S fuel) (IncludingLexer.mk (lexer :: below))
   = Some (Raise ValueError (IncludingLexer.mk (l3 :: below)))).
Proof.
  intros H0 H1 H2 Hlen.
  destruct (Lexer_next_ok lexer) as (r0 & Hn0 & _ & _ & Hf0 & _).
  rewrite H0 in Hn0; injection Hn0 as <-.
  destruct (Lexer_next_ok l1) as (r1 & Hn1 & _ & _ & Hf1 & _).
  rewrite H1 in Hn1; injection Hn1 as <-.
  destruct (Lexer_next_ok l2) as (r2 & Hn2 & _ & _ & Hf2 & _).
  rewrite H2 in Hn2; injection Hn2 as <-.
  cbn [outcome_state] in *.
  rewrite (resolver_include fs fuel lexer l1 below loc H0).
  rewrite (include_complete fs l1 l2 l3 below f floc sloc H1 H2).
  rewrite push_include_spec.
  replace (include_path l3 f) with (include_path lexer f)
    by (unfold include_path; congruence).
  replace (4 <=? List.length below) with false
    by (symmetry; apply Nat.leb_gt; exact Hlen).
  split; intros ->; reflexivity.
Qed.

(** C6: the root file holds [include(bad.fea);] and the bytes of
    [bad.fea] are not UTF-8, so that the file can be opened but not read.
    The resolver raises [UnicodeDecodeError], which is not a
    [FeatureLibError] and carries no location, and the iteration ends
    with it. *)
Theorem C6_undecodable_include_has_no_location :
  IncludingLexer.next undecodable_include 1
    (IncludingLexer.mk [Lexer.init "include(bad.fea);" "root.fea"])
  = Some (Raise UnicodeDecodeError
            (IncludingLexer.mk
               [Lexer.mk "root.fea" 1 17 0 (chars "include(bad.fea);")
                         Lexer.MODE_NORMAL_])) /\
  exception_location UnicodeDecodeError = None /\
  (forall fuel n,
      resolve undecodable_include "root.fea" (S fuel) (S n)
      = Some ([], Some UnicodeDecodeError)).
Proof.
  split.
  - refine (proj1 (undecodable_include_raises
                     undecodable_include 0
                     (Lexer.init "include(bad.fea);" "root.fea")
                     (Lexer.mk "root.fea" 1 7 0 (chars "include(bad.fea);")
                               Lexer.MODE_FILENAME_)
                     (Lexer.mk "root.fea" 1 16 0 (chars "include(bad.fea);")
                               Lexer.MODE_NORMAL_)
                     (Lexer.mk "root.fea" 1 17 0 (chars "include(bad.fea);")
                               Lexer.MODE_NORMAL_)
                     [] "bad.fea" ("root.fea", 1%Z, 1%Z)
                     ("root.fea", 1%Z, 8%Z) ("root.fea", 1%Z, 17%Z)
                     _ _ _ _) _);
      first [reflexivity | simpl; lia].
  - split; [reflexivity|].
    intros fuel n. apply (resolve_more _ _ 1 1 fuel n). reflexivity.
Qed.

(** ** Locations (C7): lines and columns of the text *)

Lemma position_from_add (text : list ascii) (n m : nat) (line column : Z) :
  position_from text (n + m) line column
  = position_from (skipn n text) m
      (fst (position_from text n line column))
      (snd (position_from text n line column)).
Proof.
  revert text line column; induction n as [|n IH]; intros text line column.
  - reflexivity.
  - destruct text as [|c rest].
    + simpl. destruct m; reflexivity.
    + cbn [Nat.add position_from skipn].
      destruct (Ascii.eqb c LF); [apply IH|].
      destruct (Ascii.eqb c CR); [|apply IH].
      destruct rest as [|c' rest']; [apply IH|].
      destruct (Ascii.eqb c' LF); apply IH.
Qed.

Lemma is_newline_false (c : ascii) :
  is_newline c = false -> Ascii.eqb c LF = false /\ Ascii.eqb c CR = false.
Proof.
  unfold is_newline, char_in; simpl.
  destruct (Ascii.eqb c CR), (Ascii.eqb c LF); simpl; intros; auto;
    discriminate.
Qed.

(** Characters that are not line terminators advance the column. *)
Lemma position_from_plain (text : list ascii) (m : nat) (line column : Z) :
  m <= List.length text ->
  plain_run text 0 m ->
  position_from text m line column = (line, (column + Z.of_nat m)%Z).
Proof.
  revert text line column; induction m as [|m IH];
    intros text line column Hlen Hplain.
  - simpl. f_equal. lia.
  - destruct text as [|c rest]; [simpl in Hlen; lia|].
    assert (Hc : is_newline c = false)
      by (apply (Hplain 0 c); [lia | reflexivity]).
    apply is_newline_false in Hc as [Hlf Hcr].
    cbn [position_from]. rewrite Hlf, Hcr.
    rewrite IH.
    + f_equal. lia.
    + simpl in Hlen. lia.
    + intros i d Hi Hd. apply (Hplain (S i) d); [lia | exact Hd].
Qed.

Lemma plain_run_skipn (text : list ascii) (a b : nat) :
  plain_run text a b -> plain_run (skipn a text) 0 (b - a).
Proof.
  intros H i c Hi Hc. apply (H (a + i) c); [lia|].
  rewrite <- Hc. symmetry. apply nth_error_skipn.
Qed.

Lemma position_of_plain (text : list ascii) (a b : nat) :
  a <= b <= List.length text ->
  plain_run text a b ->
  position_of text b
  = (fst (position_of text a),
     (snd (position_of text a) + Z.of_nat (b - a))%Z).
Proof.
  intros Hab Hplain. unfold position_of.
  replace b with (a + (b - a)) at 1 by lia.
  rewrite position_from_add.
  apply position_from_plain.
  - rewrite length_skipn. lia.
  - apply plain_run_skipn. exact Hplain.
Qed.

(** A line feed, or a carriage return with the line feed that follows it,
    starts a new line. *)
Lemma position_of_newline (text : list ascii) (p step : nat) (c : ascii) :
  nth_error text p = Some c ->
  (Ascii.eqb c LF = true /\ step = 1) \/
  (Ascii.eqb c CR = true /\
   match nth_error text (p + 1) with
   | Some c' => if Ascii.eqb c' LF then step = 2 else step = 1
   | None => step = 1
   end) ->
  position_of text (p + step) = ((fst (position_of text p) + 1)%Z, 1%Z).
Proof.
  intros Hc Hstep. unfold position_of. rewrite position_from_add.
  generalize (fst (position_from text p 1 1)) as line.
  generalize (snd (position_from text p 1 1)) as column.
  intros column line.
  assert (Hskip : skipn p text = c :: skipn (S p) text).
  { clear Hstep. revert p Hc; induction text as [|d text IH]; intros p Hc.
    - destruct p; discriminate.
    - destruct p as [|p]; simpl in *; [congruence|]. apply IH; exact Hc. }
  assert (Hnext : nth_error text (p + 1) = nth_error (skipn (S p) text) 0).
  { rewrite nth_error_skipn. f_equal. lia. }
  rewrite Hskip.
  destruct Hstep as [[Hlf ->]|[Hcr Hstep]].
  - cbn [position_from]. rewrite Hlf. reflexivity.
  - assert (Hlf : Ascii.eqb c LF = false).
    { apply Ascii.eqb_eq in Hcr; subst c. reflexivity. }
    rewrite Hnext in Hstep.
    destruct (skipn (S p) text) as [|c' rest'] eqn:E; cbn [nth_error] in Hstep.
    + subst step. cbn [position_from]. rewrite Hlf, Hcr. reflexivity.
    + destruct (Ascii.eqb c' LF) eqn:Hlf'; subst step.
      * cbn [position_from]. rewrite Hlf, Hcr, Hlf'. reflexivity.
      * cbn [position_from]. rewrite Hlf, Hcr, Hlf'. reflexivity.
Qed.

(** ** What a call of [next_] consumes *)

Lemma plain_run_nil (text : list ascii) (a : nat) : plain_run text a a.
Proof.
  intros i c Hi. lia.
Qed.

Lemma plain_run_step (text : list ascii) (a b : nat) (c : ascii) :
  plain_run text a b -> nth_error text b = Some c -> is_newline c = false ->
  plain_run text a (b + 1).
Proof.
  intros H Hc Hn i d Hi Hd.
  destruct (Nat.eq_dec i b) as [->|Hne].
  - congruence.
  - apply (H i d); [lia | exact Hd].
Qed.

Lemma plain_run_scan (keep : ascii -> bool) (text : list ascii)
      (a b fuel : nat) :
  plain_run text a b ->
  (forall c, keep c = true -> is_newline c = false) ->
  plain_run text a (Lexer.scan keep text b fuel).
Proof.
  intros H Hkeep i d Hi Hd.
  destruct (Nat.lt_ge_cases i b) as [Hlt|Hge].
  - apply (H i d); [lia | exact Hd].
  - destruct (scan_passed keep text fuel b i) as (c & Hc & Hk); [lia|].
    rewrite Hd in Hc; injection Hc as <-. apply Hkeep; exact Hk.
Qed.

Lemma char_in_not_newline (set : string) (c : ascii) :
  char_in c set = true ->
  forallb (fun d => negb (is_newline d)) (chars set) = true ->
  is_newline c = false.
Proof.
  intros Hc Hset. unfold char_in in Hc.
  apply existsb_exists in Hc as (d & Hd & E).
  apply Ascii.eqb_eq in E; subst d.
  rewrite forallb_forall in Hset. apply Hset in Hd.
  apply negb_true_iff in Hd. exact Hd.
Qed.

Lemma not_stop_not_newline (stop : string) (c : ascii) :
  negb (char_in c stop) = true ->
  forallb (fun d => char_in d stop) (chars Lexer.CHAR_NEWLINE_) = true ->
  is_newline c = false.
Proof.
  intros Hc Hstop. apply negb_true_iff in Hc.
  destruct (is_newline c) eqn:E; [|reflexivity].
  unfold is_newline, char_in in E.
  apply existsb_exists in E as (d & Hd & E).
  apply Ascii.eqb_eq in E; subst d.
  rewrite forallb_forall in Hstop. apply Hstop in Hd. congruence.
Qed.

Lemma eqb_not_newline (c d : ascii) :
  Ascii.eqb c d = true -> is_newline d = false -> is_newline c = false.
Proof.
  intros E H. apply Ascii.eqb_eq in E; subst c. exact H.
Qed.

Lemma not_lf_cr_not_newline (c : ascii) :
  Ascii.eqb c LF = false -> Ascii.eqb c CR = false -> is_newline c = false.
Proof.
  intros H1 H2. unfold is_newline, char_in; simpl. rewrite H1, H2.
  reflexivity.
Qed.

Lemma and_in_true (left : bool) (o : option ascii) (set : string) :
  Lexer.and_in_ left o set = Some true ->
  exists c, o = Some c /\ char_in c set = true.
Proof.
  unfold Lexer.and_in_, in_. destruct left; [|discriminate].
  destruct o as [c|]; [|discriminate]. intros [= H]. eauto.
Qed.

(** Proves that a set of characters has no line terminator, or that a set
    of stop characters has both. *)
Ltac keep_plain :=
  let c := fresh "c" in
  let H := fresh "H" in
  intros c H; cbv beta in H;
  first [ apply (char_in_not_newline _ c H); reflexivity
        | apply (not_stop_not_newline _ c H); reflexivity ].

Lemma plain_run_step2 (text : list ascii) (a b : nat) (c d : ascii) :
  plain_run text a b ->
  nth_error text b = Some c -> is_newline c = false ->
  nth_error text (b + 1) = Some d -> is_newline d = false ->
  plain_run text a (b + 2).
Proof.
  intros H Hc Hnc Hd Hnd.
  replace (b + 2) with (b + 1 + 1) by lia.
  eapply plain_run_step; [|exact Hd|exact Hnd].
  eapply plain_run_step; [exact H|exact Hc|exact Hnc].
Qed.

Ltac not_newline :=
  first [ apply not_lf_cr_not_newline; assumption
        | eapply char_in_not_newline; [eassumption | reflexivity]
        | eapply eqb_not_newline; [eassumption | reflexivity] ].

Ltac plain :=
  lazymatch goal with
  | |- plain_run _ ?a ?a => apply plain_run_nil
  | H : plain_run ?t ?a ?b |- plain_run ?t ?a ?b => exact H
  | |- plain_run _ _ (Lexer.scan _ _ _ _) =>
      apply plain_run_scan; [plain | keep_plain]
  | |- plain_run _ _ (_ + 2) =>
      eapply plain_run_step2;
      [plain | eassumption | not_newline | eassumption | not_newline]
  | |- plain_run _ _ (_ + 1) =>
      eapply plain_run_step; [plain | eassumption | not_newline]
  end.

(** Collects the bounds the scans and the characters read give. *)
Ltac bounds :=
  repeat match goal with
  | H : Lexer.and_in_ _ _ _ = Some true |- _ =>
      apply and_in_true in H as (? & ? & ?)
  end;
  repeat match goal with
  | H : nth_error ?t ?i = Some _ |- _ =>
      lazymatch goal with
      | _ : i < List.length t |- _ => fail
      | _ => pose proof (nth_error_lt _ _ _ _ H)
      end
  end;
  repeat match goal with
  | |- context [Lexer.scan ?k ?t ?p ?f] =>
      lazymatch goal with
      | _ : p <= List.length t -> Lexer.scan k t p f <= List.length t |- _ =>
          fail
      | _ => pose proof (scan_le k t f p)
      end
  end;
  scan_bounds.

(** The scan for the closing parenthesis of a file name. *)
Lemma filename_scan (tx : list ascii) (p : nat) (cur : ascii) :
  nth_error tx p = Some cur ->
  negb (Ascii.eqb cur "(") = false ->
  let q := Lexer.scan (fun c => negb (char_in c ")")) tx p
                      (List.length tx - p) in
  cur = "("%char /\ p < q /\
  (negb match nth_error tx q with
        | Some c => Ascii.eqb c ")"
        | None => false
        end = true -> List.length tx <= q) /\
  (negb match nth_error tx q with
        | Some c => Ascii.eqb c ")"
        | None => false
        end = false -> nth_error tx q = Some ")"%char).
Proof.
  intros Ecur Hcur q.
  apply negb_false_iff, Ascii.eqb_eq in Hcur. subst cur.
  split; [reflexivity|]. split.
  { apply (scan_first _ tx p "(" Ecur). reflexivity. }
  pose proof (scan_stop (fun c => negb (char_in c ")")) tx
                        (List.length tx - p) p (Nat.le_refl _)) as Hstop.
  fold q in Hstop.
  destruct (nth_error tx q) as [c|] eqn:E.
  - assert (Hc : Ascii.eqb c ")" = true).
    { apply negb_false_iff in Hstop. unfold char_in in Hstop.
      simpl in Hstop. rewrite orb_false_r in Hstop. exact Hstop. }
    rewrite Hc. split; [discriminate|].
    intros _. apply Ascii.eqb_eq in Hc. congruence.
  - split; [|discriminate]. intros _. apply nth_error_None. exact E.
Qed.

Lemma next__consumes (self : Lexer.t) :
  let s0 := Lexer.scan_over_ self Lexer.CHAR_WHITESPACE_ in
  let r := Lexer.next_ self in
  let s' := outcome_state r in
  let tx := Lexer.text_ self in
  Lexer.pos_ self <= List.length tx ->
  plain_run tx (Lexer.pos_ self) (Lexer.pos_ s0) /\
  Lexer.pos_ s' <= List.length tx /\
  match r with
  | Return tok _ =>
      match token_type tok with
      | NEWLINE =>
          exists c step,
            nth_error tx (Lexer.pos_ s0) = Some c /\
            Lexer.pos_ s' = Lexer.pos_ s0 + step /\
            ((Ascii.eqb c LF = true /\ step = 1) \/
             (Ascii.eqb c CR = true /\
              match nth_error tx (Lexer.pos_ s0 + 1) with
              | Some c' => if Ascii.eqb c' LF then step = 2 else step = 1
              | None => step = 1
              end))
      | FILENAME =>
          token_value tok
          = StrValue (text_of (slice tx (Lexer.pos_ s0 + 1)
                                     (Lexer.pos_ s' - 1))) /\
          Lexer.pos_ s0 + 2 <= Lexer.pos_ s' /\
          nth_error tx (Lexer.pos_ s0) = Some "("%char /\
          nth_error tx (Lexer.pos_ s' - 1) = Some ")"%char
      | _ => plain_run tx (Lexer.pos_ s0) (Lexer.pos_ s')
      end
  | Raise _ _ =>
      plain_run tx (Lexer.pos_ s0) (Lexer.pos_ s') \/
      List.length tx <= Lexer.pos_ s'
  end.
Proof.
  cbv zeta. unfold Lexer.next_. cbv zeta.
  destruct self as [fn ln p0 ls tx md0]. 
  cbn [Lexer.pos_ Lexer.text_].
  intros Hp0.
  assert (Hws : plain_run tx p0 (Lexer.pos_ (Lexer.scan_over_ (Lexer.mk fn ln p0 ls tx md0) Lexer.CHAR_WHITESPACE_))).
  { unfold Lexer.scan_over_. cbn [Lexer.pos_ Lexer.set_pos_ Lexer.text_]. plain. }
  split; [exact Hws|]. clear Hws.
  assert (Hs0 : Lexer.pos_ (Lexer.scan_over_ (Lexer.mk fn ln p0 ls tx md0) Lexer.CHAR_WHITESPACE_) <= List.length tx).
  { unfold Lexer.scan_over_. cbn [Lexer.pos_ Lexer.set_pos_ Lexer.text_]. apply scan_le. exact Hp0. }
  revert Hs0.
  generalize (scan_over_frame (Lexer.mk fn ln p0 ls tx md0) Lexer.CHAR_WHITESPACE_).
  generalize (Lexer.scan_over_ (Lexer.mk fn ln p0 ls tx md0) Lexer.CHAR_WHITESPACE_) as s0.
  intros [fn' ln' p ls' tx' md]; cbn [Lexer.pos_ Lexer.text_ Lexer.filename_ Lexer.line_ Lexer.line_start_ Lexer.mode_].
  intros (-> & -> & -> & -> & _ & Hp) Hs0.
  destruct (nth_error tx p) as [cur|] eqn:Ecur; proj_simpl.
  2: { split; [exact Hs0|]. left. plain. }
  pose proof (nth_error_lt _ _ _ _ Ecur) as Hlt.
  unfold Lexer.next_normal_, Lexer.next_filename_, Lexer.next_glyphclass_,
    Lexer.next_string_, Lexer.number_, Lexer.scan_over_, Lexer.scan_until_,
    Lexer.text_length_, Lexer.location_.
  cbv zeta.
  repeat break_match; proj_simpl.
  all: bounds.
  all: (split; [ try lia |]).
  all: try (left; plain; fail).
  all: try (plain; fail).
  all: try (exists cur; eexists; split; [reflexivity|];
            split; [reflexivity|];
            first [ left; split; [assumption | reflexivity]
                  | right; split; [assumption | reflexivity] ]; fail).
  all: destruct (filename_scan tx p cur Ecur Heqb2)
         as (-> & Hq & Hend & Hpar).
  - right. apply Hend. assumption.
  - specialize (Hpar Heqb3). apply nth_error_lt in Hpar. lia.
  - specialize (Hpar Heqb3).
    split; [reflexivity|]. split; [lia|]. split; [reflexivity|].
    rewrite Nat.add_sub. exact Hpar.
Qed.

(** ** The counters follow the text *)

Lemma plain_run_trans (text : list ascii) (a b c : nat) :
  plain_run text a b -> plain_run text b c -> plain_run text a c.
Proof.
  intros H1 H2 i d Hi Hd.
  destruct (Nat.lt_ge_cases i b).
  - apply (H1 i d); [lia | exact Hd].
  - apply (H2 i d); [lia | exact Hd].
Qed.

Lemma plain_run_slice (text : list ascii) (a b : nat) :
  forallb (fun c => negb (is_newline c)) (slice text a b) = true ->
  plain_run text a b.
Proof.
  intros H i c Hi Hc. rewrite forallb_forall in H.
  apply negb_true_iff. apply H. unfold slice.
  apply nth_error_In with (n := i - a).
  rewrite nth_error_firstn.
  replace (i - a <? b - a) with true by (symmetry; apply Nat.ltb_lt; lia).
  rewrite nth_error_skipn. rewrite <- Hc. f_equal. lia.
Qed.

Lemma chars_text_of (l : list ascii) : chars (text_of l) = l.
Proof.
  apply list_ascii_of_string_of_list_ascii.
Qed.

(** A scanner whose counters agree with the text keeps them so, unless it
    returns a file name that spans a line terminator or it runs to the end
    of the text. *)
Lemma next__sync (self : Lexer.t) :
  Lexer_sync self ->
  single_line_filename (Lexer.next_ self) ->
  Lexer_sync (outcome_state (Lexer.next_ self)) \/
  List.length (Lexer.text_ (outcome_state (Lexer.next_ self)))
  <= Lexer.pos_ (outcome_state (Lexer.next_ self)).
Proof.
  intros [Hpos Hlen] Hname.
  pose proof (next__facts self) as F.
  pose proof (next__consumes self) as C.
  cbv zeta in F, C. specialize (C Hlen).
  pose proof (scan_over_frame self Lexer.CHAR_WHITESPACE_)
    as (_ & _ & _ & _ & _ & Hws).
  destruct F as (Ht & _ & Hp & _ & F).
  destruct C as (Cws & Cle & C).
  set (s0 := Lexer.scan_over_ self Lexer.CHAR_WHITESPACE_) in *.
  assert (Hplain :
    plain_run (Lexer.text_ self) (Lexer.pos_ s0)
              (Lexer.pos_ (outcome_state (Lexer.next_ self))) ->
    Lexer.line_ (outcome_state (Lexer.next_ self)) = Lexer.line_ self ->
    Lexer.line_start_ (outcome_state (Lexer.next_ self))
    = Lexer.line_start_ self ->
    Lexer_sync (outcome_state (Lexer.next_ self))).
  { intros Hrun Hl Hls. split; [|rewrite Ht; exact Cle].
    rewrite Ht, Hl, Hls.
    rewrite (position_of_plain _ (Lexer.pos_ self)); [|lia|].
    - rewrite Hpos. cbn [fst snd]. f_equal. lia.
    - eapply plain_run_trans; eassumption. }
  destruct (Lexer.next_ self) as [[[k v] l] s'|e s'];
    cbn [outcome_state token_type token_value fst snd] in *.
  2: { destruct C as [C|C]; [left | right; rewrite Ht; exact C].
       apply Hplain; [exact C | apply F | apply F]. }
  destruct F as (_ & Hlt & F).
  destruct k;
    try (left; apply Hplain; [exact C | apply F | apply F]).
  - (* FILENAME *)
    destruct C as (-> & Hge & Hopen & Hclose).
    cbn [single_line_filename] in Hname. rewrite chars_text_of in Hname.
    left. apply Hplain; [|apply F|apply F].
    apply plain_run_trans with (b := Lexer.pos_ s0 + 1).
    { eapply plain_run_step; [apply plain_run_nil | exact Hopen | reflexivity]. }
    apply plain_run_trans with (b := Lexer.pos_ s' - 1).
    { apply plain_run_slice. exact Hname. }
    replace (Lexer.pos_ s') with (Lexer.pos_ s' - 1 + 1) at 2 by lia.
    eapply plain_run_step; [apply plain_run_nil | exact Hclose | reflexivity].
  - (* NEWLINE *)
    destruct C as (c & step & Hc & Hstep & Hcase).
    destruct F as [Hl Hls].
    left. split; [|rewrite Ht; exact Cle].
    rewrite Ht, Hl, Hls, Hstep.
    rewrite (position_of_newline _ _ step c Hc Hcase).
    rewrite (position_of_plain _ (Lexer.pos_ self)); [|lia|exact Cws].
    rewrite Hpos. cbn [fst]. f_equal. lia.
Qed.

Lemma clean_run_sync (text filename : string) (s : Lexer.t) :
  clean_run text filename s ->
  Lexer.text_ s = chars text /\
  Lexer.filename_ s = filename /\
  (Lexer_sync s \/ List.length (Lexer.text_ s) <= Lexer.pos_ s).
Proof.
  induction 1 as [|s _ (Ht & Hf & IH) Hname].
  - split; [reflexivity|]. split; [reflexivity|]. left.
    split; [reflexivity | simpl; lia].
  - pose proof (next__facts s) as F. cbv zeta in F.
    destruct F as (Ht' & Hf' & Hp & _).
    pose proof (scan_over_frame s Lexer.CHAR_WHITESPACE_)
      as (_ & _ & _ & _ & _ & Hws).
    split; [congruence|]. split; [congruence|].
    destruct IH as [IH|IH].
    + apply next__sync; assumption.
    + right. rewrite Ht'. lia.
Qed.

(** X24: every token of a clean run is located at its first character: the
    first character at or after the cursor that is not a blank, whose line
    and column, counted in the text, are those of the location. *)
Theorem locations_point_at_tokens
        (text filename : string) (s s' : Lexer.t) (tok : Token) :
  clean_run text filename s ->
  Lexer.next_ s = Return tok s' ->
  let start := Lexer.pos_ (Lexer.scan_over_ s Lexer.CHAR_WHITESPACE_) in
  token_location tok
  = (filename, fst (position_of (chars text) start),
     snd (position_of (chars text) start)) /\
  (forall i, Lexer.pos_ s <= i < start ->
             exists c, nth_error (chars text) i = Some c /\
                       char_in c Lexer.CHAR_WHITESPACE_ = true) /\
  (exists c, nth_error (chars text) start = Some c /\
             char_in c Lexer.CHAR_WHITESPACE_ = false) /\
  start < Lexer.pos_ s'.
Proof.
  intros Hrun Hnext start.
  destruct (clean_run_sync text filename s Hrun) as (Ht & Hf & Hsync).
  pose proof (next__facts s) as F. cbv zeta in F. rewrite Hnext in F.
  pose proof (scan_over_frame s Lexer.CHAR_WHITESPACE_)
    as (_ & Hf0 & Hl0 & Hls0 & _ & Hws).
  fold start in F, Hws.
  cbn [outcome_state outcome_location] in F.
  destruct F as (_ & _ & _ & Hloc & Hlt & Hlt' & _).
  destruct Hsync as [[Hpos Hlen]|Hend]; [|lia].
  assert (Hblank : forall i, Lexer.pos_ s <= i < start ->
            exists c, nth_error (chars text) i = Some c /\
                      char_in c Lexer.CHAR_WHITESPACE_ = true).
  { intros i Hi. rewrite <- Ht.
    apply (scan_passed (fun c => char_in c Lexer.CHAR_WHITESPACE_)
                       (Lexer.text_ s)
                       (Lexer.text_length_ s - Lexer.pos_ s)
                       (Lexer.pos_ s) i Hi). }
  split; [|split; [exact Hblank|split; [|exact Hlt']]].
  - rewrite (Hloc _ eq_refl). unfold Lexer.location_.
    rewrite Hf0, Hl0, Hls0, Hf. fold start.
    rewrite <- Ht.
    rewrite (position_of_plain _ (Lexer.pos_ s)); [|lia|].
    + rewrite Hpos. cbn [fst snd]. f_equal. lia.
    + intros i c Hi Hc. rewrite Ht in Hc.
      destruct (Hblank i Hi) as (c' & Hc' & Hb).
      rewrite Hc in Hc'; injection Hc' as <-.
      apply (char_in_not_newline _ c Hb). reflexivity.
  - pose proof (scan_stop (fun c => char_in c Lexer.CHAR_WHITESPACE_)
                          (Lexer.text_ s)
                          (Lexer.text_length_ s - Lexer.pos_ s)
                          (Lexer.pos_ s) (Nat.le_refl _)) as Hstop.
    change (Lexer.scan _ _ _ _) with start in Hstop.
    rewrite Ht in Hstop, Hlt.
    destruct (nth_error (chars text) start) as [c|] eqn:E.
    + exists c. split; [reflexivity | exact Hstop].
    + apply nth_error_None in E. lia.
Qed.

(** The theorem at work: in the text [a], line feed, blank, [b] the name
    [b] is the second character of the second line. *)
Example locations_point_at_tokens_example :
  Lexer.next_ (Lexer.mk "root.fea" 2 2 2 (chars two_lines)
                        Lexer.MODE_NORMAL_)
  = Return (NAME, StrValue "b", ("root.fea", 2%Z, 2%Z))
           (Lexer.mk "root.fea" 2 4 2 (chars two_lines) Lexer.MODE_NORMAL_) /\
  token_location (NAME, StrValue "b", ("root.fea", 2%Z, 2%Z))
  = ("root.fea", fst (position_of (chars two_lines) 3),
     snd (position_of (chars two_lines) 3)).
Proof.
  split; [reflexivity|].
  apply (locations_point_at_tokens
           two_lines "root.fea"
           (Lexer.mk "root.fea" 2 2 2 (chars two_lines) Lexer.MODE_NORMAL_)
           (Lexer.mk "root.fea" 2 4 2 (chars two_lines) Lexer.MODE_NORMAL_)
           (NAME, StrValue "b", ("root.fea", 2%Z, 2%Z))); [|reflexivity].
  change (Lexer.mk "root.fea" 2 2 2 (chars two_lines) Lexer.MODE_NORMAL_)
    with (outcome_state
            (Lexer.next_
               (outcome_state
                  (Lexer.next_ (Lexer.init two_lines "root.fea"))))).
  apply clean_step; [apply clean_step; [apply clean_init|]|]; exact I.
Defined.
(** ** A file name over two lines (C7) *)

(** C7: in the text [include(a], line feed, [b) x] the name [x] is the
    fourth character of the second line, but the scanner, which does not
    count the line feed inside the file name, returns it with line 1 and
    column 14. *)
Theorem C7_location_after_file_name_over_two_lines (filename : string) :
  Lexer_tokens 4 (Lexer.init filename_over_two_lines filename)
  = Some ([(NAME, StrValue "include", (filename, 1%Z, 1%Z));
           (FILENAME, StrValue ("a" ++ String LF "b"), (filename, 1%Z, 8%Z));
           (NAME, StrValue "x", (filename, 1%Z, 14%Z))],
          Some StopIteration) /\
  nth_error (chars filename_over_two_lines) 13 = Some "x"%char /\
  position_of (chars filename_over_two_lines) 13 = (2%Z, 4%Z).
Proof.
  repeat split; reflexivity.
Qed.

(** ** Strings *)

Lemma scan_stay (keep : ascii -> bool) (text : list ascii) (p fuel : nat)
      (c : ascii) :
  nth_error text p = Some c -> keep c = false ->
  Lexer.scan keep text p fuel = p.
Proof.
  intros E K. destruct fuel; simpl; [reflexivity|]. rewrite E, K.
  reflexivity.
Qed.

Lemma nth_error_mid (A : Type) (pre rest : list A) (x : A) :
  nth_error (pre ++ x :: rest) (List.length pre) = Some x.
Proof.
  rewrite nth_error_app2, Nat.sub_diag by lia. reflexivity.
Qed.

Lemma slice_mid (pre mid rest : list ascii) :
  slice (pre ++ mid ++ rest) (List.length pre)
        (List.length pre + List.length mid) = mid.
Proof.
  unfold slice.
  rewrite skipn_app, skipn_all, Nat.sub_diag; simpl.
  replace (List.length pre + List.length mid - List.length pre)
    with (List.length mid + 0) by lia.
  rewrite firstn_app_2. simpl. apply app_nil_r.
Qed.


(** Every text splits into a run of string characters and a rest that is
    empty or starts with the quote or a line terminator. *)
Lemma string_body_split (l : list ascii) :
  exists body rest,
    l = body ++ rest /\ forallb string_char body = true /\
    match rest with
    | [] => True
    | c :: _ => c = DQUOTE \/ c = CR \/ c = LF
    end.
Proof.
  induction l as [|c l (body & rest & -> & Hb & Hr)].
  - exists [], []. repeat split.
  - destruct (string_char c) eqn:E.
    + exists (c :: body), rest. simpl. rewrite E, Hb. repeat split; auto.
    + exists [], (c :: body ++ rest). repeat split.
      unfold string_char, char_in in E. simpl in E.
      apply negb_false_iff in E.
      repeat (apply orb_prop in E as [E|E];
              [apply Ascii.eqb_eq in E; auto|]).
      discriminate.
Qed.




(** The same word without the closing quote. *)
Example unterminated_hello_fails :
  Lexer.next_ (Lexer.init unterminated_hello "root.fea")
  = Raise (FeatureLibError UNTERMINATED_STRING ("root.fea", 1%Z, 1%Z))
          (Lexer.set_pos_ (Lexer.init unterminated_hello "root.fea") 6).
Proof.
  reflexivity.
Qed.

(** ** Negative numbers (C9) *)

(** The scanner in normal mode with its cursor on a character that starts
    a token of the normal mode. *)
Lemma next__normal (self : Lexer.t) (c : ascii) :
  Lexer.mode_ self = Lexer.MODE_NORMAL_ ->
  nth_error (Lexer.text_ self) (Lexer.pos_ self) = Some c ->
  char_in c Lexer.CHAR_WHITESPACE_ = false ->
  Ascii.eqb c LF = false -> Ascii.eqb c CR = false ->
  Ascii.eqb c "#" = false ->
  Lexer.next_ self
  = Lexer.next_normal_ self (Lexer.pos_ self) c
      (nth_error (Lexer.text_ self) (Lexer.pos_ self + 1))
      (Lexer.location_ self).
Proof.
  destruct self as [fn ln p ls tx md]; simpl. intros -> Hc Hws Hlf Hcr Hh.
  unfold Lexer.next_, Lexer.scan_over_; cbn [Lexer.text_ Lexer.pos_
    Lexer.set_pos_ Lexer.filename_ Lexer.line_ Lexer.line_start_
    Lexer.mode_].
  rewrite (scan_stay _ tx p _ c Hc) by exact Hws.
  cbn [Lexer.text_ Lexer.pos_ Lexer.mode_]. rewrite Hc, Hlf, Hcr, Hh.
  reflexivity.
Qed.

Lemma digit_value_digit (d : ascii) :
  is_digit d = true ->
  digit_value d = Some (Z.of_nat (nat_of_ascii d) - 48)%Z /\
  (Z.of_nat (nat_of_ascii d) - 48 <? 10)%Z = true.
Proof.
  unfold is_digit, char_in. simpl. intros H.
  repeat (apply orb_prop in H as [H|H];
          [apply Ascii.eqb_eq in H; subst d; split; reflexivity|]).
  discriminate.
Qed.

Lemma digits_value_decimal (ds : list ascii) (acc : Z) :
  forallb is_digit ds = true ->
  digits_value 10 acc ds
  = Some (fold_left
            (fun acc d => (acc * 10 + (Z.of_nat (nat_of_ascii d) - 48))%Z)
            ds acc).
Proof.
  revert acc; induction ds as [|d ds IH]; intros acc H; [reflexivity|].
  simpl in H. apply andb_true_iff in H as [Hd Hds].
  destruct (digit_value_digit d Hd) as [E1 E2].
  simpl. rewrite E1, E2. apply IH. exact Hds.
Qed.

(** [int("-" + digits, 10)] is the opposite of the number the digits
    denote. *)
Lemma int_minus_digits (d : ascii) (ds : list ascii) :
  forallb is_digit (d :: ds) = true ->
  int_ ("-"%char :: d :: ds) 10 = Some (- decimal_value (d :: ds))%Z.
Proof.
  intros H. unfold int_, strip_sign, strip_hex_prefix.
  change (10 =? 16)%Z with false. cbv iota.
  rewrite (digits_value_decimal (d :: ds) 0 H). reflexivity.
Qed.

(** X22: a minus sign followed by decimal digits is one negative [NUMBER]. *)
Lemma minus_digits_is_number
      (self : Lexer.t) (pre ds rest : list ascii) (d : ascii) :
  Lexer.mode_ self = Lexer.MODE_NORMAL_ ->
  Lexer.text_ self = pre ++ "-"%char :: (d :: ds) ++ rest ->
  Lexer.pos_ self = List.length pre ->
  forallb is_digit (d :: ds) = true ->
  match rest with [] => True | c :: _ => is_digit c = false end ->
  Lexer.next_ self
  = Return (NUMBER, IntValue (- decimal_value (d :: ds)),
            Lexer.location_ self)
           (Lexer.set_pos_ self
              (List.length pre + 1 + List.length (d :: ds))).
Proof.
  intros Hmode Htext Hpos Hds Hrest.
  assert (Hd : char_in d Lexer.CHAR_DIGIT_ = true).
  { simpl in Hds. apply andb_true_iff in Hds as [Hd _]. exact Hd. }
  rewrite (next__normal self "-"); try reflexivity; try assumption.
  2: { rewrite Htext, Hpos. apply nth_error_mid. }
  assert (Hnext : nth_error (Lexer.text_ self) (Lexer.pos_ self + 1)
                  = Some d).
  { rewrite Htext, Hpos.
    change (pre ++ "-"%char :: (d :: ds) ++ rest)
      with (pre ++ ["-"%char] ++ d :: ds ++ rest).
    rewrite app_assoc.
    replace (List.length pre + 1) with (List.length (pre ++ ["-"%char]))
      by (rewrite length_app; reflexivity).
    apply nth_error_mid. }
  rewrite Hnext.
  unfold Lexer.next_normal_, Lexer.and_in_, in_.
  change (Ascii.eqb "-" BACKSLASH) with false.
  change (Ascii.eqb "-" "@") with false.
  change (char_in "-" Lexer.CHAR_NAME_START_) with false.
  change (Ascii.eqb "-" "0") with false.
  change (char_in "-" Lexer.CHAR_DIGIT_) with false.
  change (Ascii.eqb "-" "-") with true.
  cbv iota. rewrite Hd. cbv iota zeta.
  assert (Hscan :
    Lexer.scan_over_ (Lexer.set_pos_ self (Lexer.pos_ self + 1))
                     Lexer.CHAR_DIGIT_
    = Lexer.set_pos_ self (List.length pre + 1 + List.length (d :: ds))).
  { unfold Lexer.scan_over_, Lexer.text_length_.
    destruct self as [fn ln p ls tx md].
    cbn [Lexer.pos_ Lexer.text_ Lexer.set_pos_ Lexer.filename_ Lexer.line_
         Lexer.line_start_ Lexer.mode_] in *.
    subst tx p. unfold Lexer.set_pos_.
    cbn [Lexer.pos_ Lexer.text_ Lexer.filename_ Lexer.line_
         Lexer.line_start_ Lexer.mode_].
    f_equal.
    change (pre ++ "-"%char :: (d :: ds) ++ rest)
      with (pre ++ ["-"%char] ++ (d :: ds) ++ rest).
    rewrite app_assoc.
    replace (List.length pre + 1) with (List.length (pre ++ ["-"%char]))
      by (rewrite length_app; reflexivity).
    replace (List.length ((pre ++ ["-"%char]) ++ (d :: ds) ++ rest)
             - List.length (pre ++ ["-"%char]))
      with (List.length ((d :: ds) ++ rest))
      by (rewrite (length_app (pre ++ ["-"%char])); lia).
    apply (scan_app is_digit); assumption. }
  rewrite Hscan. unfold Lexer.number_.
  cbn [Lexer.pos_ Lexer.set_pos_].
  replace (slice (Lexer.text_ self) (Lexer.pos_ self)
                 (List.length pre + 1 + List.length (d :: ds)))
    with ("-"%char :: d :: ds).
  - rewrite (int_minus_digits d ds Hds). reflexivity.
  - rewrite Htext, Hpos.
    change (pre ++ "-"%char :: (d :: ds) ++ rest)
      with (pre ++ ("-"%char :: d :: ds) ++ rest).
    replace (List.length pre + 1 + List.length (d :: ds))
      with (List.length pre + List.length ("-"%char :: d :: ds))
      by (simpl; lia).
    symmetry. apply slice_mid.
Qed.

(** X23: a minus sign followed by a character that is not a digit is the
    [SYMBOL] token of the minus sign. *)
Lemma minus_other_is_symbol
      (self : Lexer.t) (pre rest : list ascii) (c : ascii) :
  Lexer.mode_ self = Lexer.MODE_NORMAL_ ->
  Lexer.text_ self = pre ++ "-"%char :: c :: rest ->
  Lexer.pos_ self = List.length pre ->
  is_digit c = false ->
  Lexer.next_ self
  = Return (SYMBOL, StrValue "-", Lexer.location_ self)
           (Lexer.set_pos_ self (List.length pre + 1)).
Proof.
  intros Hmode Htext Hpos Hc.
  rewrite (next__normal self "-"); try reflexivity; try assumption.
  2: { rewrite Htext, Hpos. apply nth_error_mid. }
  assert (Hnext : nth_error (Lexer.text_ self) (Lexer.pos_ self + 1)
                  = Some c).
  { rewrite Htext, Hpos.
    change (pre ++ "-"%char :: c :: rest)
      with (pre ++ ["-"%char] ++ c :: rest).
    rewrite app_assoc.
    replace (List.length pre + 1) with (List.length (pre ++ ["-"%char]))
      by (rewrite length_app; reflexivity).
    apply nth_error_mid. }
  rewrite Hnext.
  unfold Lexer.next_normal_, Lexer.and_in_, in_.
  change (Ascii.eqb "-" BACKSLASH) with false.
  change (Ascii.eqb "-" "@") with false.
  change (char_in "-" Lexer.CHAR_NAME_START_) with false.
  change (Ascii.eqb "-" "0") with false.
  change (char_in "-" Lexer.CHAR_DIGIT_) with false.
  change (Ascii.eqb "-" "-") with true.
  change (char_in "-" Lexer.CHAR_SYMBOL_) with true.
  cbv iota. unfold is_digit in Hc. rewrite Hc. cbv iota zeta.
  rewrite Hpos. reflexivity.
Qed.

(** C9: the text [-7] is one [NUMBER] token of value -7, and a minus sign
    followed by a blank is a [SYMBOL]; but on a minus sign that ends the
    buffer, [next_char] is [None], the test [next_char in CHAR_DIGIT_]
    raises [TypeError], and no [SYMBOL] token is returned. *)
Theorem C9_minus_at_end_of_buffer (filename : string) :
  Lexer_tokens 2 (Lexer.init "-7" filename)
  = Some ([(NUMBER, IntValue (-7), (filename, 1%Z, 1%Z))],
          Some StopIteration) /\
  Lexer_tokens 3 (Lexer.init "- 7" filename)
  = Some ([(SYMBOL, StrValue "-", (filename, 1%Z, 1%Z));
           (NUMBER, IntValue 7, (filename, 1%Z, 3%Z))],
          Some StopIteration) /\
  Lexer.next_ (Lexer.init "-" filename)
  = Raise TypeError (Lexer.init "-" filename) /\
  Lexer.next (Lexer.init "-" filename)
  = Some (Raise TypeError (Lexer.init "-" filename)).
Proof.
  repeat split; reflexivity.
Qed.

(** ** A root file that cannot be opened (C10) *)

(** C10: (1) when the root file cannot be opened, the constructor raises
    [FeatureLibError] at [(root, 0, 0)]; (2) the scanners the resolver
    creates start with consistent counters, and a scanner with consistent
    counters keeps them and returns or raises one-based locations only;
    (3) so does every call of [next] on a resolver that was constructed:
    line 0 and column 0 come from the constructor only. *)
Theorem C10_root_error_at_line_0_column_0 :
  (forall fs root err,
      fs root = IOError err ->
      IncludingLexer.init fs root
      = inr (FeatureLibError err (root, 0%Z, 0%Z))) /\
  (forall text filename, Lexer_ok (Lexer.init text filename)) /\
  (forall self r l,
      Lexer_ok self ->
      Lexer.next self = Some r ->
      Lexer_ok (outcome_state r) /\
      (outcome_location r = Some l -> one_based l)) /\
  (forall fs root self fuel r l,
      reachable fs root self ->
      IncludingLexer.next fs fuel self = Some r ->
      outcome_location r = Some l ->
      one_based l).
Proof.
  split; [|split; [|split]].
  - intros fs root err H.
    unfold IncludingLexer.init, IncludingLexer.make_lexer_.
    rewrite H. reflexivity.
  - exact init_ok.
  - intros self r l Hok Hn.
    destruct (Lexer_next_ok self) as (r' & Hn' & _ & _ & _ & _ & H).
    rewrite Hn in Hn'; injection Hn' as <-.
    destruct (H Hok) as [H1 H2]. split; [exact H1 | apply H2].
  - intros fs root self fuel r l Hreach Hn Hl.
    apply reachable_ok in Hreach.
    destruct (resolver_next_ok fs fuel self r Hreach Hn) as [_ H].
    apply H; exact Hl.
Qed.

Lemma C10_witness :
  IncludingLexer.init (single "") "gone.fea"
  = inr (FeatureLibError "No such file or directory"
                         ("gone.fea", 0%Z, 0%Z)) /\
  one_based ("root.fea", 1%Z, 1%Z).
Proof.
  split.
  - apply (proj1 C10_root_error_at_line_0_column_0 (single "") "gone.fea").
    reflexivity.
  - apply (proj2 (proj2 (proj2 C10_root_error_at_line_0_column_0))
                 (single "@") "root.fea"
                 (IncludingLexer.mk [Lexer.init "@" "root.fea"]) 1
                 (Raise (FeatureLibError "Expected glyph class name"
                                         ("root.fea", 1%Z, 1%Z))
                        (IncludingLexer.mk
                           [Lexer.mk "root.fea" 1 1 0 (chars "@")
                                     Lexer.MODE_NORMAL_]))).
    + apply reachable_init. reflexivity.
    + reflexivity.
    + reflexivity.
Defined.

(** * More of the scanner: the token grammar *)

(** ** Scans over a text given in pieces *)

Lemma scan_over_at (self : Lexer.t) (valid : string)
      (pre run rest : list ascii) :
  Lexer.text_ self = pre ++ run ++ rest ->
  Lexer.pos_ self = List.length pre ->
  forallb (fun c => char_in c valid) run = true ->
  stops (fun c => char_in c valid) rest ->
  Lexer.scan_over_ self valid
  = Lexer.set_pos_ self (List.length pre + List.length run).
Proof.
  intros Ht Hp Hrun Hrest. unfold Lexer.scan_over_, Lexer.text_length_.
  f_equal. rewrite Ht, Hp.
  replace (List.length (pre ++ run ++ rest) - List.length pre)
    with (List.length (run ++ rest)) by (rewrite !length_app; lia).
  apply scan_app; assumption.
Qed.

Lemma scan_until_at (self : Lexer.t) (stop_at : string)
      (pre run rest : list ascii) :
  Lexer.text_ self = pre ++ run ++ rest ->
  Lexer.pos_ self = List.length pre ->
  forallb (fun c => negb (char_in c stop_at)) run = true ->
  stops (fun c => negb (char_in c stop_at)) rest ->
  Lexer.scan_until_ self stop_at
  = Lexer.set_pos_ self (List.length pre + List.length run).
Proof.
  intros Ht Hp Hrun Hrest. unfold Lexer.scan_until_, Lexer.text_length_.
  f_equal. rewrite Ht, Hp.
  replace (List.length (pre ++ run ++ rest) - List.length pre)
    with (List.length (run ++ rest)) by (rewrite !length_app; lia).
  apply (scan_app (fun c => negb (char_in c stop_at))); assumption.
Qed.

(** The text after [pre ++ mid] when the cursor is moved there. *)
Lemma text_shift (pre mid rest : list ascii) :
  pre ++ mid ++ rest = (pre ++ mid) ++ rest.
Proof.
  apply app_assoc.
Qed.

Lemma nth_error_head (A : Type) (pre rest : list A) :
  nth_error (pre ++ rest) (List.length pre) = nth_error rest 0.
Proof.
  rewrite nth_error_app2, Nat.sub_diag by lia. reflexivity.
Qed.

(** ** Decimal digits *)

Lemma digit_class (d : ascii) :
  is_digit d = true ->
  char_in d Lexer.CHAR_WHITESPACE_ = false /\
  Ascii.eqb d LF = false /\ Ascii.eqb d CR = false /\
  Ascii.eqb d "#" = false /\ Ascii.eqb d BACKSLASH = false /\
  Ascii.eqb d "@" = false /\ char_in d Lexer.CHAR_NAME_START_ = false /\
  Ascii.eqb d "-" = false /\ Ascii.eqb d "+" = false.
Proof.
  unfold is_digit, char_in. simpl. intros H.
  repeat (apply orb_prop in H as [H|H];
          [apply Ascii.eqb_eq in H; subst d; repeat split; reflexivity|]).
  discriminate.
Qed.

(** [int(digits, 10)] is the number the digits denote. *)
Lemma int_digits (d : ascii) (ds : list ascii) :
  forallb is_digit (d :: ds) = true ->
  int_ (d :: ds) 10 = Some (decimal_value (d :: ds)).
Proof.
  intros H.
  assert (Hd : is_digit d = true)
    by (simpl in H; apply andb_true_iff in H; apply H).
  destruct (digit_class d Hd) as (_ & _ & _ & _ & _ & _ & _ & Hm & Hp).
  unfold int_, strip_sign.
  assert (E : match d with
              | "-"%char => (true, ds)
              | "+"%char => (false, ds)
              | _ => (false, d :: ds)
              end = (false, d :: ds)).
  { apply Ascii.eqb_neq in Hm, Hp.
    destruct d as [[] [] [] [] [] [] [] []]; try reflexivity; congruence. }
  rewrite E. unfold strip_hex_prefix. change (10 =? 16)%Z with false.
  cbv iota. rewrite (digits_value_decimal (d :: ds) 0 H). reflexivity.
Qed.




(** ** Hexadecimal numbers *)

Lemma hexdigit_value (h : ascii) :
  is_hexdigit h = true ->
  digit_value h = Some (hex_digit h) /\ (hex_digit h <? 16)%Z = true.
Proof.
  unfold is_hexdigit, char_in. simpl. intros H.
  repeat (apply orb_prop in H as [H|H];
          [apply Ascii.eqb_eq in H; subst h; split; reflexivity|]).
  discriminate.
Qed.

Lemma digits_value_hex (hs : list ascii) (acc : Z) :
  forallb is_hexdigit hs = true ->
  digits_value 16 acc hs
  = Some (fold_left (fun acc d => (acc * 16 + hex_digit d)%Z) hs acc).
Proof.
  revert acc; induction hs as [|h hs IH]; intros acc H; [reflexivity|].
  simpl in H. apply andb_true_iff in H as [Hh Hhs].
  destruct (hexdigit_value h Hh) as [E1 E2].
  simpl. rewrite E1, E2. apply IH. exact Hhs.
Qed.

(** [int("0x" + digits, 16)]: the number the digits denote, or
    [ValueError] when there is no digit. *)
Lemma int_hex (x : ascii) (hs : list ascii) :
  char_in x "xX" = true ->
  forallb is_hexdigit hs = true ->
  int_ ("0"%char :: x :: hs) 16
  = match hs with
    | [] => None
    | _ => Some (hex_value hs)
    end.
Proof.
  intros Hx Hhs.
  assert (E : strip_hex_prefix 16 ("0"%char :: x :: hs) = hs).
  { unfold char_in in Hx. simpl in Hx.
    apply orb_prop in Hx as [Hx|Hx].
    - apply Ascii.eqb_eq in Hx; subst x. reflexivity.
    - rewrite orb_false_r in Hx. apply Ascii.eqb_eq in Hx; subst x.
      reflexivity. }
  unfold int_, strip_sign. rewrite E.
  destruct hs as [|h hs']; [reflexivity|].
  rewrite (digits_value_hex (h :: hs') 0 Hhs). reflexivity.
Qed.

(** X2: [0x] or [0X] followed by hexadecimal digits is one [NUMBER] token
    whose value is the number the digits denote in base 16; without any
    digit after the prefix the call raises [ValueError], whatever
    follows. *)
Theorem hexadecimal_number_token
        (self : Lexer.t) (pre hs rest : list ascii) (x : ascii) :
  Lexer.mode_ self = Lexer.MODE_NORMAL_ ->
  Lexer.text_ self = pre ++ ("0"%char :: x :: hs) ++ rest ->
  Lexer.pos_ self = List.length pre ->
  char_in x "xX" = true ->
  forallb is_hexdigit hs = true ->
  stops is_hexdigit rest ->
  Lexer.next_ self
  = match hs with
    | [] =>
        Raise ValueError (Lexer.set_pos_ self (List.length pre + 2))
    | _ =>
        Return (NUMBER, IntValue (hex_value hs), Lexer.location_ self)
               (Lexer.set_pos_ self (List.length pre + 2 + List.length hs))
    end.
Proof.
  intros Hmode Htext Hpos Hx Hhs Hrest.
  rewrite (next__normal self "0" Hmode); try reflexivity.
  2: { rewrite Htext, Hpos. apply nth_error_mid. }
  assert (Hnext : nth_error (Lexer.text_ self) (Lexer.pos_ self + 1)
                  = Some x).
  { rewrite Htext, Hpos.
    change (pre ++ ("0"%char :: x :: hs) ++ rest)
      with (pre ++ ["0"%char] ++ x :: hs ++ rest).
    rewrite app_assoc.
    replace (List.length pre + 1) with (List.length (pre ++ ["0"%char]))
      by (rewrite length_app; reflexivity).
    apply nth_error_mid. }
  rewrite Hnext.
  unfold Lexer.next_normal_, Lexer.and_in_, in_.
  change (Ascii.eqb "0" BACKSLASH) with false.
  change (Ascii.eqb "0" "@") with false.
  change (char_in "0" Lexer.CHAR_NAME_START_) with false.
  change (Ascii.eqb "0" "0") with true.
  cbv iota. rewrite Hx. cbv iota zeta.
  assert (Hscan :
    Lexer.scan_over_ (Lexer.set_pos_ self (Lexer.pos_ self + 2))
                     Lexer.CHAR_HEXDIGIT_
    = Lexer.set_pos_ self (List.length pre + 2 + List.length hs)).
  { rewrite (scan_over_at _ _ (pre ++ ["0"%char; x]) hs rest).
    - rewrite length_app. reflexivity.
    - cbn [Lexer.text_ Lexer.set_pos_]. rewrite Htext.
      rewrite <- app_assoc. reflexivity.
    - cbn [Lexer.pos_ Lexer.set_pos_]. rewrite Hpos, length_app.
      reflexivity.
    - exact Hhs.
    - exact Hrest. }
  rewrite Hscan. unfold Lexer.number_. cbn [Lexer.pos_ Lexer.set_pos_].
  replace (slice (Lexer.text_ self) (Lexer.pos_ self)
                 (List.length pre + 2 + List.length hs))
    with ("0"%char :: x :: hs).
  - rewrite (int_hex x hs Hx Hhs).
    destruct hs as [|h hs']; [|reflexivity].
    simpl. rewrite Nat.add_0_r. reflexivity.
  - rewrite Htext, Hpos.
    replace (List.length pre + 2 + List.length hs)
      with (List.length pre + List.length ("0"%char :: x :: hs))
      by (simpl; lia).
    symmetry. apply slice_mid.
Qed.

Lemma hexadecimal_number_token_witness :
  Lexer.next_ (Lexer.init "0xCAFE;" "root.fea")
  = Return (NUMBER, IntValue 51966, ("root.fea", 1%Z, 1%Z))
           (Lexer.set_pos_ (Lexer.init "0xCAFE;" "root.fea") 6).
Proof.
  apply (hexadecimal_number_token
           (Lexer.init "0xCAFE;" "root.fea") [] (chars "CAFE") (chars ";")
           "x"); reflexivity.
Defined.

(** ** Character identifiers *)

(** X3: a backslash followed by decimal digits is one [CID] token whose
    value is the number the digits denote; the backslash is not part of
    the value. *)
Theorem cid_token
        (self : Lexer.t) (pre ds rest : list ascii) (d : ascii) :
  Lexer.mode_ self = Lexer.MODE_NORMAL_ ->
  Lexer.text_ self = pre ++ (BACKSLASH :: d :: ds) ++ rest ->
  Lexer.pos_ self = List.length pre ->
  forallb is_digit (d :: ds) = true ->
  stops is_digit rest ->
  Lexer.next_ self
  = Return (CID, IntValue (decimal_value (d :: ds)), Lexer.location_ self)
           (Lexer.set_pos_ self
              (List.length pre + 1 + List.length (d :: ds))).
Proof.
  intros Hmode Htext Hpos Hds Hrest.
  assert (Hd : char_in d Lexer.CHAR_DIGIT_ = true)
    by (simpl in Hds; apply andb_true_iff in Hds; apply Hds).
  rewrite (next__normal self BACKSLASH Hmode); try reflexivity.
  2: { rewrite Htext, Hpos. apply nth_error_mid. }
  assert (Hshift : Lexer.text_ self
                   = (pre ++ [BACKSLASH]) ++ (d :: ds) ++ rest).
  { rewrite Htext, <- app_assoc. reflexivity. }
  assert (Hlen : List.length (pre ++ [BACKSLASH]) = List.length pre + 1)
    by (rewrite length_app; reflexivity).
  assert (Hnext : nth_error (Lexer.text_ self) (Lexer.pos_ self + 1)
                  = Some d).
  { rewrite Hshift, Hpos, <- Hlen. apply nth_error_mid. }
  rewrite Hnext.
  unfold Lexer.next_normal_, Lexer.and_in_, in_.
  change (Ascii.eqb BACKSLASH BACKSLASH) with true.
  cbv iota. rewrite Hd. cbv iota zeta.
  rewrite (scan_over_at _ _ (pre ++ [BACKSLASH]) (d :: ds) rest);
    [ | exact Hshift
      | cbn [Lexer.pos_ Lexer.set_pos_]; rewrite Hpos, Hlen; reflexivity
      | exact Hds | exact Hrest ].
  unfold Lexer.number_. cbn [Lexer.pos_ Lexer.set_pos_].
  rewrite Hshift, Hpos, <- Hlen, slice_mid, (int_digits d ds Hds).
  reflexivity.
Qed.

Lemma cid_token_witness :
  Lexer.next_ (Lexer.init "\12 " "root.fea")
  = Return (CID, IntValue 12, ("root.fea", 1%Z, 1%Z))
           (Lexer.set_pos_ (Lexer.init "\12 " "root.fea") 3).
Proof.
  apply (cid_token (Lexer.init "\12 " "root.fea") [] (chars "2") (chars " ")
                   "1"); reflexivity.
Defined.

(** ** Names *)

Lemma name_start_class (c : ascii) :
  is_name_start c = true ->
  char_in c Lexer.CHAR_WHITESPACE_ = false /\
  Ascii.eqb c LF = false /\ Ascii.eqb c CR = false /\
  Ascii.eqb c "#" = false /\ Ascii.eqb c "@" = false.
Proof.
  unfold is_name_start, char_in. simpl. intros H.
  repeat (apply orb_prop in H as [H|H];
          [apply Ascii.eqb_eq in H; subst c; repeat split; reflexivity|]).
  discriminate.
Qed.

(** X4: a name start character followed by name continuation characters is
    one [NAME] token whose value is that text; the name [include], and no
    other, switches the scanner to the filename mode.  A backslash starts
    a name only if a character that is not a digit follows it. *)
Theorem name_token
        (self : Lexer.t) (pre cs rest : list ascii) (c : ascii) :
  Lexer.mode_ self = Lexer.MODE_NORMAL_ ->
  Lexer.text_ self = pre ++ (c :: cs) ++ rest ->
  Lexer.pos_ self = List.length pre ->
  is_name_start c = true ->
  forallb is_name_continuation cs = true ->
  stops is_name_continuation rest ->
  (Ascii.eqb c BACKSLASH = true ->
   match cs ++ rest with
   | c' :: _ => is_digit c' = false
   | [] => False
   end) ->
  Lexer.next_ self
  = Return (NAME, StrValue (text_of (c :: cs)), Lexer.location_ self)
           (Lexer.set_mode_
              (Lexer.set_pos_ self (List.length pre + List.length (c :: cs)))
              (if String.eqb (text_of (c :: cs)) "include"
               then Lexer.MODE_FILENAME_ else Lexer.MODE_NORMAL_)).
Proof.
  intros Hmode Htext Hpos Hc Hcs Hrest Hback.
  destruct (name_start_class c Hc) as (Hws & Hlf & Hcr & Hh & Ha).
  rewrite (next__normal self c Hmode); try assumption.
  2: { rewrite Htext, Hpos. apply nth_error_mid. }
  assert (Hshift : Lexer.text_ self = (pre ++ [c]) ++ cs ++ rest).
  { rewrite Htext, <- app_assoc. reflexivity. }
  assert (Hlen : List.length (pre ++ [c]) = List.length pre + 1)
    by (rewrite length_app; reflexivity).
  assert (Hcid : Lexer.and_in_ (Ascii.eqb c BACKSLASH)
                   (nth_error (Lexer.text_ self) (Lexer.pos_ self + 1))
                   Lexer.CHAR_DIGIT_ = Some false).
  { unfold Lexer.and_in_. destruct (Ascii.eqb c BACKSLASH); [|reflexivity].
    specialize (Hback eq_refl).
    rewrite Hshift, Hpos, <- Hlen, nth_error_head.
    destruct (cs ++ rest) as [|c' l]; [contradiction|].
    unfold in_. cbn [nth_error]. unfold is_digit in Hback.
    rewrite Hback. reflexivity. }
  unfold Lexer.next_normal_. rewrite Hcid, Ha.
  unfold is_name_start in Hc. rewrite Hc. cbv zeta.
  rewrite (scan_over_at _ _ (pre ++ [c]) cs rest);
    [ | exact Hshift
      | cbn [Lexer.pos_ Lexer.set_pos_]; rewrite Hpos, Hlen; reflexivity
      | exact Hcs | exact Hrest ].
  cbn [Lexer.pos_ Lexer.set_pos_].
  replace (slice (Lexer.text_ self) (Lexer.pos_ self)
                 (List.length (pre ++ [c]) + List.length cs))
    with (c :: cs).
  2: { rewrite Htext, Hpos, Hlen.
       replace (List.length pre + 1 + List.length cs)
         with (List.length pre + List.length (c :: cs)) by (simpl; lia).
       symmetry. apply slice_mid. }
  replace (List.length (pre ++ [c]) + List.length cs)
    with (List.length pre + List.length (c :: cs))
    by (rewrite Hlen; simpl; lia).
  destruct (String.eqb (text_of (c :: cs)) "include"); [reflexivity|].
  f_equal. destruct self; simpl in *. subst. reflexivity.
Qed.

Lemma name_token_witness :
  Lexer.next_ (Lexer.init "include(a.fea);" "root.fea")
  = Return (NAME, StrValue "include", ("root.fea", 1%Z, 1%Z))
           (Lexer.mk "root.fea" 1 7 0 (chars "include(a.fea);")
                     Lexer.MODE_FILENAME_).
Proof.
  apply (name_token (Lexer.init "include(a.fea);" "root.fea")
                    [] (chars "nclude") (chars "(a.fea);") "i");
    first [reflexivity | discriminate].
Defined.

(** ** Comments and newlines *)

(** The scanner, in any mode, with its cursor on a character that is not
    a blank: the three tests that come before the mode is looked at. *)
Lemma next__hash (self : Lexer.t) :
  nth_error (Lexer.text_ self) (Lexer.pos_ self) = Some "#"%char ->
  Lexer.next_ self
  = let s := Lexer.scan_until_ self Lexer.CHAR_NEWLINE_ in
    Return (COMMENT,
            StrValue (text_of (slice (Lexer.text_ self) (Lexer.pos_ self)
                                     (Lexer.pos_ s))),
            Lexer.location_ self) s.
Proof.
  destruct self as [fn ln p ls tx md]; simpl. intros Hc.
  unfold Lexer.next_, Lexer.scan_over_; cbn [Lexer.text_ Lexer.pos_
    Lexer.set_pos_ Lexer.filename_ Lexer.line_ Lexer.line_start_
    Lexer.mode_].
  rewrite (scan_stay _ tx p _ "#" Hc) by reflexivity.
  cbn [Lexer.text_ Lexer.pos_ Lexer.mode_]. rewrite Hc. reflexivity.
Qed.

(** X5: in either mode, [#] starts a [COMMENT] token that runs up to the
    next line terminator or to the end of the text; its value begins with
    the [#] and leaves the line terminator, which is not consumed, out. *)
Theorem comment_token
        (self : Lexer.t) (pre body rest : list ascii) :
  Lexer.text_ self = pre ++ ("#"%char :: body) ++ rest ->
  Lexer.pos_ self = List.length pre ->
  forallb (fun c => negb (is_newline c)) body = true ->
  stops (fun c => negb (is_newline c)) rest ->
  Lexer.next_ self
  = Return (COMMENT, StrValue (text_of ("#"%char :: body)),
            Lexer.location_ self)
           (Lexer.set_pos_ self
              (List.length pre + List.length ("#"%char :: body))).
Proof.
  intros Htext Hpos Hbody Hrest.
  rewrite next__hash by (rewrite Htext, Hpos; apply nth_error_mid).
  cbv zeta.
  rewrite (scan_until_at self _ pre ("#"%char :: body) rest Htext Hpos);
    [ | simpl; exact Hbody | exact Hrest ].
  cbn [Lexer.pos_ Lexer.set_pos_].
  rewrite Htext, Hpos, slice_mid. reflexivity.
Qed.

Lemma comment_token_witness :
  Lexer.next_ (Lexer.init comment_then_name "root.fea")
  = Return (COMMENT, StrValue "#c", ("root.fea", 1%Z, 1%Z))
           (Lexer.set_pos_ (Lexer.init comment_then_name "root.fea") 2).
Proof.
  apply (comment_token (Lexer.init comment_then_name "root.fea")
                       [] (chars "c") (LF :: chars "foo")); reflexivity.
Defined.

(** ** File names *)






(** ** Glyph classes *)

(** X8: [@] followed by the run [name] of name continuation characters is
    a glyph class: the call raises [FeatureLibError] at the [@] when the
    name is empty, when it has more than 30 characters, or when one of its
    characters is not a letter, a digit, an underscore or a period (the
    checks are made in this order); otherwise it returns one [GLYPHCLASS]
    token whose value is the name without the [@].  In every case the
    cursor is after the name. *)
Theorem glyphclass_token
        (self : Lexer.t) (pre name rest : list ascii) :
  Lexer.mode_ self = Lexer.MODE_NORMAL_ ->
  Lexer.text_ self = pre ++ ("@"%char :: name) ++ rest ->
  Lexer.pos_ self = List.length pre ->
  forallb is_name_continuation name = true ->
  stops is_name_continuation rest ->
  let self' := Lexer.set_pos_ self (List.length pre + 1 + List.length name) in
  Lexer.next_ self
  = if List.length name <? 1 then
      Raise (FeatureLibError "Expected glyph class name"
                             (Lexer.location_ self)) self'
    else if 30 <? List.length name then
      Raise (FeatureLibError
               "Glyph class names must not be longer than 30 characters"
               (Lexer.location_ self)) self'
    else if negb (Lexer.RE_GLYPHCLASS_match name) then
      Raise (FeatureLibError
               ("Glyph class names must consist of letters, digits, " ++
                "underscore, or period")%string
               (Lexer.location_ self)) self'
    else
      Return (GLYPHCLASS, StrValue (text_of name), Lexer.location_ self)
             self'.
Proof.
  intros Hmode Htext Hpos Hname Hrest self'.
  rewrite (next__normal self "@" Hmode); try reflexivity.
  2: { rewrite Htext, Hpos. apply nth_error_mid. }
  unfold Lexer.next_normal_, Lexer.and_in_.
  change (Ascii.eqb "@" BACKSLASH) with false.
  change (Ascii.eqb "@" "@") with true. cbv iota.
  unfold Lexer.next_glyphclass_. cbv zeta.
  assert (Hshift : Lexer.text_ self = (pre ++ ["@"%char]) ++ name ++ rest).
  { rewrite Htext, <- app_assoc. reflexivity. }
  assert (Hlen : List.length (pre ++ ["@"%char]) = List.length pre + 1)
    by (rewrite length_app; reflexivity).
  rewrite (scan_over_at _ _ (pre ++ ["@"%char]) name rest);
    [ | exact Hshift
      | cbn [Lexer.pos_ Lexer.set_pos_]; rewrite Hpos, Hlen; reflexivity
      | exact Hname | exact Hrest ].
  cbn [Lexer.pos_ Lexer.set_pos_].
  assert (Hslice : slice (Lexer.text_ self) (Lexer.pos_ self + 1)
                         (List.length (pre ++ ["@"%char]) + List.length name)
                   = name).
  { rewrite Hshift, Hpos, <- Hlen. apply slice_mid. }
  rewrite Hslice. subst self'. rewrite Hlen. reflexivity.
Qed.

Lemma glyphclass_token_witness :
  Lexer.next_ (Lexer.init "@abc.1 " "root.fea")
  = Return (GLYPHCLASS, StrValue "abc.1", ("root.fea", 1%Z, 1%Z))
           (Lexer.set_pos_ (Lexer.init "@abc.1 " "root.fea") 6).
Proof.
  apply (glyphclass_token (Lexer.init "@abc.1 " "root.fea")
                          [] (chars "abc.1") (chars " ")); reflexivity.
Defined.

(** ** What the tokens of each type hold *)

(** Sets up the case analysis of [next_ self] for a goal of the form
    [match next_ self with Return tok s' => _ | Raise _ _ => True end];
    [s0] is [self] after the blanks. *)
Ltac next__returns self :=
  let F := fresh "Hframe" in
  let s0 := fresh "s0" in
  let Hs0 := fresh "Hs0" in
  pose proof (scan_over_frame self Lexer.CHAR_WHITESPACE_) as F;
  remember (Lexer.scan_over_ self Lexer.CHAR_WHITESPACE_) as s0 eqn:Hs0;
  match goal with
  | |- match _ with Return tok s' => @?Q tok s' | Raise _ _ => _ end =>
      let P := fresh "P" in
      pose (P := fun r : Outcome Token Lexer.t =>
                   match r with
                   | Return tok s' => Q tok s'
                   | Raise _ _ => True
                   end);
      change (P (Lexer.next_ self));
      unfold Lexer.next_; cbv zeta;
      rewrite <- Hs0; clear Hs0;
      unfold Lexer.next_normal_, Lexer.next_filename_,
        Lexer.next_glyphclass_, Lexer.next_string_, Lexer.number_,
        Lexer.location_;
      cbv zeta;
      repeat break_match; subst P; cbv beta iota; proj_simpl;
      try exact I
  end.

Lemma next__value_kinds (self : Lexer.t) :
  match Lexer.next_ self with
  | Return tok _ =>
      match token_type tok with
      | NUMBER | CID => exists n, token_value tok = IntValue n
      | NEWLINE => token_value tok = NoneValue
      | _ => exists s, token_value tok = StrValue s
      end
  | Raise _ _ => True
  end.
Proof.
  next__returns self; eauto.
Qed.

(** X9: the value of a token has the Python type its token type announces:
    an integer for [NUMBER] and [CID], [None] for [NEWLINE], a text for
    every other type. *)
Theorem token_value_kinds (self self' : Lexer.t) (tok : Token) :
  Lexer.next_ self = Return tok self' ->
  match token_type tok with
  | NUMBER | CID => exists n, token_value tok = IntValue n
  | NEWLINE => token_value tok = NoneValue
  | _ => exists s, token_value tok = StrValue s
  end.
Proof.
  intros H. pose proof (next__value_kinds self) as K. rewrite H in K.
  exact K.
Qed.

Lemma token_value_kinds_witness :
  exists n, token_value (CID, IntValue 12, ("root.fea", 1%Z, 1%Z))
            = IntValue n.
Proof.
  apply (token_value_kinds
           (Lexer.init "\12" "root.fea")
           (Lexer.set_pos_ (Lexer.init "\12" "root.fea") 3)
           (CID, IntValue 12, ("root.fea", 1%Z, 1%Z))).
  reflexivity.
Defined.

Lemma next__symbol (self : Lexer.t) :
  match Lexer.next_ self with
  | Return tok _ =>
      token_type tok = SYMBOL ->
      Lexer.mode_ self = Lexer.MODE_NORMAL_ /\
      exists c, token_value tok = StrValue (String c "") /\
                char_in c ";-'{}[]<>()=" = true
  | Raise _ _ => True
  end.
Proof.
  next__returns self; try discriminate.
  intros _. split; [destruct Hframe as (_ & _ & _ & _ & Hm & _); congruence|].
  match goal with
  | |- exists c, StrValue (String ?a "") = _ /\ _ => exists a
  end.
  split; [reflexivity|].
  match goal with
  | Hs : char_in ?a Lexer.CHAR_SYMBOL_ = true,
    Hn : char_in ?a Lexer.CHAR_NAME_START_ = false |- _ =>
      unfold char_in in Hs; simpl in Hs;
      repeat (apply orb_prop in Hs as [Hs|Hs];
              [apply Ascii.eqb_eq in Hs; subst a;
               first [reflexivity | discriminate Hn]|]);
      discriminate
  end.
Qed.

(** X10: a [SYMBOL] token is one character out of [; - ' { } [ ] < > ( ) =],
    read in normal mode.  The characters [+] and [:], although listed in
    [CHAR_SYMBOL_], never come out as symbols: they are name start
    characters, and the test for names comes first. *)
Theorem symbol_tokens (self self' : Lexer.t) (tok : Token) :
  Lexer.next_ self = Return tok self' ->
  token_type tok = SYMBOL ->
  Lexer.mode_ self = Lexer.MODE_NORMAL_ /\
  exists c, token_value tok = StrValue (String c "") /\
            char_in c ";-'{}[]<>()=" = true.
Proof.
  intros H. pose proof (next__symbol self) as K. rewrite H in K.
  exact K.
Qed.

Lemma symbol_tokens_witness :
  Lexer.mode_ (Lexer.init "{ a }" "root.fea") = Lexer.MODE_NORMAL_ /\
  exists c, token_value (SYMBOL, StrValue "{", ("root.fea", 1%Z, 1%Z))
            = StrValue (String c "") /\
            char_in c ";-'{}[]<>()=" = true.
Proof.
  apply (symbol_tokens
           (Lexer.init "{ a }" "root.fea")
           (Lexer.set_pos_ (Lexer.init "{ a }" "root.fea") 1)
           (SYMBOL, StrValue "{", ("root.fea", 1%Z, 1%Z)));
    reflexivity.
Defined.

Lemma next__glyphclass (self : Lexer.t) :
  match Lexer.next_ self with
  | Return tok _ =>
      token_type tok = GLYPHCLASS ->
      exists name,
        token_value tok = StrValue (text_of name) /\
        1 <= List.length name <= 30 /\
        forallb (fun c => char_in c (Lexer.CHAR_LETTER_ ++ "_" ++
                                     Lexer.CHAR_DIGIT_ ++ ".")%string)
                name = true
  | Raise _ _ => True
  end.
Proof.
  next__returns self; try discriminate.
  intros _.
  match goal with
  | |- exists name, StrValue (text_of ?n) = _ /\ _ => exists n
  end.
  split; [reflexivity|].
  repeat match goal with
  | H : (_ <? _) = false |- _ => apply Nat.ltb_ge in H
  | H : negb _ = false |- _ => apply negb_false_iff in H
  end.
  split; [lia|].
  match goal with
  | H : Lexer.RE_GLYPHCLASS_match ?n = true |- _ =>
      unfold Lexer.RE_GLYPHCLASS_match in H;
      destruct n; [discriminate | exact H]
  end.
Qed.

(** X11: a [GLYPHCLASS] token always carries a well-formed name: one to
    thirty characters, each a letter, a digit, an underscore or a
    period. *)
Theorem glyphclass_tokens (self self' : Lexer.t) (tok : Token) :
  Lexer.next_ self = Return tok self' ->
  token_type tok = GLYPHCLASS ->
  exists name,
    token_value tok = StrValue (text_of name) /\
    1 <= List.length name <= 30 /\
    forallb (fun c => char_in c (Lexer.CHAR_LETTER_ ++ "_" ++
                                 Lexer.CHAR_DIGIT_ ++ ".")%string)
            name = true.
Proof.
  intros H. pose proof (next__glyphclass self) as K. rewrite H in K.
  exact K.
Qed.

Lemma glyphclass_tokens_witness :
  exists name,
    token_value (GLYPHCLASS, StrValue "abc.1", ("root.fea", 1%Z, 1%Z))
    = StrValue (text_of name) /\
    1 <= List.length name <= 30 /\
    forallb (fun c => char_in c (Lexer.CHAR_LETTER_ ++ "_" ++
                                 Lexer.CHAR_DIGIT_ ++ ".")%string)
            name = true.
Proof.
  apply (glyphclass_tokens
           (Lexer.init "@abc.1 " "root.fea")
           (Lexer.set_pos_ (Lexer.init "@abc.1 " "root.fea") 6)
           (GLYPHCLASS, StrValue "abc.1", ("root.fea", 1%Z, 1%Z)));
    reflexivity.
Defined.

(** ** Blanks, newlines and the end of the text *)

Lemma scan_idem (keep : ascii -> bool) (text : list ascii) (p fuel : nat) :
  List.length text - p <= fuel ->
  Lexer.scan keep text (Lexer.scan keep text p fuel)
             (List.length text - Lexer.scan keep text p fuel)
  = Lexer.scan keep text p fuel.
Proof.
  intros Hfuel. pose proof (scan_stop keep text fuel p Hfuel) as Hstop.
  destruct (nth_error text (Lexer.scan keep text p fuel)) as [c|] eqn:E.
  - apply (scan_stay keep text _ _ c E Hstop).
  - destruct (List.length text - Lexer.scan keep text p fuel); simpl;
      [reflexivity|]. rewrite E. reflexivity.
Qed.

(** X12: skipping the blanks before a token is all the blanks do: a call of
    [next_] gives the same outcome whether or not the cursor has already
    been moved over the blanks and tabs in front of it. *)
Theorem blanks_are_skipped (self : Lexer.t) :
  Lexer.next_ (Lexer.scan_over_ self Lexer.CHAR_WHITESPACE_)
  = Lexer.next_ self.
Proof.
  unfold Lexer.next_ at 1. cbv zeta.
  assert (E : Lexer.scan_over_
                (Lexer.scan_over_ self Lexer.CHAR_WHITESPACE_)
                Lexer.CHAR_WHITESPACE_
              = Lexer.scan_over_ self Lexer.CHAR_WHITESPACE_).
  { unfold Lexer.scan_over_, Lexer.text_length_, Lexer.set_pos_.
    cbn [Lexer.pos_ Lexer.text_ Lexer.filename_ Lexer.line_
         Lexer.line_start_ Lexer.mode_].
    f_equal. apply scan_idem. lia. }
  rewrite E. reflexivity.
Qed.

(** X13: a line feed, a carriage return, and a carriage return followed by
    a line feed are each one [NEWLINE] token, in either mode; the line
    counter goes up by one and the next line starts right after the
    token. *)
Theorem newline_token
        (self : Lexer.t) (pre rest : list ascii) (c : ascii) :
  Lexer.text_ self = pre ++ c :: rest ->
  Lexer.pos_ self = List.length pre ->
  is_newline c = true ->
  let step := if Ascii.eqb c CR
              then match rest with
                   | c' :: _ => if Ascii.eqb c' LF then 2 else 1
                   | [] => 1
                   end
              else 1 in
  Lexer.next_ self
  = Return (NEWLINE, NoneValue, Lexer.location_ self)
           (Lexer.new_line_ self (List.length pre + step)).
Proof.
  intros Htext Hpos Hc step.
  assert (Hcur : nth_error (Lexer.text_ self) (Lexer.pos_ self) = Some c)
    by (rewrite Htext, Hpos; apply nth_error_mid).
  assert (Hnext : nth_error (Lexer.text_ self) (Lexer.pos_ self + 1)
                  = nth_error rest 0).
  { rewrite Htext, Hpos.
    change (pre ++ c :: rest) with (pre ++ [c] ++ rest).
    rewrite app_assoc.
    replace (List.length pre + 1) with (List.length (pre ++ [c]))
      by (rewrite length_app; reflexivity).
    apply nth_error_head. }
  assert (Hws : char_in c Lexer.CHAR_WHITESPACE_ = false).
  { unfold is_newline, char_in in Hc. simpl in Hc.
    apply orb_prop in Hc as [Hc|Hc].
    - apply Ascii.eqb_eq in Hc; subst c; reflexivity.
    - rewrite orb_false_r in Hc. apply Ascii.eqb_eq in Hc; subst c.
      reflexivity. }
  destruct self as [fn ln p ls tx md].
  cbn [Lexer.text_ Lexer.pos_] in *.
  unfold Lexer.next_, Lexer.scan_over_; cbn [Lexer.text_ Lexer.pos_
    Lexer.set_pos_ Lexer.filename_ Lexer.line_ Lexer.line_start_
    Lexer.mode_].
  rewrite (scan_stay _ tx p _ c Hcur) by exact Hws.
  cbn [Lexer.text_ Lexer.pos_ Lexer.mode_]. rewrite Hcur, Hnext.
  subst step p.
  unfold is_newline, char_in in Hc. simpl in Hc.
  destruct (Ascii.eqb c LF) eqn:Elf.
  - apply Ascii.eqb_eq in Elf; subst c. reflexivity.
  - destruct (Ascii.eqb c CR) eqn:Ecr; [|discriminate].
    destruct rest as [|c' rest']; reflexivity.
Qed.

Lemma newline_token_witness :
  Lexer.next_ (Lexer.mk "root.fea" 1 1 0
                        ("a"%char :: CR :: LF :: chars "b")
                        Lexer.MODE_NORMAL_)
  = Return (NEWLINE, NoneValue, ("root.fea", 1%Z, 2%Z))
           (Lexer.mk "root.fea" 2 3 3
                     ("a"%char :: CR :: LF :: chars "b")
                     Lexer.MODE_NORMAL_).
Proof.
  apply (newline_token
           (Lexer.mk "root.fea" 1 1 0 ("a"%char :: CR :: LF :: chars "b")
                     Lexer.MODE_NORMAL_)
           (chars "a") (LF :: chars "b") CR); reflexivity.
Defined.

(** [next_] raises [StopIteration] only at the end of the text, after
    the blanks. *)
Lemma next__stop (self s' : Lexer.t) :
  Lexer.next_ self = Raise StopIteration s' ->
  s' = Lexer.scan_over_ self Lexer.CHAR_WHITESPACE_ /\
  nth_error (Lexer.text_ s') (Lexer.pos_ s') = None.
Proof.
  unfold Lexer.next_. cbv zeta.
  generalize (Lexer.scan_over_ self Lexer.CHAR_WHITESPACE_) as s0.
  intros s0.
  unfold Lexer.next_normal_, Lexer.next_filename_, Lexer.next_glyphclass_,
    Lexer.next_string_, Lexer.number_, Lexer.location_.
  cbv zeta.
  repeat break_match; try discriminate.
  intros [= <-]. split; [reflexivity | assumption].
Qed.

Lemma next__at_end (s : Lexer.t) :
  nth_error (Lexer.text_ s) (Lexer.pos_ s) = None ->
  Lexer.next_ s = Raise StopIteration s /\
  Lexer.next s = Some (Raise StopIteration s).
Proof.
  intros Hend.
  assert (E : Lexer.scan_over_ s Lexer.CHAR_WHITESPACE_ = s).
  { unfold Lexer.scan_over_, Lexer.text_length_.
    apply nth_error_None in Hend.
    replace (List.length (Lexer.text_ s) - Lexer.pos_ s) with 0 by lia.
    destruct s; reflexivity. }
  assert (N : Lexer.next_ s = Raise StopIteration s).
  { unfold Lexer.next_. cbv zeta. rewrite E, Hend. reflexivity. }
  split; [exact N|].
  unfold Lexer.next. simpl. rewrite N. reflexivity.
Qed.

(** X14: an exhausted scanner stays exhausted: once the public [next] has
    raised [StopIteration], every later call raises [StopIteration] again
    and leaves the scanner as it is. *)
Theorem exhausted_scanner_stays_exhausted (self s' : Lexer.t) :
  Lexer.next self = Some (Raise StopIteration s') ->
  Lexer.next s' = Some (Raise StopIteration s').
Proof.
  intros H. destruct (Lexer_next_spec self) as (s & r & _ & Hr & _ & Hn).
  rewrite H in Hn; injection Hn as <-.
  apply next__stop in Hr as [_ Hend].
  apply next__at_end. exact Hend.
Qed.

Lemma exhausted_scanner_stays_exhausted_witness :
  Lexer.next (Lexer.mk "root.fea" 1 3 0 (chars "a  ") Lexer.MODE_NORMAL_)
  = Some (Raise StopIteration
            (Lexer.mk "root.fea" 1 3 0 (chars "a  ") Lexer.MODE_NORMAL_)).
Proof.
  apply (exhausted_scanner_stays_exhausted
           (Lexer.mk "root.fea" 1 1 0 (chars "a  ") Lexer.MODE_NORMAL_)).
  reflexivity.
Defined.

(** ** The cursor *)

Lemma skipped_bound (s s' : Lexer.t) :
  skipped s s' ->
  Lexer.pos_ s <= List.length (Lexer.text_ s) ->
  Lexer.pos_ s' <= List.length (Lexer.text_ s').
Proof.
  induction 1 as [s|s s1 s2 tok E K _ IH]; intros Hs; [exact Hs|].
  apply IH.
  pose proof (next__consumes s) as C. cbv zeta in C.
  destruct (C Hs) as (_ & Hle & _).
  pose proof (next__facts s) as F. cbv zeta in F.
  destruct F as (Ht & _).
  rewrite E in Hle, Ht. cbn [outcome_state] in *. rewrite Ht. exact Hle.
Qed.

(** X15: the public [next] never changes the text or the file name of the
    scanner, never moves the cursor back and never moves it past the end
    of the text; when it returns a token the cursor has moved forward. *)
Theorem scanner_cursor_invariant
        (self : Lexer.t) (r : Outcome Token Lexer.t) :
  Lexer.pos_ self <= List.length (Lexer.text_ self) ->
  Lexer.next self = Some r ->
  Lexer.text_ (outcome_state r) = Lexer.text_ self /\
  Lexer.filename_ (outcome_state r) = Lexer.filename_ self /\
  Lexer.pos_ self <= Lexer.pos_ (outcome_state r)
  <= List.length (Lexer.text_ self) /\
  match r with
  | Return _ s' => Lexer.pos_ self < Lexer.pos_ s'
  | Raise _ _ => True
  end.
Proof.
  intros Hpos H.
  destruct (Lexer_next_spec self) as (s & r' & Hs & Hr & _ & Hn).
  rewrite H in Hn; injection Hn as <-.
  pose proof (skipped_bound _ _ Hs Hpos) as Hbound.
  apply skipped_frame in Hs as (Ht & Hf & Hp & _).
  pose proof (next__facts s) as F. cbv zeta in F.
  pose proof (next__consumes s) as C. cbv zeta in C.
  destruct (C Hbound) as (_ & Hle & _).
  pose proof (scan_over_frame s Lexer.CHAR_WHITESPACE_)
    as (_ & _ & _ & _ & _ & Hws).
  rewrite Hr in *.
  destruct F as (Ht' & Hf' & Hp' & _ & F).
  split; [congruence|]. split; [congruence|]. split.
  - rewrite <- Ht. lia.
  - destruct r as [tok s'|e s']; [|exact I].
    cbn [outcome_state] in *. lia.
Qed.

Lemma scanner_cursor_invariant_witness :
  Lexer.text_ (Lexer.set_pos_ (Lexer.init "a b" "root.fea") 1)
  = Lexer.text_ (Lexer.init "a b" "root.fea") /\
  Lexer.filename_ (Lexer.set_pos_ (Lexer.init "a b" "root.fea") 1)
  = Lexer.filename_ (Lexer.init "a b" "root.fea") /\
  Lexer.pos_ (Lexer.init "a b" "root.fea")
  <= Lexer.pos_ (Lexer.set_pos_ (Lexer.init "a b" "root.fea") 1)
  <= List.length (Lexer.text_ (Lexer.init "a b" "root.fea")) /\
  Lexer.pos_ (Lexer.init "a b" "root.fea")
  < Lexer.pos_ (Lexer.set_pos_ (Lexer.init "a b" "root.fea") 1).
Proof.
  apply (scanner_cursor_invariant
           (Lexer.init "a b" "root.fea")
           (Return (NAME, StrValue "a", ("root.fea", 1%Z, 1%Z))
                   (Lexer.set_pos_ (Lexer.init "a b" "root.fea") 1))).
  - simpl. lia.
  - reflexivity.
Defined.

(** ** The raw tokens and the public ones *)

Lemma next_loop_mono (fuel fuel' : nat) (s : Lexer.t)
      (r : Outcome Token Lexer.t) :
  Lexer.next_loop fuel s = Some r -> fuel <= fuel' ->
  Lexer.next_loop fuel' s = Some r.
Proof.
  revert fuel' s; induction fuel as [|fuel IH]; intros fuel' s H Hle;
    [discriminate|].
  destruct fuel' as [|fuel']; [lia|].
  simpl in *.
  destruct (Lexer.next_ s) as [[[k v] l] s1|e s1]; [|exact H].
  destruct k; try exact H; apply IH; try exact H; lia.
Qed.

(** After a comment or a newline the loop of [__next__] goes on as a
    fresh call would. *)
Lemma Lexer_next_skip (s s1 : Lexer.t) (tok : Token) :
  Lexer.next_ s = Return tok s1 ->
  filtered (token_type tok) = true ->
  Lexer.next s = Lexer.next s1.
Proof.
  intros E K.
  destruct (Lexer_next_spec s1) as (s2 & r & _ & _ & _ & Hn).
  rewrite Hn.
  pose proof (next__facts s) as F. cbv zeta in F. rewrite E in F.
  cbn [outcome_state] in F. destruct F as (Ht & _ & _ & _ & Hlt & Hlt' & _).
  pose proof (scan_over_frame s Lexer.CHAR_WHITESPACE_)
    as (_ & _ & _ & _ & _ & Hws).
  unfold Lexer.next. cbn [Lexer.next_loop]. rewrite E.
  destruct tok as [[k v] l]. cbn [token_type fst] in K.
  destruct k; try discriminate;
    (apply next_loop_mono with (fuel := S (Lexer.text_length_ s1
                                           - Lexer.pos_ s1));
     [exact Hn | unfold Lexer.text_length_; rewrite Ht; lia]).
Qed.

Lemma Lexer_tokens_more (n n' : nat) (s : Lexer.t) (toks : list Token)
      (e : Exception) :
  Lexer_tokens n s = Some (toks, Some e) -> n <= n' ->
  Lexer_tokens n' s = Some (toks, Some e).
Proof.
  revert n' s toks; induction n as [|n IH]; intros n' s toks H Hle;
    [discriminate|].
  destruct n' as [|n']; [lia|].
  simpl in *.
  destruct (Lexer.next s) as [[tok s1|e' s1]|]; [| exact H | discriminate].
  destruct (Lexer_tokens n s1) as [[toks' e']|] eqn:E; [|discriminate].
  injection H as <- ->.
  rewrite (IH n' s1 toks' E) by lia. reflexivity.
Qed.

(** X16: the tokens the public iterator gives are the raw tokens of [next_]
    without the comments and the newlines, in the same order, and the
    iteration ends with the same exception. *)
Theorem public_tokens_are_filtered_raw_tokens
        (n : nat) (self : Lexer.t) (raw : list Token) (e : Exception) :
  raw_tokens n self = (raw, Some e) ->
  Lexer_tokens n self
  = Some (filter (fun tok => negb (filtered (token_type tok))) raw, Some e).
Proof.
  revert self raw; induction n as [|n IH]; intros self raw H;
    [discriminate|].
  cbn [raw_tokens] in H.
  destruct (Lexer.next_ self) as [tok s1|e' s1] eqn:E.
  - destruct (raw_tokens n s1) as [raw' e'] eqn:R.
    injection H as <- ->.
    specialize (IH s1 raw' R).
    cbn [filter].
    destruct (filtered (token_type tok)) eqn:K; cbn [negb].
    + cbn [Lexer_tokens]. rewrite (Lexer_next_skip self s1 tok E K).
      apply (Lexer_tokens_more n (S n)) in IH; [|lia].
      exact IH.
    + cbn [Lexer_tokens].
      assert (N : Lexer.next self = Some (Return tok s1)).
      { unfold Lexer.next. cbn [Lexer.next_loop]. rewrite E.
        destruct tok as [[k v] l]. cbn [token_type fst] in K.
        destruct k; try discriminate; reflexivity. }
      rewrite N, IH. reflexivity.
  - injection H as <- <-.
    cbn [Lexer_tokens filter].
    assert (N : Lexer.next self = Some (Raise e' s1)).
    { unfold Lexer.next. cbn [Lexer.next_loop]. rewrite E. reflexivity. }
    rewrite N. reflexivity.
Qed.

Lemma public_tokens_are_filtered_raw_tokens_witness :
  Lexer_tokens 4 (Lexer.init comment_then_name "root.fea")
  = Some ([(NAME, StrValue "foo", ("root.fea", 2%Z, 1%Z))],
          Some StopIteration).
Proof.
  apply (public_tokens_are_filtered_raw_tokens
           4 (Lexer.init comment_then_name "root.fea")
           [(COMMENT, StrValue "#c", ("root.fea", 1%Z, 1%Z));
            (NEWLINE, NoneValue, ("root.fea", 1%Z, 3%Z));
            (NAME, StrValue "foo", ("root.fea", 2%Z, 1%Z))]
           StopIteration).
  reflexivity.
Defined.

(** * More of the resolver *)

(** ** Include statements *)

(** X17: a complete include statement whose file can be opened, read while
    the stack holds fewer than five scanners, returns no token of its own:
    the resolver goes on with a new scanner over the text of that file on
    top of the stack.  The path of the file is the file name joined to the
    directory of the including file, and the including scanner stays
    below, with its cursor after the semicolon. *)
Theorem include_statement_pushes_scanner
        (fs : FileSystem) (fuel : nat) (lexer l1 l2 l3 : Lexer.t)
        (below : list Lexer.t) (f text : string) (loc floc sloc : Location) :
  Lexer.next lexer = Some (Return (NAME, StrValue "include", loc) l1) ->
  Lexer.next l1 = Some (Return (FILENAME, StrValue f, floc) l2) ->
  Lexer.next l2 = Some (Return (SYMBOL, StrValue ";", sloc) l3) ->
  List.length (lexer :: below) < 5 ->
  fs (include_path lexer f) = Opened text ->
  IncludingLexer.next fs (S fuel) (IncludingLexer.mk (lexer :: below))
  = IncludingLexer.next fs fuel
      (IncludingLexer.mk
         (Lexer.init text (include_path lexer f) :: l3 :: below)).
Proof.
  intros H0 H1 H2 Hlen Hopen.
  destruct (Lexer_next_ok lexer) as (r0 & Hn0 & _ & _ & Hf0 & _).
  rewrite H0 in Hn0; injection Hn0 as <-.
  destruct (Lexer_next_ok l1) as (r1 & Hn1 & _ & _ & Hf1 & _).
  rewrite H1 in Hn1; injection Hn1 as <-.
  destruct (Lexer_next_ok l2) as (r2 & Hn2 & _ & _ & Hf2 & _).
  rewrite H2 in Hn2; injection Hn2 as <-.
  cbn [outcome_state] in *.
  rewrite (resolver_include fs fuel lexer l1 below loc H0).
  rewrite (include_complete fs l1 l2 l3 below f floc sloc H1 H2).
  rewrite push_include_spec.
  replace (include_path l3 f) with (include_path lexer f)
    by (unfold include_path; congruence).
  rewrite Hopen.
  replace (4 <=? List.length below) with false
    by (symmetry; apply Nat.leb_gt; simpl in Hlen; lia).
  reflexivity.
Qed.

Lemma include_statement_pushes_scanner_witness :
  IncludingLexer.next two_includes 2
    (IncludingLexer.mk [Lexer.init two_includes_text "root.fea"])
  = IncludingLexer.next two_includes 1
      (IncludingLexer.mk
         [Lexer.init "foo" "a.fea";
          root_at "root.fea" 15 Lexer.MODE_NORMAL_]).
Proof.
  apply (include_statement_pushes_scanner
           two_includes 1 (Lexer.init two_includes_text "root.fea")
           (root_at "root.fea" 7 Lexer.MODE_FILENAME_)
           (root_at "root.fea" 14 Lexer.MODE_NORMAL_)
           (root_at "root.fea" 15 Lexer.MODE_NORMAL_)
           [] "a.fea" "foo"
           ("root.fea", 1%Z, 1%Z) ("root.fea", 1%Z, 8%Z)
           ("root.fea", 1%Z, 15%Z));
    first [reflexivity | simpl; lia].
Defined.

(** X18: when the token after the file name of an include statement is not
    the symbol [;], the resolver raises [FeatureLibError("Expected ';'")]
    at the location of that token; the file is not opened and nothing is
    pushed. *)
Theorem include_needs_semicolon
        (fs : FileSystem) (fuel : nat) (lexer l1 l2 l3 : Lexer.t)
        (below : list Lexer.t) (f : string) (loc floc sloc : Location)
        (k : TokenType) (v : TokenValue) :
  Lexer.next lexer = Some (Return (NAME, StrValue "include", loc) l1) ->
  Lexer.next l1 = Some (Return (FILENAME, StrValue f, floc) l2) ->
  Lexer.next l2 = Some (Return (k, v, sloc) l3) ->
  IncludingLexer.is_semicolon k v = false ->
  IncludingLexer.next fs (S fuel) (IncludingLexer.mk (lexer :: below))
  = Some (Raise (FeatureLibError "Expected ';'" sloc)
                (IncludingLexer.mk (l3 :: below))).
Proof.
  intros H0 H1 H2 Hsemi.
  rewrite (resolver_include fs fuel lexer l1 below loc H0).
  unfold IncludingLexer.include_. rewrite H1. cbn [TokenType_eqb negb].
  rewrite H2, Hsemi. reflexivity.
Qed.

Lemma include_needs_semicolon_witness :
  IncludingLexer.next (single "include(a.fea) x") 1
    (IncludingLexer.mk [Lexer.init "include(a.fea) x" "root.fea"])
  = Some (Raise (FeatureLibError "Expected ';'" ("root.fea", 1%Z, 16%Z))
            (IncludingLexer.mk
               [Lexer.mk "root.fea" 1 16 0 (chars "include(a.fea) x")
                         Lexer.MODE_NORMAL_])).
Proof.
  apply (include_needs_semicolon
           (single "include(a.fea) x") 0
           (Lexer.init "include(a.fea) x" "root.fea")
           (Lexer.mk "root.fea" 1 7 0 (chars "include(a.fea) x")
                     Lexer.MODE_FILENAME_)
           (Lexer.mk "root.fea" 1 14 0 (chars "include(a.fea) x")
                     Lexer.MODE_NORMAL_)
           (Lexer.mk "root.fea" 1 16 0 (chars "include(a.fea) x")
                     Lexer.MODE_NORMAL_)
           [] "a.fea" ("root.fea", 1%Z, 1%Z) ("root.fea", 1%Z, 8%Z)
           ("root.fea", 1%Z, 16%Z) NAME (StrValue "x"));
    reflexivity.
Defined.

(** ** The tokens of the scanner on top, then those of the scanners below *)

(** X19: when the scanner on top of the stack has no include statement
    left, the resolver returns its tokens as they are and then goes on
    with the scanners below: the tokens of an included file are spliced in
    before the rest of the including file.  If the scanner ends with an
    exception other than [StopIteration], the resolver ends with it. *)
Theorem tokens_of_top_then_below
        (fs : FileSystem) (n : nat) (top : Lexer.t) (below : list Lexer.t)
        (toks : list Token) (e : Exception) :
  Lexer_tokens n top = Some (toks, Some e) ->
  (forall tok, In tok toks ->
     IncludingLexer.is_include (token_type tok) (token_value tok) = false) ->
  forall fuel m,
    match e with
    | StopIteration =>
        forall rest e',
          IncludingLexer.tokens fs fuel m (IncludingLexer.mk below)
          = Some (rest, e') ->
          IncludingLexer.tokens fs (S fuel) (List.length toks + m)
                                (IncludingLexer.mk (top :: below))
          = Some (toks ++ rest, e')
    | _ =>
        IncludingLexer.tokens fs (S fuel) (List.length toks + S m)
                              (IncludingLexer.mk (top :: below))
        = Some (toks, Some e)
    end.
Proof.
  revert top toks; induction n as [|n IH]; intros top toks H Hinc fuel m;
    [discriminate|].
  cbn [Lexer_tokens] in H.
  destruct (Lexer.next top) as [[tok top1|e1 top1]|] eqn:N;
    [| |discriminate].
  - destruct (Lexer_tokens n top1) as [[toks1 e1]|] eqn:T; [|discriminate].
    injection H as <- ->.
    assert (Hfwd := resolver_forward fs fuel top top1 below tok N
                      (Hinc tok (or_introl eq_refl))).
    specialize (IH top1 toks1 T
                   (fun t Ht => Hinc t (or_intror Ht)) fuel m).
    destruct e; cbn [List.length Nat.add app].
    + intros rest e' Hb. rewrite tokens_step, Hfwd, (IH rest e' Hb).
      reflexivity.
    + rewrite tokens_step, Hfwd, IH. reflexivity.
    + rewrite tokens_step, Hfwd, IH. reflexivity.
    + rewrite tokens_step, Hfwd, IH. reflexivity.
    + rewrite tokens_step, Hfwd, IH. reflexivity.
  - injection H as <- <-. cbn [List.length Nat.add app].
    destruct e1.
    + intros rest e' Hb.
      destruct m as [|m]; [exact Hb|].
      rewrite tokens_step in *.
      rewrite (resolver_pop fs fuel top top1 below N).
      destruct (IncludingLexer.next fs fuel (IncludingLexer.mk below))
        as [[tok st|e0 st]|]; [| exact Hb | discriminate].
      destruct (IncludingLexer.tokens fs fuel m st) as [[toks2 e2]|] eqn:T;
        [|discriminate].
      rewrite (tokens_fuel_mono fs fuel (S fuel) m st _ T) by lia.
      exact Hb.
    + rewrite tokens_step, (resolver_raise fs fuel top top1 below _ N)
        by discriminate. reflexivity.
    + rewrite tokens_step, (resolver_raise fs fuel top top1 below _ N)
        by discriminate. reflexivity.
    + rewrite tokens_step, (resolver_raise fs fuel top top1 below _ N)
        by discriminate. reflexivity.
    + rewrite tokens_step, (resolver_raise fs fuel top top1 below _ N)
        by discriminate. reflexivity.
Qed.

Lemma tokens_of_top_then_below_witness :
  IncludingLexer.tokens two_includes 4 (1 + 2)
    (IncludingLexer.mk
       [Lexer.init "foo" "a.fea";
        root_at "root.fea" 15 Lexer.MODE_NORMAL_])
  = Some ([(NAME, StrValue "foo", ("a.fea", 1%Z, 1%Z))] ++
          [(NAME, StrValue "bar", ("b.fea", 1%Z, 1%Z))],
          Some StopIteration).
Proof.
  refine (tokens_of_top_then_below
            two_includes 2 (Lexer.init "foo" "a.fea")
            [root_at "root.fea" 15 Lexer.MODE_NORMAL_]
            [(NAME, StrValue "foo", ("a.fea", 1%Z, 1%Z))] StopIteration
            _ _ 3 2
            [(NAME, StrValue "bar", ("b.fea", 1%Z, 1%Z))]
            (Some StopIteration) _).
  - reflexivity.
  - intros tok [<-|[]]. reflexivity.
  - reflexivity.
Defined.

(** ** The file a token names *)

(** X20: every token the resolver returns names, in its location, the file
    of the scanner that is on top of the stack after the call: a token of
    an included file carries the path of that file, not the path of the
    root file. *)
Theorem token_names_its_file
        (fs : FileSystem) (fuel : nat) (self self' : IncludingLexer.t)
        (tok : Token) :
  IncludingLexer.next fs fuel self = Some (Return tok self') ->
  exists lexer below,
    IncludingLexer.lexers_ self' = lexer :: below /\
    loc_file (token_location tok) = Lexer.filename_ lexer.
Proof.
  intros H.
  apply resolver_returns in H as (_ & lexer & lexer' & below & Hn & Hs).
  exists lexer', below. split; [exact Hs|].
  destruct (Lexer_next_ok lexer) as (r & Hn' & _ & _ & Hf & Hl & _).
  rewrite Hn in Hn'; injection Hn' as <-.
  cbn [outcome_state outcome_location] in *.
  rewrite (Hl _ eq_refl). symmetry. exact Hf.
Qed.

Lemma token_names_its_file_witness :
  exists lexer below,
    IncludingLexer.lexers_
      (IncludingLexer.mk
         [Lexer.mk "a.fea" 1 3 0 (chars "foo") Lexer.MODE_NORMAL_;
          root_at "root.fea" 15 Lexer.MODE_NORMAL_])
    = lexer :: below /\
    loc_file (token_location (NAME, StrValue "foo", ("a.fea", 1%Z, 1%Z)))
    = Lexer.filename_ lexer.
Proof.
  apply (token_names_its_file
           two_includes 2
           (IncludingLexer.mk [Lexer.init two_includes_text "root.fea"])).
  reflexivity.
Defined.

(** ** Termination and the file name of an include statement *)

Lemma resolver_next_total_witness :
  exists fuel r,
    IncludingLexer.next self_including fuel
      (IncludingLexer.mk [Lexer.init "include(loop.fea);" "loop.fea"])
    = Some r.
Proof.
  apply (resolver_next_total
           self_including
           (IncludingLexer.mk [Lexer.init "include(loop.fea);" "loop.fea"])).
  simpl. lia.
Defined.

(** A file that includes itself: the fifth include statement fails. *)
Example self_including_file_fails :
  resolve self_including "loop.fea" 5 1
  = Some ([], Some (FeatureLibError TOO_MANY_INCLUDES
                                    ("loop.fea", 1%Z, 8%Z))).
Proof.
  reflexivity.
Qed.

Lemma Lexer_next_after_include_witness :
  match
    Return (FILENAME, StrValue "a.fea", ("root.fea", 1%Z, 8%Z))
           (root_at "root.fea" 14 Lexer.MODE_NORMAL_)
  with
  | Return tok _ => token_type tok = FILENAME
  | Raise _ _ => True
  end.
Proof.
  apply (Lexer_next_after_include
           (Lexer.init two_includes_text "root.fea")
           (root_at "root.fea" 7 Lexer.MODE_FILENAME_)
           ("root.fea", 1%Z, 1%Z)); reflexivity.
Defined.

Lemma minus_digits_is_number_witness :
  Lexer.next_ (Lexer.init "-7" "root.fea")
  = Return (NUMBER, IntValue (-7), ("root.fea", 1%Z, 1%Z))
           (Lexer.set_pos_ (Lexer.init "-7" "root.fea") 2).
Proof.
  apply (minus_digits_is_number (Lexer.init "-7" "root.fea") [] [] [] "7");
    first [reflexivity | exact I].
Defined.

Lemma minus_other_is_symbol_witness :
  Lexer.next_ (Lexer.init "-a" "root.fea")
  = Return (SYMBOL, StrValue "-", ("root.fea", 1%Z, 1%Z))
           (Lexer.set_pos_ (Lexer.init "-a" "root.fea") 1).
Proof.
  apply (minus_other_is_symbol (Lexer.init "-a" "root.fea") [] [] "a");
    reflexivity.
Defined.

(** ** Characters that start no token *)




(** * Strings, located in the text (C8) *)






